(** * Invoice management server: a shallow embedding of [index.js]

    The Express application of [index.js] keeps three MongoDB collections
    (vendors, invoices, the activity log) in step with the Stripe payment
    processor.  Every route handler is an [async] function that talks to
    the store, to Stripe, to the console and to the response object.  Here
    each handler is a computation in a reader/state/exception monad [M]:

    - the reader component [Env] holds what the handler cannot decide
      itself: the answers of the Stripe API, the library functions
      ([jwt], [bcrypt], number and date printing), the clock and the
      generator of document identifiers;
    - the state component [St] holds the collections, the chronological
      list of effects performed so far, and the response object;
    - an exception is a rejected promise or a thrown [Error].

    The store is the in-memory content of the collections.  Its operations
    fail exactly where the schemas say so ([required], [unique]); the
    availability of the database server is not part of the model. *)

From Stdlib Require Import String Ascii List ZArith Bool Lia.
From Stdlib Require Import Sorting.Sorted Sorting.Permutation.
From Stdlib Require Import Floats.PrimFloat.
From Stdlib Require Import DecimalString.
From Stdlib Require Import Classes.RelationClasses.
Import ListNotations.
Set Warnings "-register-all".
Local Open Scope list_scope.
Local Open Scope string_scope.

(* ------------------------------------------------------------------ *)
(** ** JavaScript values *)

(** A JavaScript number is an IEEE-754 binary64. *)
Definition Number := float.

(** A [Date], as milliseconds since the epoch. *)
Definition Date := Z.

(** A MongoDB [ObjectId], as its hexadecimal string. *)
Definition ObjectId := string.

(** A thrown [Error]: the handlers only ever read [error.message]. *)
Record JsError := mkError { message : string }.

(** The values handed to [res.json]. *)
Inductive Value :=
| VNull
| VBool (b : bool)
| VNum (n : Number)
| VStr (s : string)
| VDate (d : Date)
| VArr (items : list Value)
| VObj (fields : list (string * Value)).

Definition VOptStr (o : option string) : Value :=
  match o with Some s => VStr s | None => VNull end.

Definition VOptDate (o : option Date) : Value :=
  match o with Some d => VDate d | None => VNull end.

(** Truthiness of a string-valued expression that may be [undefined]:
    [!x] holds for [undefined] and for the empty string. *)
Definition truthy (o : option string) : bool :=
  match o with
  | Some EmptyString => false
  | Some _ => true
  | None => false
  end.

(** Truthiness of a JSON value that may be [undefined]: [!x] holds for
    [undefined], [null], [false], [0], [NaN] and the empty string. *)
Definition truthyValue (o : option Value) : bool :=
  match o with
  | None | Some VNull => false
  | Some (VBool b) => b
  | Some (VNum n) => negb (PrimFloat.eqb n 0%float || PrimFloat.is_nan n)
  | Some (VStr s) => truthy (Some s)
  | Some (VDate _) | Some (VArr _) | Some (VObj _) => true
  end.

(** [x || d] on a string that may be [null]. *)
Definition orElse (o : option string) (d : string) : string :=
  if truthy o then match o with Some s => s | None => d end else d.

(* ------------------------------------------------------------------ *)
(** ** The Mongoose schemas (index.js, lines 21-56) *)

Module VendorSchema.
Record t := mk {
  _id : ObjectId;
  username : string;                       (* required, unique *)
  password : string;                       (* required *)
  approved : bool;                         (* default false *)
  customers : list string;                 (* Stripe customer ids *)
  stripeCustomerId : string;               (* required *)
  subscriptionStatus : string;             (* default 'trialing' *)
  trialEndsAt : option Date;
  stripeConnectAccountId : option string   (* default null *)
}.
End VendorSchema.

Module InvoiceSchema.
Record t := mk {
  _id : ObjectId;
  id : string;                             (* required, unique: Stripe invoice id *)
  customerId : string;                     (* required *)
  amount : Number;                         (* required *)
  description : string;
  invoiceUrl : option string;
  status : string;                         (* default 'open' *)
  createdAt : Date                         (* default Date.now *)
}.
End InvoiceSchema.

Module ActivityLogSchema.
Record t := mk {
  _id : ObjectId;
  eventType : string;                      (* required *)
  description : string;                    (* required *)
  timestamp : Date;                        (* default Date.now *)
  relatedId : option string
}.
End ActivityLogSchema.

(** The three collections, each in insertion order. *)
Record Db := mkDb {
  vendors : list VendorSchema.t;
  invoices : list InvoiceSchema.t;
  activityLogs : list ActivityLogSchema.t
}.

Inductive Collection := Vendors | Invoices | ActivityLogs.

(** A write to the store, as it is recorded among the effects. *)
Inductive Write :=
| Inserted (c : Collection) (doc : ObjectId)
| Updated (c : Collection) (doc : ObjectId).

(* ------------------------------------------------------------------ *)
(** ** The Stripe API, as far as the server reads it *)

Module Stripe.

Module Customer.
Record t := mk {
  id : string;
  name : option string;
  email : option string;
  phone : option string;
  (* [invoice_settings] is absent on a deleted customer; when present,
     [default_payment_method] is null or the expanded payment method,
     kept here by its id. *)
  invoice_settings : option (option string)
}.
End Customer.

Module Invoice.
Record t := mk {
  id : string;
  hosted_invoice_url : option string;
  status : string;                         (* draft, open, paid, ... *)
  amount_due : Number;
  currency : string;
  created : Z
}.
End Invoice.

Module Subscription.
Record t := mk { id : string; status : string }.
End Subscription.

(** [event.data.object]: the fields the webhook reads, whatever the kind
    of object (dispute, subscription, invoice, payout, charge). *)
Module Object.
Record t := mk {
  id : string;
  charge : string;
  customer : string;
  status : string;
  amount : Number;
  amount_refunded : Number;
  currency : string;
  failure_code : option string
}.
End Object.

Module Event.
Record t := mk {
  id : string;                             (* evt_... *)
  type : string;
  data_object : Object.t
}.
End Event.

(** One request to Stripe, with the arguments the server passes. *)
Inductive Call :=
| customers_create (email name description phone : option string)
| customers_retrieve (id : string)
| customers_update (id default_payment_method : string)
| invoiceItems_create (customer : string) (amount : Number) (currency description : string)
| invoices_create (customer collection_method : string)
| invoices_finalizeInvoice (id : string)
| invoices_list (customer : string)
| refunds_create (charge : string)
| paymentMethods_list (customer : string)
| paymentMethods_attach (paymentMethod customer : string)
| paymentIntents_create (customer : string) (amount : Number) (payment_method : string)
| setupIntents_create (customer : string)
| subscriptions_create (customer price : string)
| subscriptions_list (customer : string)
| subscriptions_cancel (id : string)
| payouts_create (amount : Number) (stripeAccount : string)
| payouts_list (stripeAccount : string)
| accounts_create (email : string)
| accountLinks_create (account : string).

End Stripe.

Inductive result (A : Type) :=
| Ok (a : A)
| Throw (e : JsError).
Arguments Ok {A} a.
Arguments Throw {A} e.

(** What Stripe answers.  Each field is the outcome of the call of the
    same name: a value, or the error the returned promise rejects with. *)
Record StripeApi := mkStripe {
  on_customers_create : option string -> option string -> option string -> option string
                        -> result Stripe.Customer.t;
  on_customers_retrieve : string -> result Stripe.Customer.t;
  on_customers_update : string -> string -> result unit;
  on_invoiceItems_create : string -> Number -> string -> string -> result unit;
  on_invoices_create : string -> string -> result Stripe.Invoice.t;
  on_invoices_finalizeInvoice : string -> result Stripe.Invoice.t;
  on_invoices_list : string -> result (list Stripe.Invoice.t);
  on_refunds_create : string -> result unit;
  on_paymentMethods_list : string -> result (list string);
  on_paymentMethods_attach : string -> string -> result unit;
  on_paymentIntents_create : string -> Number -> string -> result string;
  on_setupIntents_create : string -> result string;
  on_subscriptions_create : string -> string -> result Stripe.Subscription.t;
  on_subscriptions_list : string -> result (list Stripe.Subscription.t);
  on_subscriptions_cancel : string -> result Stripe.Subscription.t;
  on_payouts_create : Number -> string -> result string;
  on_payouts_list : string -> result (list Value);
  on_accounts_create : string -> result string;
  on_accountLinks_create : string -> result string;
  (* [stripe.webhooks.constructEvent(body, signature, secret)] *)
  webhooks_constructEvent : string -> option string -> option string -> result Stripe.Event.t
}.

(* ------------------------------------------------------------------ *)
(** ** HTTP *)

(** [req.user], the payload of a verified token. *)
Record User := mkUser { user_username : string; user_role : string }.

Inductive Body :=
| Json (v : Value)
| Text (s : string).

Inductive CookieOp :=
| SetCookie (name value : string) (secure : bool)
| ClearCookie (name : string) (secure : bool).

Record Response := mkResponse {
  statusCode : Z;
  setCookies : list CookieOp;
  body : Body
}.

(* ------------------------------------------------------------------ *)
(** ** The environment of a request *)

Record Env := mkEnv {
  stripe : StripeApi;
  (* process.env *)
  JWT_SECRET : option string;
  STRIPE_WEBHOOK_SECRET : option string;
  NODE_ENV : option string;
  (* jsonwebtoken *)
  jwt_sign : User -> option string -> result string;
  jwt_verify : string -> option string -> result User;
  (* bcryptjs *)
  bcrypt_hash : string -> string;
  bcrypt_compare : Value -> string -> result bool;
  (* the clock and the ObjectId generator, read at a given moment: the
     moment is the number of effects performed so far *)
  Date_now : nat -> Date;
  newObjectId : nat -> ObjectId;
  (* built-ins of the language and of MongoDB *)
  numberToString : Number -> string;
  inspect : Value -> string;
  toUpperCase : string -> string;
  toLocaleDateString : Z -> string;
  regexMatchI : string -> string -> bool;
  (* [String(v)], as a template literal applies it to a value that is not
     a string *)
  toString_ : Value -> string;
  (* the event loop: of the callbacks of a [Promise.all] that wait for a
     request to settle, the one that goes on next, step by step *)
  resume : nat -> nat
}.

(* ------------------------------------------------------------------ *)
(** ** Effects and the handler monad *)

Inductive Level := LogLevel | ErrorLevel.

Inductive Effect :=
| Console (level : Level) (msg : string)
| StripeCall (c : Stripe.Call)
| DbWrite (w : Write)
| Sent (r : Response).

(** The response object [res] of the request being served. *)
Record Res := mkRes {
  pendingCookies : list CookieOp;
  sent : option Response
}.

Record St := mkSt {
  db : Db;
  effects : list Effect;
  res : Res
}.

Definition M (A : Type) : Type := Env -> St -> result A * St.

Definition ret {A} (a : A) : M A := fun _ s => (Ok a, s).

Definition throw {A} (e : JsError) : M A := fun _ s => (Throw e, s).

Definition bind {A B} (m : M A) (k : A -> M B) : M B :=
  fun env s =>
    match m env s with
    | (Ok a, s') => k a env s'
    | (Throw e, s') => (Throw e, s')
    end.

(** [try { body } catch (e) { handler e }] *)
Definition try_catch {A} (body : M A) (handler : JsError -> M A) : M A :=
  fun env s =>
    match body env s with
    | (Ok a, s') => (Ok a, s')
    | (Throw e, s') => handler e env s'
    end.

Declare Scope js_scope.
Delimit Scope js_scope with js.
Notation "x <- m ;; k" := (bind m (fun x => k))
  (at level 100, m at next level, right associativity) : js_scope.
Notation "m ;; k" := (bind m (fun _ => k))
  (at level 100, right associativity) : js_scope.
Local Open Scope js_scope.

Definition ask : M Env := fun env s => (Ok env, s).

Definition getDb : M Db := fun _ s => (Ok (db s), s).

Definition putDb (d : Db) : M unit :=
  fun _ s => (Ok tt, mkSt d (effects s) (res s)).

Definition perform (e : Effect) : M unit :=
  fun _ s => (Ok tt, mkSt (db s) (effects s ++ [e]) (res s)).

(** The current moment: how many effects have been performed. *)
Definition moment : M nat := fun _ s => (Ok (length (effects s)), s).

Definition liftResult {A} (r : result A) : M A :=
  match r with
  | Ok a => ret a
  | Throw e => throw e
  end.

Definition console_log (msg : string) : M unit := perform (Console LogLevel msg).
Definition console_error (msg : string) : M unit := perform (Console ErrorLevel msg).

(** An awaited Stripe call: the request is made, then its outcome is
    returned or thrown. *)
Definition stripeCall {A} (c : Stripe.Call) (answer : StripeApi -> result A) : M A :=
  perform (StripeCall c) ;;
  env <- ask ;;
  liftResult (answer (stripe env)).

(** [Date.now()] *)
Definition Date_now_ : M Date :=
  n <- moment ;;
  env <- ask ;;
  ret (Date_now env n).

(** The identifier Mongoose gives a document when it is constructed. *)
Definition freshObjectId : M ObjectId :=
  n <- moment ;;
  env <- ask ;;
  ret (newObjectId env n).

(* ------------------------------------------------------------------ *)
(** ** The response object *)

Definition ERR_HTTP_HEADERS_SENT : JsError :=
  mkError "Cannot set headers after they are sent to the client".

(** Sending a response; a second send on the same request throws. *)
Definition send (code : Z) (b : Body) : M unit :=
  fun _ s =>
    match sent (res s) with
    | Some _ => (Throw ERR_HTTP_HEADERS_SENT, s)
    | None =>
        let r := mkResponse code (pendingCookies (res s)) b in
        (Ok tt, mkSt (db s) (effects s ++ [Sent r])
                     (mkRes (pendingCookies (res s)) (Some r)))
    end.

(** [res.status(code).json(v)] *)
Definition res_status_json (code : Z) (v : Value) : M unit := send code (Json v).

(** [res.json(v)]: the status stays at its default, 200. *)
Definition res_json (v : Value) : M unit := send 200 (Json v).

(** [res.status(code).send(text)] *)
Definition res_status_send (code : Z) (text : string) : M unit := send code (Text text).

(** [res.send(text)] *)
Definition res_send (text : string) : M unit := send 200 (Text text).

Definition statusText (code : Z) : string :=
  if (code =? 401)%Z then "Unauthorized"
  else if (code =? 403)%Z then "Forbidden"
  else "".

(** [res.sendStatus(code)] *)
Definition res_sendStatus (code : Z) : M unit := send code (Text (statusText code)).

Definition addCookie (c : CookieOp) : M unit :=
  fun _ s =>
    match sent (res s) with
    | Some _ => (Throw ERR_HTTP_HEADERS_SENT, s)
    | None => (Ok tt, mkSt (db s) (effects s)
                           (mkRes (pendingCookies (res s) ++ [c]) None))
    end.

(** [secure: process.env.NODE_ENV === 'production'] *)
Definition secureCookies (env : Env) : bool :=
  match NODE_ENV env with
  | Some v => String.eqb v "production"
  | None => false
  end.

(** [res.cookie('token', token, { httpOnly, secure, sameSite })] *)
Definition res_cookie (name value : string) : M unit :=
  env <- ask ;;
  addCookie (SetCookie name value (secureCookies env)).

(** [res.clearCookie('token', { httpOnly, secure, sameSite })] *)
Definition res_clearCookie (name : string) : M unit :=
  env <- ask ;;
  addCookie (ClearCookie name (secureCookies env)).

Definition message_ (m : string) : Value := VObj [("message", VStr m)].

Definition message_error (m : string) (e : JsError) : Value :=
  VObj [("message", VStr m); ("error", VStr (message e))].

(* ------------------------------------------------------------------ *)
(** ** Collections: the operations of a Mongoose model *)

(** [updateFirst p f l] rewrites the first element of [l] that satisfies
    [p] and returns it as rewritten. *)
Fixpoint updateFirst {A} (p : A -> bool) (f : A -> A) (l : list A) : option A * list A :=
  match l with
  | [] => (None, [])
  | x :: rest =>
      if p x then (Some (f x), f x :: rest)
      else let (o, rest') := updateFirst p f rest in (o, x :: rest')
  end.

Definition nonEmpty (s : string) : bool :=
  match s with EmptyString => false | _ => true end.

Definition ValidationError (model path : string) : JsError :=
  mkError (model ++ " validation failed: " ++ path ++ ": Path `" ++ path ++ "` is required.").

Definition DuplicateKeyError (collection key : string) : JsError :=
  mkError ("E11000 duplicate key error collection: " ++ collection ++ " index: " ++ key ++ "_1 dup key").

Definition DocumentNotFoundError (model : string) : JsError :=
  mkError ("No document found for query on model " ++ model).

Module Vendor.
Import VendorSchema.

(** One key of a filter object; a filter is the conjunction of its keys. *)
Inductive Cond :=
| username_is (u : string)
| username_regex (pattern : string)           (* { $regex, $options: 'i' } *)
| approved_is (b : bool)
| subscriptionStatus_is (s : string)
| stripeCustomerId_is (c : string).

Definition holds (env : Env) (c : Cond) (v : t) : bool :=
  match c with
  | username_is u => String.eqb (username v) u
  | username_regex p => regexMatchI env p (username v)
  | approved_is b => Bool.eqb (approved v) b
  | subscriptionStatus_is s => String.eqb (subscriptionStatus v) s
  | stripeCustomerId_is c => String.eqb (stripeCustomerId v) c
  end.

Definition matches (env : Env) (filter : list Cond) (v : t) : bool :=
  forallb (fun c => holds env c v) filter.

(** One key of an update object. *)
Inductive Assign :=
| set_approved (b : bool)
| set_subscriptionStatus (s : string).

Definition assign (a : Assign) (v : t) : t :=
  match a with
  | set_approved b =>
      mk (_id v) (username v) (password v) b (customers v) (stripeCustomerId v)
         (subscriptionStatus v) (trialEndsAt v) (stripeConnectAccountId v)
  | set_subscriptionStatus s =>
      mk (_id v) (username v) (password v) (approved v) (customers v) (stripeCustomerId v)
         s (trialEndsAt v) (stripeConnectAccountId v)
  end.

Definition applyUpdate (update : list Assign) (v : t) : t :=
  fold_left (fun acc a => assign a acc) update v.

Definition setVendors (d : Db) (vs : list t) : Db :=
  mkDb vs (invoices d) (activityLogs d).

Definition findOne (filter : list Cond) : M (option t) :=
  env <- ask ;;
  d <- getDb ;;
  ret (List.find (matches env filter) (vendors d)).

Definition find (filter : list Cond) : M (list t) :=
  env <- ask ;;
  d <- getDb ;;
  ret (List.filter (matches env filter) (vendors d)).

Definition countDocuments (filter : list Cond) : M nat :=
  env <- ask ;;
  d <- getDb ;;
  ret (length (List.filter (matches env filter) (vendors d))).

(** [findOneAndUpdate(filter, update, { new: true })] *)
Definition findOneAndUpdate (filter : list Cond) (update : list Assign) : M (option t) :=
  env <- ask ;;
  d <- getDb ;;
  match updateFirst (matches env filter) (applyUpdate update) (vendors d) with
  | (Some v, vs) =>
      putDb (setVendors d vs) ;;
      perform (DbWrite (Updated Vendors (_id v))) ;;
      ret (Some v)
  | (None, _) => ret None
  end.

(** [new Vendor({...}).save()] on a document not yet stored. *)
Definition insert (v : t) : M unit :=
  d <- getDb ;;
  if negb (nonEmpty (username v)) then throw (ValidationError "Vendor" "username")
  else if negb (nonEmpty (password v)) then throw (ValidationError "Vendor" "password")
  else if negb (nonEmpty (stripeCustomerId v)) then throw (ValidationError "Vendor" "stripeCustomerId")
  else if existsb (fun w => String.eqb (username w) (username v)) (vendors d)
  then throw (DuplicateKeyError "vendors" "username")
  else
    putDb (setVendors d (vendors d ++ [v])) ;;
    perform (DbWrite (Inserted Vendors (_id v))).

(** [vendor.save()] on a document that was read from the store. *)
Definition save (v : t) : M unit :=
  d <- getDb ;;
  match updateFirst (fun w => String.eqb (_id w) (_id v)) (fun _ => v) (vendors d) with
  | (Some _, vs) =>
      putDb (setVendors d vs) ;;
      perform (DbWrite (Updated Vendors (_id v)))
  | (None, _) => throw (DocumentNotFoundError "Vendor")
  end.

(** The document as [res.json] serialises it (without the version key
    Mongoose maintains). *)
Definition toJSON (v : t) : Value :=
  VObj [("_id", VStr (_id v));
        ("username", VStr (username v));
        ("password", VStr (password v));
        ("approved", VBool (approved v));
        ("customers", VArr (map VStr (customers v)));
        ("stripeCustomerId", VStr (stripeCustomerId v));
        ("subscriptionStatus", VStr (subscriptionStatus v));
        ("trialEndsAt", VOptDate (trialEndsAt v));
        ("stripeConnectAccountId", VOptStr (stripeConnectAccountId v))].

End Vendor.

Module Invoice.
Import InvoiceSchema.

Inductive Cond :=
| id_is (i : string)
| customerId_is (c : string)
| customerId_in (cs : list string).           (* { $in: cs } *)

Definition holds (c : Cond) (i : t) : bool :=
  match c with
  | id_is x => String.eqb (id i) x
  | customerId_is x => String.eqb (customerId i) x
  | customerId_in xs => existsb (String.eqb (customerId i)) xs
  end.

Definition matches (filter : list Cond) (i : t) : bool :=
  forallb (fun c => holds c i) filter.

Inductive Assign :=
| set_status (s : string).

Definition assign (a : Assign) (i : t) : t :=
  match a with
  | set_status s =>
      mk (_id i) (id i) (customerId i) (amount i) (description i) (invoiceUrl i) s (createdAt i)
  end.

Definition applyUpdate (update : list Assign) (i : t) : t :=
  fold_left (fun acc a => assign a acc) update i.

Definition setInvoices (d : Db) (l : list t) : Db :=
  mkDb (vendors d) l (activityLogs d).

Definition find (filter : list Cond) : M (list t) :=
  d <- getDb ;;
  ret (List.filter (matches filter) (invoices d)).

(** [findOneAndUpdate(filter, update, { new: true })] *)
Definition findOneAndUpdate (filter : list Cond) (update : list Assign) : M (option t) :=
  d <- getDb ;;
  match updateFirst (matches filter) (applyUpdate update) (invoices d) with
  | (Some i, l) =>
      putDb (setInvoices d l) ;;
      perform (DbWrite (Updated Invoices (_id i))) ;;
      ret (Some i)
  | (None, _) => ret None
  end.

(** [new Invoice({ id, customerId, amount, description, invoiceUrl, status }).save()] *)
Definition create (id_ customerId_ : string) (amount_ : Number) (description_ : string)
    (invoiceUrl_ : option string) (status_ : string) : M t :=
  oid <- freshObjectId ;;
  now <- Date_now_ ;;
  d <- getDb ;;
  let i := mk oid id_ customerId_ amount_ description_ invoiceUrl_ status_ now in
  if negb (nonEmpty id_) then throw (ValidationError "Invoice" "id")
  else if negb (nonEmpty customerId_) then throw (ValidationError "Invoice" "customerId")
  else if PrimFloat.is_nan amount_ then throw (ValidationError "Invoice" "amount")
  else if existsb (fun j => String.eqb (id j) id_) (invoices d)
  then throw (DuplicateKeyError "invoices" "id")
  else
    putDb (setInvoices d (invoices d ++ [i])) ;;
    perform (DbWrite (Inserted Invoices oid)) ;;
    ret i.

Definition toJSON (i : t) : Value :=
  VObj [("_id", VStr (_id i));
        ("id", VStr (id i));
        ("customerId", VStr (customerId i));
        ("amount", VNum (amount i));
        ("description", VStr (description i));
        ("invoiceUrl", VOptStr (invoiceUrl i));
        ("status", VStr (status i));
        ("createdAt", VDate (createdAt i))].

End Invoice.

Module ActivityLog.
Import ActivityLogSchema.

Inductive Cond :=
| description_regex (pattern : string)        (* { $regex, $options: 'i' } *)
| eventType_is (e : string).

Definition holds (env : Env) (c : Cond) (a : t) : bool :=
  match c with
  | description_regex p => regexMatchI env p (description a)
  | eventType_is e => String.eqb (eventType a) e
  end.

Definition matches (env : Env) (filter : list Cond) (a : t) : bool :=
  forallb (fun c => holds env c a) filter.

Definition setActivityLogs (d : Db) (l : list t) : Db :=
  mkDb (vendors d) (invoices d) l.

(** [ActivityLog.create({ eventType, description, relatedId })]: the
    timestamp takes its default, [Date.now]. *)
Definition create (eventType_ description_ : string) (relatedId_ : option string) : M t :=
  oid <- freshObjectId ;;
  now <- Date_now_ ;;
  d <- getDb ;;
  let a := mk oid eventType_ description_ now relatedId_ in
  if negb (nonEmpty eventType_) then throw (ValidationError "ActivityLog" "eventType")
  else if negb (nonEmpty description_) then throw (ValidationError "ActivityLog" "description")
  else
    putDb (setActivityLogs d (activityLogs d ++ [a])) ;;
    perform (DbWrite (Inserted ActivityLogs oid)) ;;
    ret a.

(** Insertion into a list kept in descending order of timestamp; among
    equal timestamps the earlier element stays first. *)
Fixpoint insertDesc (a : t) (l : list t) : list t :=
  match l with
  | [] => [a]
  | b :: rest =>
      if (timestamp b <? timestamp a)%Z then a :: b :: rest
      else b :: insertDesc a rest
  end.

(** [.sort({ timestamp: -1 })] *)
Definition sortDesc (l : list t) : list t :=
  fold_right insertDesc [] l.

(** [ActivityLog.find(query).sort({ timestamp: -1 })] *)
Definition find_sort (filter : list Cond) : M (list t) :=
  env <- ask ;;
  d <- getDb ;;
  ret (sortDesc (List.filter (matches env filter) (activityLogs d))).

Definition toJSON (a : t) : Value :=
  VObj [("_id", VStr (_id a));
        ("eventType", VStr (eventType a));
        ("description", VStr (description a));
        ("timestamp", VDate (timestamp a));
        ("relatedId", VOptStr (relatedId a))].

End ActivityLog.

(* ------------------------------------------------------------------ *)
(** ** Middleware *)

(** [`${x}`] on a string that may be [undefined]. *)
Definition showOpt (o : option string) : string :=
  match o with Some s => s | None => "undefined" end.

(** [console.log(msg, value)] *)
Definition console_log_with (msg : string) (v : Value) : M unit :=
  env <- ask ;;
  console_log (msg ++ " " ++ inspect env v).

(** [console.error(msg, error)] *)
Definition console_error_with (msg : string) (e : JsError) : M unit :=
  console_error (msg ++ " " ++ message e).

(** [jwt.sign(payload, JWT_SECRET, { expiresIn: '1h' })] *)
Definition jwt_sign_ (payload : User) : M string :=
  env <- ask ;;
  liftResult (jwt_sign env payload (JWT_SECRET env)).

(** [authenticateToken] (lines 59-72): [token] is [req.cookies.token],
    [next] the rest of the route, which receives [req.user]. *)
Definition authenticateToken (token : option string) (next : User -> M unit) : M unit :=
  match token with
  | None => res_sendStatus 401
  | Some tok =>
      env <- ask ;;
      match jwt_verify env tok (JWT_SECRET env) with
      | Throw err =>
          console_error_with "JWT Verification Error:" err ;;
          res_sendStatus 403
      | Ok user => next user
      end
  end.

(* ------------------------------------------------------------------ *)
(** ** POST /login (lines 141-177) *)

Definition loginPayload (v : VendorSchema.t) : Value :=
  VObj [("username", VStr (VendorSchema.username v));
        ("approved", VBool (VendorSchema.approved v));
        ("role", VStr "vendor");
        ("subscriptionStatus", VStr (VendorSchema.subscriptionStatus v));
        ("trialEndsAt", VOptDate (VendorSchema.trialEndsAt v))].

(** [`${x}`] on a field of the body: any JSON value, or [undefined]. *)
Definition showValue (env : Env) (o : option Value) : string :=
  match o with
  | None => "undefined"
  | Some (VStr s) => s
  | Some v => toString_ env v
  end.

(** A field of the body that the handler has found truthy. *)
Definition given (o : option Value) : Value :=
  match o with Some v => v | None => VNull end.

(** [password] is [req.body.password] as the JSON parser left it: the
    handler hands it to [bcrypt.compare] whatever its type (line 156), and
    a rejection of [bcrypt.compare] ends in the [catch] of line 173. *)
Definition login (username : option string) (password : option Value) : M unit :=
  env <- ask ;;
  console_log ("Login attempt for username: " ++ showOpt username
               ++ ", password: " ++ showValue env password) ;;
  if negb (truthy username) || negb (truthyValue password) then
    res_status_json 400 (message_ "Username and password are required.")
  else
    try_catch
      (vendor <- Vendor.findOne [Vendor.username_is (showOpt username)] ;;
       match vendor with
       | None => res_status_json 401 (message_ "Invalid credentials.")
       | Some vendor =>
           isMatch <- liftResult (bcrypt_compare env (given password)
                                    (VendorSchema.password vendor)) ;;
           if negb isMatch then
             res_status_json 401 (message_ "Invalid credentials.")
           else if negb (VendorSchema.approved vendor) then
             res_status_json 403 (message_ "Your account is awaiting admin approval.")
           else
             token <- jwt_sign_ (mkUser (VendorSchema.username vendor) "vendor") ;;
             res_cookie "token" token ;;
             res_status_json 200
               (VObj [("message", VStr "Login successful!");
                      ("vendor", loginPayload vendor)])
       end)
      (fun error =>
         console_error_with "Error during vendor login:" error ;;
         res_status_json 500 (message_error "Login failed." error)).

(* ------------------------------------------------------------------ *)
(** ** POST /create-invoice (lines 377-438) *)

(** [customer.invoice_settings && customer.invoice_settings.default_payment_method] *)
Definition hasDefaultPaymentMethod (customer : Stripe.Customer.t) : bool :=
  match Stripe.Customer.invoice_settings customer with
  | Some (Some _) => true
  | _ => false
  end.

Definition invoiceCreated (msg : string) (invoice : Stripe.Invoice.t) : Value :=
  VObj [("message", VStr msg);
        ("invoiceId", VStr (Stripe.Invoice.id invoice));
        ("invoiceUrl", VOptStr (Stripe.Invoice.hosted_invoice_url invoice))].

Definition create_invoice (customerId : string) (amount : Number) (description : string)
    : M unit :=
  try_catch
    (env <- ask ;;
     stripeCall (Stripe.invoiceItems_create customerId (amount * 100)%float "usd" description)
       (fun api => on_invoiceItems_create api customerId (amount * 100)%float "usd" description) ;;
     customer <- stripeCall (Stripe.customers_retrieve customerId)
       (fun api => on_customers_retrieve api customerId) ;;
     if hasDefaultPaymentMethod customer then
       invoice <- stripeCall (Stripe.invoices_create customerId "charge_automatically")
         (fun api => on_invoices_create api customerId "charge_automatically") ;;
       invoice <- stripeCall (Stripe.invoices_finalizeInvoice (Stripe.Invoice.id invoice))
         (fun api => on_invoices_finalizeInvoice api (Stripe.Invoice.id invoice)) ;;
       res_status_json 200
         (invoiceCreated "Invoice created and charged automatically!" invoice) ;;
       Invoice.create (Stripe.Invoice.id invoice) customerId amount description
         (Stripe.Invoice.hosted_invoice_url invoice) "paid" ;;
       ActivityLog.create "invoice_created_and_paid"
         ("Invoice created and automatically paid for customer " ++ customerId
          ++ ". Amount: " ++ numberToString env amount)
         (Some (Stripe.Invoice.id invoice)) ;;
       ret tt
     else
       invoice <- stripeCall (Stripe.invoices_create customerId "send_invoice")
         (fun api => on_invoices_create api customerId "send_invoice") ;;
       res_status_json 200
         (invoiceCreated "Invoice created successfully (manual send required)!" invoice) ;;
       Invoice.create (Stripe.Invoice.id invoice) customerId amount description
         (Stripe.Invoice.hosted_invoice_url invoice) "open" ;;
       ActivityLog.create "invoice_created"
         ("Invoice created for customer " ++ customerId ++ ". Amount: "
          ++ numberToString env amount ++ ". Manual send required.")
         (Some (Stripe.Invoice.id invoice)) ;;
       ret tt)
    (fun error =>
       console_error_with "Error creating Invoice:" error ;;
       res_status_json 500 (message_error "Failed to create Invoice." error)).

(* ------------------------------------------------------------------ *)
(** ** POST /stripe-webhook (lines 526-653) *)

(** *** The [switch] statement

    A clause of a [switch] is a label ([None] for [default]) and a list of
    statements; a statement of the webhook's switch is either the body of
    an event handler or a [break].  Execution enters at the first clause
    whose label equals the discriminant, or at [default] when there is
    none, and runs on through the following clauses until a [break]. *)

Inductive Stmt :=
| Exec (handler : Stripe.Event.t -> M unit)
| Break.

Record Clause := mkClause {
  label : option string;
  consequent : list Stmt
}.

(** The bodies a statement list runs, and whether it ended on a [break]. *)
Fixpoint runStmts (ss : list Stmt) : list (Stripe.Event.t -> M unit) * bool :=
  match ss with
  | [] => ([], false)
  | Break :: _ => ([], true)
  | Exec h :: rest => let (hs, broke) := runStmts rest in (h :: hs, broke)
  end.

(** Execution from the head of [cs] on: each body run, with the label of
    the clause it stands in. *)
Fixpoint fallThrough (cs : list Clause) : list (option string * (Stripe.Event.t -> M unit)) :=
  match cs with
  | [] => []
  | c :: rest =>
      let (hs, broke) := runStmts (consequent c) in
      map (pair (label c)) hs ++ (if broke then [] else fallThrough rest)
  end.

Fixpoint findClause (discriminant : string) (cs : list Clause) : option (list Clause) :=
  match cs with
  | [] => None
  | c :: rest =>
      match label c with
      | Some l => if String.eqb l discriminant then Some cs else findClause discriminant rest
      | None => findClause discriminant rest
      end
  end.

Fixpoint findDefault (cs : list Clause) : option (list Clause) :=
  match cs with
  | [] => None
  | c :: rest =>
      match label c with
      | None => Some cs
      | Some _ => findDefault rest
      end
  end.

(** The bodies [switch (discriminant) { cs }] executes, in order. *)
Definition selected (cs : list Clause) (discriminant : string)
    : list (option string * (Stripe.Event.t -> M unit)) :=
  match findClause discriminant cs with
  | Some entry => fallThrough entry
  | None =>
      match findDefault cs with
      | Some entry => fallThrough entry
      | None => []
      end
  end.

Fixpoint sequence (ms : list (M unit)) : M unit :=
  match ms with
  | [] => ret tt
  | m :: rest => m ;; sequence rest
  end.

Definition runSwitch (cs : list Clause) (event : Stripe.Event.t) : M unit :=
  sequence (map (fun b => snd b event) (selected cs (Stripe.Event.type event))).

(** *** The event handlers *)

(** [case 'charge.dispute.created'] (lines 539-567) *)
Definition on_charge_dispute_created (event : Stripe.Event.t) : M unit :=
  let dispute := Stripe.Event.data_object event in
  let charge := Stripe.Object.charge dispute in
  console_log ("Fraud warning: Dispute created for charge " ++ charge ++ ".") ;;
  try_catch
    (stripeCall (Stripe.refunds_create charge) (fun api => on_refunds_create api charge) ;;
     console_log ("Auto-refund initiated for charge " ++ charge ++ ".") ;;
     console_log ("ADMIN NOTIFICATION: Fraud warning for charge " ++ charge
                  ++ ". Auto-refund initiated.") ;;
     ActivityLog.create "fraud_warning_refund"
       ("Fraud warning: Dispute created for charge " ++ charge ++ ". Auto-refund initiated.")
       (Some charge) ;;
     ret tt)
    (fun refundError =>
       console_error_with ("Error initiating auto-refund for charge " ++ charge ++ ":")
         refundError ;;
       console_log ("ADMIN NOTIFICATION: Fraud warning for charge " ++ charge
                    ++ ". Auto-refund FAILED.") ;;
       ActivityLog.create "fraud_warning_refund_failed"
         ("Fraud warning: Dispute created for charge " ++ charge
          ++ ". Auto-refund FAILED. Error: " ++ message refundError)
         (Some charge) ;;
       ret tt).

(** [case 'customer.subscription.updated'] (lines 568-593) *)
Definition on_customer_subscription_updated (event : Stripe.Event.t) : M unit :=
  let subscription := Stripe.Event.data_object event in
  let stripeCustomerId := Stripe.Object.customer subscription in
  let newStatus := Stripe.Object.status subscription in
  console_log ("Subscription updated for customer " ++ stripeCustomerId
               ++ ". New status: " ++ newStatus) ;;
  try_catch
    (vendor <- Vendor.findOneAndUpdate
                 [Vendor.stripeCustomerId_is stripeCustomerId]
                 [Vendor.set_subscriptionStatus newStatus] ;;
     match vendor with
     | Some vendor =>
         console_log ("Vendor " ++ VendorSchema.username vendor
                      ++ " subscription status updated to " ++ newStatus ++ ".") ;;
         ActivityLog.create "subscription_status_updated"
           ("Vendor " ++ VendorSchema.username vendor
            ++ " subscription status updated to " ++ newStatus ++ ".")
           (Some (VendorSchema._id vendor)) ;;
         ret tt
     | None =>
         console_log ("Vendor not found for Stripe Customer ID: " ++ stripeCustomerId ++ ".")
     end)
    (fun updateError =>
       console_error_with "Error updating vendor subscription status:" updateError).

(** [case 'invoice.payment_succeeded'] (lines 594-617) *)
Definition on_invoice_payment_succeeded (event : Stripe.Event.t) : M unit :=
  let paidInvoice := Stripe.Event.data_object event in
  console_log ("Invoice payment succeeded for invoice ID: " ++ Stripe.Object.id paidInvoice) ;;
  try_catch
    (updatedInvoice <- Invoice.findOneAndUpdate
                         [Invoice.id_is (Stripe.Object.id paidInvoice)]
                         [Invoice.set_status "paid"] ;;
     match updatedInvoice with
     | Some updatedInvoice =>
         console_log ("Invoice " ++ InvoiceSchema.id updatedInvoice
                      ++ " status updated to paid.") ;;
         ActivityLog.create "invoice_paid"
           ("Invoice " ++ InvoiceSchema.id updatedInvoice ++ " paid successfully.")
           (Some (InvoiceSchema._id updatedInvoice)) ;;
         ret tt
     | None =>
         console_log ("Invoice not found for ID: " ++ Stripe.Object.id paidInvoice ++ ".")
     end)
    (fun updateError =>
       console_error_with "Error updating invoice status:" updateError).

(** [case 'payout.succeeded'] (lines 619-627) *)
Definition on_payout_succeeded (event : Stripe.Event.t) : M unit :=
  let succeededPayout := Stripe.Event.data_object event in
  env <- ask ;;
  console_log ("Payout succeeded for ID: " ++ Stripe.Object.id succeededPayout ++ ".") ;;
  ActivityLog.create "payout_succeeded"
    ("Payout succeeded for ID: " ++ Stripe.Object.id succeededPayout ++ ". Amount: "
     ++ numberToString env (Stripe.Object.amount succeededPayout / 100)%float ++ " "
     ++ toUpperCase env (Stripe.Object.currency succeededPayout) ++ ".")
    (Some (Stripe.Object.id succeededPayout)) ;;
  ret tt.

(** [case 'payout.failed'] (lines 628-636) *)
Definition on_payout_failed (event : Stripe.Event.t) : M unit :=
  let failedPayout := Stripe.Event.data_object event in
  console_log ("Payout failed for ID: " ++ Stripe.Object.id failedPayout ++ ". Reason: "
               ++ orElse (Stripe.Object.failure_code failedPayout) "N/A" ++ ".") ;;
  ActivityLog.create "payout_failed"
    ("Payout failed for ID: " ++ Stripe.Object.id failedPayout ++ ". Reason: "
     ++ orElse (Stripe.Object.failure_code failedPayout) "N/A" ++ ".")
    (Some (Stripe.Object.id failedPayout)) ;;
  ret tt.

(** [case 'charge.refunded'] (lines 637-645) *)
Definition on_charge_refunded (event : Stripe.Event.t) : M unit :=
  let refundedCharge := Stripe.Event.data_object event in
  env <- ask ;;
  console_log ("Charge refunded for ID: " ++ Stripe.Object.id refundedCharge ++ ".") ;;
  ActivityLog.create "charge_refunded"
    ("Charge refunded for ID: " ++ Stripe.Object.id refundedCharge ++ ". Amount: "
     ++ numberToString env (Stripe.Object.amount_refunded refundedCharge / 100)%float ++ " "
     ++ toUpperCase env (Stripe.Object.currency refundedCharge) ++ ".")
    (Some (Stripe.Object.id refundedCharge)) ;;
  ret tt.

(** [default] (lines 647-648) *)
Definition on_unhandled (event : Stripe.Event.t) : M unit :=
  console_log ("Unhandled event type " ++ Stripe.Event.type event).

(** The clauses of [switch (event.type)], statement for statement: the
    clause of [invoice.payment_succeeded] ends with two [break]s (lines
    617-618), [default] with none. *)
Definition webhookSwitch : list Clause :=
  [ mkClause (Some "charge.dispute.created") [Exec on_charge_dispute_created; Break];
    mkClause (Some "customer.subscription.updated") [Exec on_customer_subscription_updated; Break];
    mkClause (Some "invoice.payment_succeeded") [Exec on_invoice_payment_succeeded; Break; Break];
    mkClause (Some "payout.succeeded") [Exec on_payout_succeeded; Break];
    mkClause (Some "payout.failed") [Exec on_payout_failed; Break];
    mkClause (Some "charge.refunded") [Exec on_charge_refunded; Break];
    mkClause None [Exec on_unhandled] ].

Definition received : Value := VObj [("received", VBool true)].

(** The route: [rawBody] is [req.body] as the body parsers left it,
    [sig] the [stripe-signature] header.  Whether the pair verifies is
    for [stripe.webhooks.constructEvent] to say. *)
Definition stripe_webhook (rawBody : string) (sig : option string) : M unit :=
  env <- ask ;;
  verified <-
    try_catch
      (event <- liftResult
                  (webhooks_constructEvent (stripe env) rawBody sig (STRIPE_WEBHOOK_SECRET env)) ;;
       ret (Some event))
      (fun err =>
         console_error ("Webhook Error: " ++ message err) ;;
         res_status_send 400 ("Webhook Error: " ++ message err) ;;
         ret None) ;;
  match verified with
  | None => ret tt
  | Some event =>
      runSwitch webhookSwitch event ;;
      res_json received
  end.

(* ------------------------------------------------------------------ *)
(** ** The other routes, in the order of the source *)

(** A run of effects, one after the other. *)
Fixpoint performAll (es : list Effect) : M unit :=
  match es with
  | [] => ret tt
  | e :: rest => perform e ;; performAll rest
  end.

Definition withCustomers (v : VendorSchema.t) (cs : list string) : VendorSchema.t :=
  VendorSchema.mk (VendorSchema._id v) (VendorSchema.username v) (VendorSchema.password v)
    (VendorSchema.approved v) cs (VendorSchema.stripeCustomerId v)
    (VendorSchema.subscriptionStatus v) (VendorSchema.trialEndsAt v)
    (VendorSchema.stripeConnectAccountId v).

Definition withStripeConnectAccountId (v : VendorSchema.t) (a : option string) : VendorSchema.t :=
  VendorSchema.mk (VendorSchema._id v) (VendorSchema.username v) (VendorSchema.password v)
    (VendorSchema.approved v) (VendorSchema.customers v) (VendorSchema.stripeCustomerId v)
    (VendorSchema.subscriptionStatus v) (VendorSchema.trialEndsAt v) a.

(** GET / (lines 85-87) *)
Definition root : M unit := res_send "Invoice Management Server is running!".

(** POST /register (lines 89-139) *)
Definition register (username password : option string) : M unit :=
  if negb (truthy username) || negb (truthy password) then
    res_status_json 400 (message_ "Username and password are required.")
  else
    let username := showOpt username in
    let password := showOpt password in
    try_catch
      (existingVendor <- Vendor.findOne [Vendor.username_is username] ;;
       match existingVendor with
       | Some _ =>
           res_status_json 409 (message_ "Vendor with this username already exists.")
       | None =>
           stripeCustomer <-
             stripeCall (Stripe.customers_create (Some username) (Some username)
                           (Some ("Vendor: " ++ username)) None)
               (fun api => on_customers_create api (Some username) (Some username)
                             (Some ("Vendor: " ++ username)) None) ;;
           env <- ask ;;
           let hashedPassword := bcrypt_hash env password in
           now <- Date_now_ ;;
           oid <- freshObjectId ;;
           let newVendor :=
             VendorSchema.mk oid username hashedPassword false []
               (Stripe.Customer.id stripeCustomer) "trialing"
               (Some (now + 30 * 24 * 60 * 60 * 1000)%Z) None in
           Vendor.insert newVendor ;;
           console_log_with "New vendor registered:" (Vendor.toJSON newVendor) ;;
           ActivityLog.create "vendor_registered"
             ("New vendor registered: " ++ username) (Some oid) ;;
           res_status_json 201
             (message_ "Vendor registered successfully. Awaiting admin approval.")
       end)
      (fun error =>
         console_error_with "Error during vendor registration:" error ;;
         res_status_json 500 (message_error "Failed to register vendor." error)).

(** POST /admin/login (lines 180-195) *)
Definition admin_login (username password : option string) : M unit :=
  console_log ("Admin Login attempt for username: " ++ showOpt username
               ++ ", password: " ++ showOpt password) ;;
  match username, password with
  | Some u, Some p =>
      if String.eqb u "admin" && String.eqb p "adminpass" then
        token <- jwt_sign_ (mkUser "admin" "admin") ;;
        res_cookie "token" token ;;
        res_status_json 200
          (VObj [("message", VStr "Admin login successful!");
                 ("user", VObj [("username", VStr "admin"); ("role", VStr "admin")])])
      else res_status_json 401 (message_ "Invalid admin credentials.")
  | _, _ => res_status_json 401 (message_ "Invalid admin credentials.")
  end.

(** GET /admin/vendors/pending (lines 198-206) *)
Definition admin_vendors_pending : M unit :=
  try_catch
    (pendingVendors <- Vendor.find [Vendor.approved_is false] ;;
     res_status_json 200 (VArr (map Vendor.toJSON pendingVendors)))
    (fun error =>
       console_error_with "Error fetching pending vendors:" error ;;
       res_status_json 500 (message_error "Failed to fetch pending vendors." error)).

(** POST /admin/vendors/approve (lines 209-229) *)
Definition admin_vendors_approve (username : string) : M unit :=
  try_catch
    (vendor <- Vendor.findOneAndUpdate [Vendor.username_is username] [Vendor.set_approved true] ;;
     match vendor with
     | Some vendor =>
         ActivityLog.create "vendor_approved" ("Vendor approved: " ++ username)
           (Some (VendorSchema._id vendor)) ;;
         res_status_json 200 (message_ ("Vendor " ++ username ++ " approved successfully."))
     | None => res_status_json 404 (message_ "Vendor not found.")
     end)
    (fun error =>
       console_error_with "Error approving vendor:" error ;;
       res_status_json 500 (message_error "Failed to approve vendor." error)).

(** POST /create-customer (lines 232-254) *)
Definition create_customer (email name phone : option string) : M unit :=
  try_catch
    (customer <- stripeCall (Stripe.customers_create email name None phone)
                   (fun api => on_customers_create api email name None phone) ;;
     ActivityLog.create "customer_added"
       ("New customer added: " ++ showOpt name ++ " (" ++ showOpt email ++ ")")
       (Some (Stripe.Customer.id customer)) ;;
     res_status_json 201
       (VObj [("message", VStr "Stripe customer created successfully.");
              ("customerId", VStr (Stripe.Customer.id customer))]))
    (fun error =>
       console_error_with "Error creating Stripe customer:" error ;;
       res_status_json 500 (message_error "Failed to create Stripe customer." error)).

(** POST /create-setup-intent (lines 257-270) *)
Definition create_setup_intent (customerId : string) : M unit :=
  try_catch
    (client_secret <- stripeCall (Stripe.setupIntents_create customerId)
                        (fun api => on_setupIntents_create api customerId) ;;
     res_status_json 200 (VObj [("clientSecret", VStr client_secret)]))
    (fun error =>
       console_error_with "Error creating SetupIntent:" error ;;
       res_status_json 500 (message_error "Failed to create SetupIntent." error)).

(** POST /vendor/add-customer (lines 273-294) *)
Definition vendor_add_customer (vendorUsername customerId : string) : M unit :=
  try_catch
    (vendor <- Vendor.findOne [Vendor.username_is vendorUsername] ;;
     match vendor with
     | None => res_status_json 404 (message_ "Vendor not found.")
     | Some vendor =>
         if negb (existsb (String.eqb customerId) (VendorSchema.customers vendor)) then
           Vendor.save (withCustomers vendor (VendorSchema.customers vendor ++ [customerId])) ;;
           res_status_json 200 (message_ "Customer associated with vendor successfully.")
         else
           res_status_json 409 (message_ "Customer already associated with this vendor.")
     end)
    (fun error =>
       console_error_with "Error associating customer with vendor:" error ;;
       res_status_json 500 (message_error "Failed to associate customer with vendor." error)).

Definition lastInvoiceJSON (env : Env) (lastInvoice : option Stripe.Invoice.t) : Value :=
  match lastInvoice with
  | Some i =>
      VObj [("id", VStr (Stripe.Invoice.id i));
            ("amount", VNum (Stripe.Invoice.amount_due i / 100)%float);
            ("currency", VStr (toUpperCase env (Stripe.Invoice.currency i)));
            ("date", VStr (toLocaleDateString env (Stripe.Invoice.created i * 1000)%Z));
            ("status", VStr (Stripe.Invoice.status i));
            ("url", VOptStr (Stripe.Invoice.hosted_invoice_url i))]
  | None => VNull
  end.

(** *** The callbacks of [Promise.all] (lines 306-336)

    The callback mapped over [vendor.customers] is an [async] function:
    called, it runs up to its first [await], so [map] issues
    [stripe.customers.retrieve] for every customer, in the vendor's order,
    before any callback goes on.  A callback goes on when the request it
    waits for has settled; which of the waiting callbacks that is at each
    step is for the event loop to say ([resume]).  [Promise.all] resolves,
    to the callbacks' values in the vendor's order, when all are done. *)

(** [advance n chains]: the next step of the [n]-th chain that is not
    finished (of the last one, when fewer are left), and the chains
    without that step. *)
Fixpoint advance {A} (n : nat) (chains : list (list A)) : option (A * list (list A)) :=
  match chains with
  | [] => None
  | [] :: rest =>
      match advance n rest with
      | Some (a, rest') => Some (a, [] :: rest')
      | None => None
      end
  | (a :: chain) :: rest =>
      match n with
      | O => Some (a, chain :: rest)
      | S n' =>
          match advance n' rest with
          | Some (b, rest') => Some (b, (a :: chain) :: rest')
          | None => Some (a, chain :: rest)
          end
      end
  end.

(** The steps of all chains in the order [choose] picks them, each chain
    in its own order. *)
Fixpoint interleaveFrom {A} (choose : nat -> nat) (step fuel : nat) (chains : list (list A))
    : list A :=
  match fuel with
  | O => []
  | S fuel' =>
      match advance (choose step) chains with
      | Some (a, chains') => a :: interleaveFrom choose (S step) fuel' chains'
      | None => []
      end
  end.

Definition interleave {A} (choose : nat -> nat) (chains : list (list A)) : list A :=
  interleaveFrom choose 0 (length (concat chains)) chains.

(** [console.error(`Error fetching ... for ${customerId}:`, stripeError)] *)
Definition fetchFailed (customerId : string) (stripeError : JsError) : Effect :=
  Console ErrorLevel
    (("Error fetching Stripe customer or invoice for " ++ customerId ++ ":")
     ++ " " ++ message stripeError).

(** What a callback does after its first [await], step by step: once
    [stripe.customers.retrieve] has settled it asks for the customer's
    invoices, or reports the error; once [stripe.invoices.list] has
    settled it reports the error, if there is one. *)
Definition continuation (env : Env) (customerId : string) : list Effect :=
  match on_customers_retrieve (stripe env) customerId with
  | Ok _ =>
      StripeCall (Stripe.invoices_list customerId)
      :: match on_invoices_list (stripe env) customerId with
         | Ok _ => []
         | Throw stripeError => [fetchFailed customerId stripeError]
         end
  | Throw stripeError => [fetchFailed customerId stripeError]
  end.

(** The value a callback resolves to. *)
Definition enrichedCustomer (env : Env) (customerId : string) : Value :=
  let failed :=
    VObj [("id", VStr customerId);
          ("name", VStr ("Customer " ++ customerId ++ " (Error)"));
          ("email", VStr "error@example.com");
          ("lastInvoice", VNull)] in
  match on_customers_retrieve (stripe env) customerId with
  | Ok stripeCustomer =>
      match on_invoices_list (stripe env) customerId with
      | Ok lastInvoices =>
          VObj [("id", VStr (Stripe.Customer.id stripeCustomer));
                ("name", VOptStr (Stripe.Customer.name stripeCustomer));
                ("email", VOptStr (Stripe.Customer.email stripeCustomer));
                ("phone", VOptStr (Stripe.Customer.phone stripeCustomer));
                ("lastInvoice", lastInvoiceJSON env (hd_error lastInvoices))]
      | Throw _ => failed
      end
  | Throw _ => failed
  end.

(** GET /vendor/customers/:username (lines 297-343) *)
Definition vendor_customers (username : string) : M unit :=
  try_catch
    (vendor <- Vendor.findOne [Vendor.username_is username] ;;
     match vendor with
     | None => res_status_json 404 (message_ "Vendor not found.")
     | Some vendor =>
         env <- ask ;;
         let customers := VendorSchema.customers vendor in
         performAll (map (fun c => StripeCall (Stripe.customers_retrieve c)) customers) ;;
         performAll (interleave (resume env) (map (continuation env) customers)) ;;
         res_status_json 200 (VArr (map (enrichedCustomer env) customers))
     end)
    (fun error =>
       console_error_with "Error fetching vendor customers:" error ;;
       res_status_json 500 (message_error "Failed to fetch vendor customers." error)).

(** POST /create-payment-intent (lines 346-374) *)
Definition create_payment_intent (customerId : string) (amount : Number) : M unit :=
  try_catch
    (paymentMethods <- stripeCall (Stripe.paymentMethods_list customerId)
                         (fun api => on_paymentMethods_list api customerId) ;;
     match paymentMethods with
     | [] => res_status_json 400 (message_ "No payment method found for this customer.")
     | first :: _ =>
         paymentIntentId <-
           stripeCall (Stripe.paymentIntents_create customerId (amount * 100)%float first)
             (fun api => on_paymentIntents_create api customerId (amount * 100)%float first) ;;
         res_status_json 200
           (VObj [("message", VStr "Payment successful!");
                  ("paymentIntentId", VStr paymentIntentId)])
     end)
    (fun error =>
       console_error_with "Error creating Payment Intent:" error ;;
       res_status_json 500 (message_error "Failed to create Payment Intent." error)).

(** POST /vendor/create-subscription (lines 441-487) *)
Definition vendor_create_subscription (vendorUsername paymentMethodId : string) : M unit :=
  try_catch
    (vendor <- Vendor.findOne [Vendor.username_is vendorUsername] ;;
     match vendor with
     | None => res_status_json 404 (message_ "Vendor not found.")
     | Some vendor =>
         let customer := VendorSchema.stripeCustomerId vendor in
         stripeCall (Stripe.paymentMethods_attach paymentMethodId customer)
           (fun api => on_paymentMethods_attach api paymentMethodId customer) ;;
         stripeCall (Stripe.customers_update customer paymentMethodId)
           (fun api => on_customers_update api customer paymentMethodId) ;;
         subscription <- stripeCall (Stripe.subscriptions_create customer "price_12345")
                           (fun api => on_subscriptions_create api customer "price_12345") ;;
         let status := Stripe.Subscription.status subscription in
         let vendor := Vendor.assign (Vendor.set_subscriptionStatus status) vendor in
         Vendor.save vendor ;;
         console_log ("Vendor " ++ vendorUsername ++ " subscribed: " ++ status) ;;
         ActivityLog.create "vendor_subscribed"
           ("Vendor " ++ vendorUsername ++ " subscribed to plan. Status: " ++ status)
           (Some (VendorSchema._id vendor)) ;;
         res_status_json 200
           (VObj [("message", VStr "Subscription successful!");
                  ("subscriptionId", VStr (Stripe.Subscription.id subscription));
                  ("vendor", Vendor.toJSON vendor)])
     end)
    (fun error =>
       console_error_with "Error creating subscription:" error ;;
       res_status_json 500 (message_error "Failed to create subscription." error)).

(** POST /vendor/request-payout (lines 490-523) *)
Definition vendor_request_payout (vendorUsername : string) (amount : Number) : M unit :=
  try_catch
    (vendor <- Vendor.findOne [Vendor.username_is vendorUsername] ;;
     match vendor with
     | None => res_status_json 404 (message_ "Vendor not found.")
     | Some vendor =>
         if negb (truthy (VendorSchema.stripeConnectAccountId vendor)) then
           res_status_json 400
             (message_ "Stripe Express account not connected for this vendor.")
         else
           env <- ask ;;
           let account := showOpt (VendorSchema.stripeConnectAccountId vendor) in
           payoutId <- stripeCall (Stripe.payouts_create (amount * 100)%float account)
                         (fun api => on_payouts_create api (amount * 100)%float account) ;;
           console_log ("Payout of " ++ numberToString env amount ++ " to "
                        ++ VendorSchema.username vendor ++ " (Stripe Connect Account: "
                        ++ account ++ ") initiated. Payout ID: " ++ payoutId) ;;
           ActivityLog.create "payout_requested"
             ("Payout of " ++ numberToString env amount ++ " requested by "
              ++ VendorSchema.username vendor ++ ". Payout ID: " ++ payoutId)
             (Some payoutId) ;;
           res_status_json 200
             (message_ ("Payout of " ++ numberToString env amount
                        ++ " requested successfully for " ++ VendorSchema.username vendor
                        ++ ". Payout ID: " ++ payoutId))
     end)
    (fun error =>
       console_error_with "Error requesting payout:" error ;;
       res_status_json 500 (message_error "Failed to request payout." error)).

Definition vendorSummary (v : VendorSchema.t) : Value :=
  VObj [("username", VStr (VendorSchema.username v));
        ("approved", VBool (VendorSchema.approved v));
        ("subscriptionStatus", VStr (VendorSchema.subscriptionStatus v));
        ("trialEndsAt", VOptDate (VendorSchema.trialEndsAt v));
        ("stripeCustomerId", VStr (VendorSchema.stripeCustomerId v))].

(** The query object of GET /admin/vendors/all (lines 658-669). *)
Definition vendorsQuery (search approved subscriptionStatus : option string)
    : list Vendor.Cond :=
  (if truthy search then [Vendor.username_regex (showOpt search)] else [])
  ++ (match approved with
      | Some a => [Vendor.approved_is (String.eqb a "true")]
      | None => []
      end)
  ++ (if truthy subscriptionStatus
      then [Vendor.subscriptionStatus_is (showOpt subscriptionStatus)] else []).

(** GET /admin/vendors/all (lines 656-683) *)
Definition admin_vendors_all (search approved subscriptionStatus : option string) : M unit :=
  try_catch
    (allVendors <- Vendor.find (vendorsQuery search approved subscriptionStatus) ;;
     res_status_json 200 (VArr (map vendorSummary allVendors)))
    (fun error =>
       console_error_with "Error fetching all vendors:" error ;;
       res_status_json 500 (message_error "Failed to fetch all vendors." error)).

(** A count, as the number it is in JavaScript. *)
Fixpoint countToNumber (n : nat) : Number :=
  match n with
  | O => 0%float
  | S k => (countToNumber k + 1)%float
  end.

Definition VNat (n : nat) : Value := VNum (countToNumber n).

(** GET /admin/analytics (lines 686-701) *)
Definition admin_analytics : M unit :=
  try_catch
    (totalVendors <- Vendor.countDocuments [] ;;
     approvedVendors <- Vendor.countDocuments [Vendor.approved_is true] ;;
     trialingVendors <- Vendor.countDocuments [Vendor.subscriptionStatus_is "trialing"] ;;
     res_status_json 200
       (VObj [("totalVendors", VNat totalVendors);
              ("approvedVendors", VNat approvedVendors);
              ("trialingVendors", VNat trialingVendors)]))
    (fun error =>
       console_error_with "Error fetching analytics:" error ;;
       res_status_json 500 (message_error "Failed to fetch analytics." error)).

(** GET /vendor/invoices/:vendorUsername (lines 704-721) *)
Definition vendor_invoices (vendorUsername : string) : M unit :=
  try_catch
    (vendor <- Vendor.findOne [Vendor.username_is vendorUsername] ;;
     match vendor with
     | None => res_status_json 404 (message_ "Vendor not found.")
     | Some vendor =>
         vendorInvoices <- Invoice.find [Invoice.customerId_in (VendorSchema.customers vendor)] ;;
         res_status_json 200 (VArr (map Invoice.toJSON vendorInvoices))
     end)
    (fun error =>
       console_error_with "Error fetching vendor invoices:" error ;;
       res_status_json 500 (message_error "Failed to fetch vendor invoices." error)).

(** The query object of GET /admin/activity-log (lines 731-739). *)
Definition activityQuery (search eventType : option string) : list ActivityLog.Cond :=
  (if truthy search then [ActivityLog.description_regex (showOpt search)] else [])
  ++ (if truthy eventType then [ActivityLog.eventType_is (showOpt eventType)] else []).

(** GET /admin/activity-log (lines 724-747) *)
Definition admin_activity_log (user : User) (search eventType : option string) : M unit :=
  try_catch
    (if negb (String.eqb (user_role user) "admin") then
       res_status_json 403 (message_ "Access denied. Admins only.")
     else
       activityLogs <- ActivityLog.find_sort (activityQuery search eventType) ;;
       res_status_json 200 (VArr (map ActivityLog.toJSON activityLogs)))
    (fun error =>
       console_error_with "Error fetching activity logs:" error ;;
       res_status_json 500 (message_error "Failed to fetch activity logs." error)).

(** POST /vendor/create-stripe-connect-account (lines 754-790) *)
Definition vendor_create_stripe_connect_account (vendorUsername : string) : M unit :=
  try_catch
    (vendor <- Vendor.findOne [Vendor.username_is vendorUsername] ;;
     match vendor with
     | None => res_status_json 404 (message_ "Vendor not found.")
     | Some vendor =>
         accountId <- stripeCall (Stripe.accounts_create vendorUsername)
                        (fun api => on_accounts_create api vendorUsername) ;;
         url <- stripeCall (Stripe.accountLinks_create accountId)
                  (fun api => on_accountLinks_create api accountId) ;;
         let vendor := withStripeConnectAccountId vendor (Some accountId) in
         Vendor.save vendor ;;
         res_status_json 200 (VObj [("url", VStr url); ("vendor", Vendor.toJSON vendor)])
     end)
    (fun error =>
       console_error_with "Error creating Stripe Connect account link:" error ;;
       res_status_json 500
         (message_error "Failed to create Stripe Connect account link." error)).

(** GET /customer/invoices/:customerId (lines 793-802) *)
Definition customer_invoices (customerId : string) : M unit :=
  try_catch
    (customerInvoices <- Invoice.find [Invoice.customerId_is customerId] ;;
     res_status_json 200 (VArr (map Invoice.toJSON customerInvoices)))
    (fun error =>
       console_error_with "Error fetching customer invoices:" error ;;
       res_status_json 500 (message_error "Failed to fetch customer invoices." error)).

Definition currentUser (v : VendorSchema.t) : Value :=
  VObj [("username", VStr (VendorSchema.username v));
        ("approved", VBool (VendorSchema.approved v));
        ("role", VStr "vendor");
        ("subscriptionStatus", VStr (VendorSchema.subscriptionStatus v));
        ("trialEndsAt", VOptDate (VendorSchema.trialEndsAt v));
        ("stripeConnectAccountId", VOptStr (VendorSchema.stripeConnectAccountId v))].

(** GET /vendor/get-current-user (lines 805-819) *)
Definition vendor_get_current_user (user : User) : M unit :=
  try_catch
    (vendor <- Vendor.findOne [Vendor.username_is (user_username user)] ;;
     match vendor with
     | None => res_status_json 404 (message_ "Vendor not found.")
     | Some vendor => res_status_json 200 (VObj [("vendor", currentUser vendor)])
     end)
    (fun error =>
       console_error_with "Error fetching current vendor data:" error ;;
       res_status_json 500 (message_error "Failed to fetch current vendor data." error)).

(** POST /vendor/create-subscription-setup-intent (lines 822-845) *)
Definition vendor_create_subscription_setup_intent (user : User) : M unit :=
  try_catch
    (vendor <- Vendor.findOne [Vendor.username_is (user_username user)] ;;
     match vendor with
     | None => res_status_json 404 (message_ "Vendor not found.")
     | Some vendor =>
         if negb (nonEmpty (VendorSchema.stripeCustomerId vendor)) then
           res_status_json 400 (message_ "Stripe Customer ID not found for this vendor.")
         else
           let customer := VendorSchema.stripeCustomerId vendor in
           client_secret <- stripeCall (Stripe.setupIntents_create customer)
                              (fun api => on_setupIntents_create api customer) ;;
           res_status_json 200 (VObj [("clientSecret", VStr client_secret)])
     end)
    (fun error =>
       console_error_with "Error creating subscription SetupIntent:" error ;;
       res_status_json 500 (message_error "Failed to create subscription SetupIntent." error)).

Definition placeholderCustomer (customerId : string) : Value :=
  VObj [("id", VStr customerId);
        ("name", VStr ("Customer " ++ customerId));
        ("email", VStr ("customer" ++ customerId ++ "@example.com"))].

(** GET /admin/vendor-details/:username (lines 848-882) *)
Definition admin_vendor_details (user : User) (username : string) : M unit :=
  try_catch
    (if negb (String.eqb (user_role user) "admin") then
       res_status_json 403 (message_ "Access denied. Admins only.")
     else
       vendor <- Vendor.findOne [Vendor.username_is username] ;;
       match vendor with
       | None => res_status_json 404 (message_ "Vendor not found.")
       | Some vendor =>
           let vendorCustomers := map placeholderCustomer (VendorSchema.customers vendor) in
           vendorInvoices <- Invoice.find [Invoice.customerId_in (VendorSchema.customers vendor)] ;;
           res_status_json 200
             (VObj [("username", VStr (VendorSchema.username vendor));
                    ("approved", VBool (VendorSchema.approved vendor));
                    ("subscriptionStatus", VStr (VendorSchema.subscriptionStatus vendor));
                    ("trialEndsAt", VOptDate (VendorSchema.trialEndsAt vendor));
                    ("stripeCustomerId", VStr (VendorSchema.stripeCustomerId vendor));
                    ("stripeConnectAccountId",
                     VOptStr (VendorSchema.stripeConnectAccountId vendor));
                    ("customers", VArr vendorCustomers);
                    ("invoices", VArr (map Invoice.toJSON vendorInvoices))])
       end)
    (fun error =>
       console_error_with "Error fetching vendor details:" error ;;
       res_status_json 500 (message_error "Failed to fetch vendor details." error)).

(** GET /check-auth (lines 885-905) *)
Definition check_auth (user : User) : M unit :=
  try_catch
    (let username := user_username user in
     let role := user_role user in
     if String.eqb role "admin" then
       res_status_json 200
         (VObj [("user", VObj [("username", VStr username); ("role", VStr role)])])
     else if String.eqb role "vendor" then
       vendor <- Vendor.findOne [Vendor.username_is username] ;;
       match vendor with
       | None => res_status_json 404 (message_ "Vendor not found.")
       | Some vendor => res_status_json 200 (VObj [("user", currentUser vendor)])
       end
     else res_status_json 400 (message_ "Invalid user role."))
    (fun error =>
       console_error_with "Error checking auth:" error ;;
       res_status_json 500 (message_error "Failed to check authentication status." error)).

(** POST /logout (lines 908-911) *)
Definition logout : M unit :=
  res_clearCookie "token" ;;
  res_status_json 200 (message_ "Logged out successfully.").

(** POST /customer/generate-invite-link (lines 914-921) *)
Definition customer_generate_invite_link (customerId : option string) : M unit :=
  if negb (truthy customerId) then
    res_status_json 400 (message_ "Customer ID is required.")
  else
    res_status_json 200
      (VObj [("inviteLink",
              VStr ("http://localhost:5173/customer/dashboard/" ++ showOpt customerId))]).

(** GET /vendor/payout-history (lines 924-947) *)
Definition vendor_payout_history (user : User) : M unit :=
  try_catch
    (vendor <- Vendor.findOne [Vendor.username_is (user_username user)] ;;
     match vendor with
     | None => res_status_json 404 (message_ "Vendor not found.")
     | Some vendor =>
         if negb (truthy (VendorSchema.stripeConnectAccountId vendor)) then
           res_status_json 400
             (message_ "Stripe Express account not connected for this vendor.")
         else
           let account := showOpt (VendorSchema.stripeConnectAccountId vendor) in
           payouts <- stripeCall (Stripe.payouts_list account)
                        (fun api => on_payouts_list api account) ;;
           res_status_json 200 (VArr payouts)
     end)
    (fun error =>
       console_error_with "Error fetching payout history:" error ;;
       res_status_json 500 (message_error "Failed to fetch payout history." error)).

(** POST /vendor/cancel-subscription (lines 950-991) *)
Definition vendor_cancel_subscription (user : User) : M unit :=
  try_catch
    (let username := user_username user in
     vendor <- Vendor.findOne [Vendor.username_is username] ;;
     match vendor with
     | None => res_status_json 404 (message_ "Vendor not found.")
     | Some vendor =>
         let customer := VendorSchema.stripeCustomerId vendor in
         subscriptions <- stripeCall (Stripe.subscriptions_list customer)
                            (fun api => on_subscriptions_list api customer) ;;
         match subscriptions with
         | [] => res_status_json 400 (message_ "No active subscription found for this vendor.")
         | first :: _ =>
             let subscriptionId := Stripe.Subscription.id first in
             canceledSubscription <-
               stripeCall (Stripe.subscriptions_cancel subscriptionId)
                 (fun api => on_subscriptions_cancel api subscriptionId) ;;
             let status := Stripe.Subscription.status canceledSubscription in
             let vendor := Vendor.assign (Vendor.set_subscriptionStatus status) vendor in
             Vendor.save vendor ;;
             ActivityLog.create "subscription_canceled"
               ("Vendor " ++ username ++ " canceled subscription. Status: " ++ status)
               (Some (VendorSchema._id vendor)) ;;
             res_status_json 200
               (VObj [("message", VStr "Subscription canceled successfully.");
                      ("vendor", Vendor.toJSON vendor)])
         end
     end)
    (fun error =>
       console_error_with "Error canceling subscription:" error ;;
       res_status_json 500 (message_error "Failed to cancel subscription." error)).

(* ------------------------------------------------------------------ *)
(** ** The application *)

(** A request: the [token] cookie and, per route, the parts of the body,
    of the path and of the query string the handler reads. *)
Inductive Route :=
| GET_root
| POST_register (username password : option string)
| POST_login (username : option string) (password : option Value)
| POST_admin_login (username password : option string)
| GET_admin_vendors_pending
| POST_admin_vendors_approve (username : string)
| POST_create_customer (email name phone : option string)
| POST_create_setup_intent (customerId : string)
| POST_vendor_add_customer (vendorUsername customerId : string)
| GET_vendor_customers (username : string)
| POST_create_payment_intent (customerId : string) (amount : Number)
| POST_create_invoice (customerId : string) (amount : Number) (description : string)
| POST_vendor_create_subscription (vendorUsername paymentMethodId : string)
| POST_vendor_request_payout (vendorUsername : string) (amount : Number)
| POST_stripe_webhook (rawBody : string) (signature : option string)
| GET_admin_vendors_all (search approved subscriptionStatus : option string)
| GET_admin_analytics
| GET_vendor_invoices (vendorUsername : string)
| GET_admin_activity_log (search eventType : option string)
| POST_vendor_create_stripe_connect_account (vendorUsername : string)
| GET_customer_invoices (customerId : string)
| GET_vendor_get_current_user
| POST_vendor_create_subscription_setup_intent
| GET_admin_vendor_details (username : string)
| GET_check_auth
| POST_logout
| POST_customer_generate_invite_link (customerId : option string)
| GET_vendor_payout_history
| POST_vendor_cancel_subscription.

Record Request := mkRequest {
  token : option string;
  route : Route
}.

(** Express's default error handler, which a handler that throws
    synchronously ends in: status 500, and the error's text unless in
    production. *)
Definition defaultErrorHandler (e : JsError) : M unit :=
  env <- ask ;;
  res_status_send 500
    (if secureCookies env then "Internal Server Error" else message e).

(** The routing table: which handler a request reaches, and behind which
    middleware. *)
Definition app (req : Request) : M unit :=
  let auth := authenticateToken (token req) in
  match route req with
  | GET_root => root
  | POST_register u p => register u p
  | POST_login u p => login u p
  | POST_admin_login u p => try_catch (admin_login u p) defaultErrorHandler
  | GET_admin_vendors_pending => auth (fun _ => admin_vendors_pending)
  | POST_admin_vendors_approve u => auth (fun _ => admin_vendors_approve u)
  | POST_create_customer e n p => create_customer e n p
  | POST_create_setup_intent c => create_setup_intent c
  | POST_vendor_add_customer v c => auth (fun _ => vendor_add_customer v c)
  | GET_vendor_customers u => auth (fun _ => vendor_customers u)
  | POST_create_payment_intent c a => auth (fun _ => create_payment_intent c a)
  | POST_create_invoice c a d => auth (fun _ => create_invoice c a d)
  | POST_vendor_create_subscription v p => auth (fun _ => vendor_create_subscription v p)
  | POST_vendor_request_payout v a => auth (fun _ => vendor_request_payout v a)
  | POST_stripe_webhook b s => stripe_webhook b s
  | GET_admin_vendors_all s a st => auth (fun _ => admin_vendors_all s a st)
  | GET_admin_analytics => auth (fun _ => admin_analytics)
  | GET_vendor_invoices v => vendor_invoices v
  | GET_admin_activity_log s e => auth (fun user => admin_activity_log user s e)
  | POST_vendor_create_stripe_connect_account v =>
      auth (fun _ => vendor_create_stripe_connect_account v)
  | GET_customer_invoices c => auth (fun _ => customer_invoices c)
  | GET_vendor_get_current_user => auth vendor_get_current_user
  | POST_vendor_create_subscription_setup_intent =>
      auth vendor_create_subscription_setup_intent
  | GET_admin_vendor_details u => auth (fun user => admin_vendor_details user u)
  | GET_check_auth => auth check_auth
  | POST_logout => logout
  | POST_customer_generate_invite_link c => customer_generate_invite_link c
  | GET_vendor_payout_history => auth vendor_payout_history
  | POST_vendor_cancel_subscription => auth vendor_cancel_subscription
  end.

(** What persists from one request to the next: the store, and the record
    of every effect performed. *)
Record World := mkWorld {
  store : Db;
  history : list Effect
}.

(** What serving a request leaves: the new world, the response sent (if
    one was), and the error an [async] handler rejected with (if it did). *)
Record Outcome := mkOutcome {
  world : World;
  response : option Response;
  rejection : option JsError
}.

Definition serve (env : Env) (req : Request) (w : World) : Outcome :=
  let (r, s) := app req env (mkSt (store w) (history w) (mkRes [] None)) in
  mkOutcome (mkWorld (db s) (effects s)) (sent (res s))
    (match r with Ok _ => None | Throw e => Some e end).

(* ------------------------------------------------------------------ *)
(** ** Observations on worlds and outcomes *)

(** The calls made to Stripe, oldest first. *)
Definition stripeCalls (h : list Effect) : list Stripe.Call :=
  flat_map (fun e => match e with StripeCall c => [c] | _ => [] end) h.

(** The charges a refund was attempted for, oldest first. *)
Definition refundAttempts (h : list Effect) : list string :=
  flat_map (fun e => match e with StripeCall (Stripe.refunds_create c) => [c] | _ => [] end) h.

(** The writes made to the store, oldest first. *)
Definition dbWrites (h : list Effect) : list Write :=
  flat_map (fun e => match e with DbWrite w => [w] | _ => [] end) h.

(** The lines written to the console at a given level, oldest first. *)
Definition consoleLines (level : Level) (h : list Effect) : list string :=
  flat_map (fun e =>
              match e, level with
              | Console LogLevel msg, LogLevel => [msg]
              | Console ErrorLevel msg, ErrorLevel => [msg]
              | _, _ => []
              end) h.

(** The ledger entries of one event type. *)
Definition entriesOfType (t : string) (l : list ActivityLogSchema.t) : list ActivityLogSchema.t :=
  List.filter (fun a => String.eqb (ActivityLogSchema.eventType a) t) l.

(** The outcome of signature verification for a delivery. *)
Definition verification (env : Env) (rawBody : string) (sig : option string)
    : result Stripe.Event.t :=
  webhooks_constructEvent (stripe env) rawBody sig (STRIPE_WEBHOOK_SECRET env).

(** One delivery of a webhook payload. *)
Definition deliver (env : Env) (rawBody : string) (sig : option string) (w : World) : Outcome :=
  serve env (mkRequest None (POST_stripe_webhook rawBody sig)) w.

(** The acknowledgement of a webhook: [res.json({ received: true })]. *)
Definition acknowledgement : Response := mkResponse 200 [] (Json received).

Definition ledger (w : World) : list ActivityLogSchema.t := activityLogs (store w).

(** Descending order of timestamps. *)
Definition newerFirst (a b : ActivityLogSchema.t) : Prop :=
  (ActivityLogSchema.timestamp b <= ActivityLogSchema.timestamp a)%Z.

(** The vendor [Vendor.findOne({ username })] returns. *)
Definition vendorNamed (username : string) (d : Db) : option VendorSchema.t :=
  List.find (fun v => String.eqb (VendorSchema.username v) username) (vendors d).

(** The vendor a lookup by [{ stripeCustomerId }] returns. *)
Definition vendorOfCustomer (stripeCustomerId : string) (d : Db) : option VendorSchema.t :=
  List.find (fun v => String.eqb (VendorSchema.stripeCustomerId v) stripeCustomerId) (vendors d).

(** The invoice a lookup by [{ id }] returns. *)
Definition invoiceOfId (id : string) (d : Db) : option InvoiceSchema.t :=
  List.find (fun i => String.eqb (InvoiceSchema.id i) id) (invoices d).

(* ------------------------------------------------------------------ *)
(** ** Summaries of the handlers, used to state what they do *)

(** The ledger entry [ActivityLog.create] writes at a given state. *)
Definition entryAt (env : Env) (s : St) (t d : string) (r : option string) : ActivityLogSchema.t :=
  ActivityLogSchema.mk (newObjectId env (length (effects s))) t d
    (Date_now env (length (effects s))) r.

(** The invoice record [Invoice.create] writes at a given state. *)
Definition invoiceAt (env : Env) (s : St) (id customerId : string) (amount : Number)
    (description : string) (invoiceUrl : option string) (status : string) : InvoiceSchema.t :=
  InvoiceSchema.mk (newObjectId env (length (effects s))) id customerId amount description
    invoiceUrl status (Date_now env (length (effects s))).

(** The vendors after [findOneAndUpdate({ stripeCustomerId: c }, update)]. *)
Definition updatedVendors (c : string) (update : list Vendor.Assign) (vs : list VendorSchema.t)
    : list VendorSchema.t :=
  snd (updateFirst (fun v => String.eqb (VendorSchema.stripeCustomerId v) c)
         (Vendor.applyUpdate update) vs).

(** The invoices after [findOneAndUpdate({ id: x }, update)]. *)
Definition updatedInvoices (x : string) (update : list Invoice.Assign) (l : list InvoiceSchema.t)
    : list InvoiceSchema.t :=
  snd (updateFirst (fun i => String.eqb (InvoiceSchema.id i) x)
         (Invoice.applyUpdate update) l).

(** The handler the webhook's switch is proved to select for an event
    type ([selected_webhookSwitch] below). *)
Definition handlerOf (t : string) : Stripe.Event.t -> M unit :=
  if String.eqb t "charge.dispute.created" then on_charge_dispute_created
  else if String.eqb t "customer.subscription.updated" then on_customer_subscription_updated
  else if String.eqb t "invoice.payment_succeeded" then on_invoice_payment_succeeded
  else if String.eqb t "payout.succeeded" then on_payout_succeeded
  else if String.eqb t "payout.failed" then on_payout_failed
  else if String.eqb t "charge.refunded" then on_charge_refunded
  else on_unhandled.

(** The label of the clause that handler stands in. *)
Definition branchOf (t : string) : option string :=
  if existsb (String.eqb t)
       ["charge.dispute.created"; "customer.subscription.updated";
        "invoice.payment_succeeded"; "payout.succeeded"; "payout.failed";
        "charge.refunded"]
  then Some t else None.

Definition refundSucceeds (env : Env) (charge : string) : bool :=
  match on_refunds_create (stripe env) charge with
  | Ok _ => true
  | Throw _ => false
  end.

(** The vendors after the delivery of an event. *)
Definition vendorsAfter (ev : Stripe.Event.t) (vs : list VendorSchema.t) : list VendorSchema.t :=
  let o := Stripe.Event.data_object ev in
  if String.eqb (Stripe.Event.type ev) "customer.subscription.updated"
  then updatedVendors (Stripe.Object.customer o)
         [Vendor.set_subscriptionStatus (Stripe.Object.status o)] vs
  else vs.

(** The invoices after the delivery of an event. *)
Definition invoicesAfter (ev : Stripe.Event.t) (l : list InvoiceSchema.t) : list InvoiceSchema.t :=
  if String.eqb (Stripe.Event.type ev) "invoice.payment_succeeded"
  then updatedInvoices (Stripe.Object.id (Stripe.Event.data_object ev))
         [Invoice.set_status "paid"] l
  else l.

(** The charges the delivery of an event requests a refund for. *)
Definition refundsRequested (ev : Stripe.Event.t) : list string :=
  if String.eqb (Stripe.Event.type ev) "charge.dispute.created"
  then [Stripe.Object.charge (Stripe.Event.data_object ev)] else [].

(** The event types of the ledger entries a delivery writes. *)
Definition entryTypes (env : Env) (ev : Stripe.Event.t) (d : Db) : list string :=
  let t := Stripe.Event.type ev in
  let o := Stripe.Event.data_object ev in
  if String.eqb t "charge.dispute.created" then
    [if refundSucceeds env (Stripe.Object.charge o)
     then "fraud_warning_refund" else "fraud_warning_refund_failed"]
  else if String.eqb t "customer.subscription.updated" then
    match vendorOfCustomer (Stripe.Object.customer o) d with
    | Some _ => ["subscription_status_updated"]
    | None => []
    end
  else if String.eqb t "invoice.payment_succeeded" then
    match invoiceOfId (Stripe.Object.id o) d with
    | Some _ => ["invoice_paid"]
    | None => []
    end
  else if String.eqb t "payout.succeeded" then ["payout_succeeded"]
  else if String.eqb t "payout.failed" then ["payout_failed"]
  else if String.eqb t "charge.refunded" then ["charge_refunded"]
  else [].

(** [d'] keeps every ledger entry of [d], in place, and may have more
    after them. *)
Definition extendsLedger (d d' : Db) : Prop :=
  exists new, activityLogs d' = (activityLogs d ++ new)%list.

(** A computation is append-only when, from any state, it leaves every
    ledger entry it found in place and at most adds entries after them. *)
Definition appendOnly {A} (m : M A) : Prop :=
  forall env s, extendsLedger (db s) (db (snd (m env s))).

(* ------------------------------------------------------------------ *)
(** ** A test bench: concrete collaborators, events and worlds *)

Definition showNat (n : nat) : string := NilEmpty.string_of_uint (Nat.to_uint n).

Definition unavailable {A : Type} : result A := Throw (mkError "not available on the bench").

Definition benchDraft : Stripe.Invoice.t :=
  Stripe.Invoice.mk "in_1" None "draft" 5000%float "usd" 1700000000.

(** Stripe on the bench: [event] is what signature verification yields,
    [refund] what a refund request yields, [customer] the customer every
    lookup returns and [finalized] what finalizing an invoice returns. *)
Definition benchStripe (event : result Stripe.Event.t) (refund : result unit)
    (customer : Stripe.Customer.t) (finalized : Stripe.Invoice.t) : StripeApi :=
  mkStripe
    (fun _ _ _ _ => Ok customer)
    (fun _ => Ok customer)
    (fun _ _ => Ok tt)
    (fun _ _ _ _ => Ok tt)
    (fun _ _ => Ok benchDraft)
    (fun _ => Ok finalized)
    (fun _ => Ok [])
    (fun _ => refund)
    (fun _ => Ok [])
    (fun _ _ => Ok tt)
    (fun _ _ _ => unavailable)
    (fun _ => unavailable)
    (fun _ _ => unavailable)
    (fun _ => Ok [])
    (fun _ => unavailable)
    (fun _ _ => unavailable)
    (fun _ => Ok [])
    (fun _ => unavailable)
    (fun _ => unavailable)
    (fun _ sig _ =>
       match sig with
       | Some _ => event
       | None => Throw (mkError "No stripe-signature header value was provided.")
       end).

Definition benchVerify (tok : string) (secret : option string) : result User :=
  if String.eqb tok "admin-token" then Ok (mkUser "admin" "admin")
  else if String.eqb tok "vendor-token" then Ok (mkUser "v1" "vendor")
  else Throw (mkError "jwt malformed").

(** [typeof x] *)
Definition typeof (v : Value) : string :=
  match v with
  | VBool _ => "boolean"
  | VNum _ => "number"
  | VStr _ => "string"
  | _ => "object"
  end.

(** [bcrypt.compare] on the bench: it rejects what is not a string, as
    bcryptjs does, and accepts the password a hash was made of. *)
Definition benchCompare (password : Value) (hash : string) : result bool :=
  match password with
  | VStr p => Ok (String.eqb hash ("hash:" ++ p))
  | _ => Throw (mkError ("Illegal arguments: " ++ typeof password ++ ", string"))
  end.

Definition benchEnv (event : result Stripe.Event.t) (refund : result unit)
    (customer : Stripe.Customer.t) (finalized : Stripe.Invoice.t) : Env :=
  mkEnv (benchStripe event refund customer finalized)
    (Some "jwt-secret") (Some "whsec_bench") None
    (fun user _ => Ok ("token-of-" ++ user_username user))
    benchVerify
    (fun password => "hash:" ++ password)
    benchCompare
    (fun n => (1700000000000 + Z.of_nat n)%Z)
    (fun n => "oid" ++ showNat n)
    (fun _ => "50")
    (fun _ => "{...}")
    (fun s => s)
    (fun _ => "1/1/2024")
    (fun pattern s => String.eqb pattern s)
    (fun _ => "123")
    (fun _ => O).

Definition customerWithCard : Stripe.Customer.t :=
  Stripe.Customer.mk "cus_9" (Some "Nine") (Some "nine@example.com") None (Some (Some "pm_1")).

Definition customerWithoutCard : Stripe.Customer.t :=
  Stripe.Customer.mk "cus_9" (Some "Nine") (Some "nine@example.com") None (Some None).

(** A finalized invoice awaiting payment: finalizing does not pay. *)
Definition finalizedOpen : Stripe.Invoice.t :=
  Stripe.Invoice.mk "in_1" (Some "https://invoice.stripe.com/i/in_1") "open" 5000%float "usd" 1700000000.

Definition eventObject (id charge customer status : string) : Stripe.Object.t :=
  Stripe.Object.mk id charge customer status 5000%float 5000%float "usd" None.

Definition invoicePaid : Stripe.Event.t :=
  Stripe.Event.mk "evt_1" "invoice.payment_succeeded"
    (eventObject "in_1" "ch_1" "cus_9" "paid").

Definition disputeCreated : Stripe.Event.t :=
  Stripe.Event.mk "evt_2" "charge.dispute.created"
    (eventObject "dp_1" "ch_1" "cus_9" "needs_response").

Definition subscriptionUpdated (customer : string) : Stripe.Event.t :=
  Stripe.Event.mk "evt_3" "customer.subscription.updated"
    (eventObject "sub_1" "" customer "active").

(** The environment of a delivery of [event] in which refunds succeed. *)
Definition delivering (event : Stripe.Event.t) : Env :=
  benchEnv (Ok event) (Ok tt) customerWithCard finalizedOpen.

(** The environment of an invoice creation for [customer], where
    finalizing an invoice returns [finalized]. *)
Definition invoicing (customer : Stripe.Customer.t) (finalized : Stripe.Invoice.t) : Env :=
  benchEnv unavailable (Ok tt) customer finalized.

Definition vendor1 : VendorSchema.t :=
  VendorSchema.mk "oid-v1" "v1" "hash:secret" true ["cus_9"] "cus_1" "trialing"
    (Some 1702592000000%Z) None.

Definition invoice1 : InvoiceSchema.t :=
  InvoiceSchema.mk "oid-in-1" "in_1" "cus_9" 50%float "Consulting"
    (Some "https://invoice.stripe.com/i/in_1") "open" 1700000000000%Z.

Definition emptyWorld : World := mkWorld (mkDb [] [] []) [].

Definition benchWorld : World := mkWorld (mkDb [vendor1] [invoice1] []) [].

(** A signature header, as Stripe sends it. *)
Definition signature : option string := Some "t=1700000000,v1=5257a869".

(** [event] delivered once, and delivered twice. *)
Definition once (event : Stripe.Event.t) (w : World) : Outcome :=
  deliver (delivering event) "{}" signature w.

Definition twice (event : Stripe.Event.t) (w : World) : Outcome :=
  deliver (delivering event) "{}" signature (world (once event w)).

(** POST /create-invoice by vendor [v1] for customer [cus_9], amount 50. *)
Definition createInvoice : Request :=
  mkRequest (Some "vendor-token") (POST_create_invoice "cus_9" 50%float "Consulting").


(** A session: requests served one after the other, each in its own
    environment. *)
Fixpoint session (steps : list (Env * Request)) (w : World) : World :=
  match steps with
  | [] => w
  | (env, req) :: rest => session rest (world (serve env req w))
  end.

(** Vendor [v1] registers, the administrator approves, [v1] creates an
    invoice for a customer without a card, and Stripe reports the invoice
    paid. *)
Definition reconciliation : list (Env * Request) :=
  [ (invoicing customerWithoutCard finalizedOpen,
     mkRequest None (POST_register (Some "v1") (Some "secret")));
    (invoicing customerWithoutCard finalizedOpen,
     mkRequest (Some "admin-token") (POST_admin_vendors_approve "v1"));
    (invoicing customerWithoutCard finalizedOpen, createInvoice);
    (delivering invoicePaid,
     mkRequest None (POST_stripe_webhook "{}" signature)) ].

(* ------------------------------------------------------------------ *)
(** ** The routes by method and middleware *)

(** The routes registered with [authenticateToken] as middleware. *)
Definition behindAuth (r : Route) : bool :=
  match r with
  | GET_admin_vendors_pending
  | POST_admin_vendors_approve _
  | POST_vendor_add_customer _ _
  | GET_vendor_customers _
  | POST_create_payment_intent _ _
  | POST_create_invoice _ _ _
  | POST_vendor_create_subscription _ _
  | POST_vendor_request_payout _ _
  | GET_admin_vendors_all _ _ _
  | GET_admin_analytics
  | GET_admin_activity_log _ _
  | POST_vendor_create_stripe_connect_account _
  | GET_customer_invoices _
  | GET_vendor_get_current_user
  | POST_vendor_create_subscription_setup_intent
  | GET_admin_vendor_details _
  | GET_check_auth
  | GET_vendor_payout_history
  | POST_vendor_cancel_subscription => true
  | _ => false
  end.

(** The routes registered with [app.get]. *)
Definition isGET (r : Route) : bool :=
  match r with
  | GET_root
  | GET_admin_vendors_pending
  | GET_vendor_customers _
  | GET_admin_vendors_all _ _ _
  | GET_admin_analytics
  | GET_vendor_invoices _
  | GET_admin_activity_log _ _
  | GET_customer_invoices _
  | GET_vendor_get_current_user
  | GET_admin_vendor_details _
  | GET_check_auth
  | GET_vendor_payout_history => true
  | _ => false
  end.

(** Whether the cookie of a request passes [authenticateToken]. *)
Definition authentication (env : Env) (tok : option string) : option (result User) :=
  match tok with
  | None => None
  | Some t => Some (jwt_verify env t (JWT_SECRET env))
  end.

(** The status [authenticateToken] refuses a request with. *)
Definition refusal (env : Env) (tok : option string) : option Z :=
  match authentication env tok with
  | None => Some 401%Z
  | Some (Throw _) => Some 403%Z
  | Some (Ok _) => None
  end.

(** A computation respects a relation on stores when the store it leaves
    is related to the store it found. *)
Definition respects {A} (R : Db -> Db -> Prop) (m : M A) : Prop :=
  forall env s, R (db s) (db (snd (m env s))).

(** What never changes in a stored invoice: everything but its status. *)
Definition frozen (i : InvoiceSchema.t)
    : ObjectId * string * string * Number * string * option string * Date :=
  (InvoiceSchema._id i, InvoiceSchema.id i, InvoiceSchema.customerId i,
   InvoiceSchema.amount i, InvoiceSchema.description i, InvoiceSchema.invoiceUrl i,
   InvoiceSchema.createdAt i).

(** How a stored invoice may change: only in its status, and then only
    to [paid]. *)
Definition settles (i i' : InvoiceSchema.t) : Prop :=
  frozen i' = frozen i /\
  (InvoiceSchema.status i' = InvoiceSchema.status i \/ InvoiceSchema.status i' = "paid").

(** [d'] keeps every invoice of [d] in place, changed at most as
    [settles] allows, may have more after them, and has no two invoices
    with one Stripe id if [d] had none. *)
Definition keepsInvoices (d d' : Db) : Prop :=
  (exists kept new,
     invoices d' = (kept ++ new)%list /\ Forall2 settles (invoices d) kept) /\
  (NoDup (map InvoiceSchema.id (invoices d)) -> NoDup (map InvoiceSchema.id (invoices d'))).

(** The vendor with one field replaced. *)
Definition withApproved (v : VendorSchema.t) (b : bool) : VendorSchema.t :=
  Vendor.assign (Vendor.set_approved b) v.

Definition withSubscriptionStatus (v : VendorSchema.t) (s : string) : VendorSchema.t :=
  Vendor.assign (Vendor.set_subscriptionStatus s) v.

(** The stored vendors have pairwise distinct [_id]s. *)
Definition distinctIds (d : Db) : Prop :=
  NoDup (map VendorSchema._id (vendors d)).

(** The vendors after [findOneAndUpdate({ username: u }, update)]. *)
Definition vendorsWith (u : string) (update : list Vendor.Assign) (vs : list VendorSchema.t)
    : list VendorSchema.t :=
  snd (updateFirst (fun v => String.eqb (VendorSchema.username v) u)
         (Vendor.applyUpdate update) vs).

(** The vendor [POST /register] stores. *)
Definition registered (oid : ObjectId) (username hash stripeCustomerId : string) (now : Date)
    : VendorSchema.t :=
  VendorSchema.mk oid username hash false [] stripeCustomerId "trialing"
    (Some (now + 2592000000)%Z) None.

(** The routes whose handler reads [req.user] (lines 727, 807, 824, 850,
    888, 926 and 952); the other routes behind [authenticateToken] only
    need the token to verify. *)
Definition readsUser (r : Route) : bool :=
  match r with
  | GET_admin_activity_log _ _
  | GET_vendor_get_current_user
  | POST_vendor_create_subscription_setup_intent
  | GET_admin_vendor_details _
  | GET_check_auth
  | GET_vendor_payout_history
  | POST_vendor_cancel_subscription => true
  | _ => false
  end.

(** The routes that refuse users whose role is not [admin] (lines 727 and
    850). *)
Definition adminOnly (r : Route) : bool :=
  match r with
  | GET_admin_activity_log _ _ | GET_admin_vendor_details _ => true
  | _ => false
  end.

(** The event types whose handler only writes a ledger entry, with the
    type of the entry each writes. *)
Definition auditedAs (t : string) : option string :=
  if String.eqb t "payout.succeeded" then Some "payout_succeeded"
  else if String.eqb t "payout.failed" then Some "payout_failed"
  else if String.eqb t "charge.refunded" then Some "charge_refunded"
  else None.

(** The test of POST /admin/login (line 184):
    [username === 'admin' && password === 'adminpass']. *)
Definition adminCredentials (username password : option string) : bool :=
  match username, password with
  | Some u, Some p => String.eqb u "admin" && String.eqb p "adminpass"
  | _, _ => false
  end.

(** [respectsFrom P R m]: from a store that satisfies [P], [m] leaves a
    store related by [R] to the one it started from. *)
Definition respectsFrom {A} (P : Db -> Prop) (R : Db -> Db -> Prop) (m : M A) : Prop :=
  forall env s, P (db s) -> R (db s) (db (snd (m env s))).

(** The fields of a vendor no route assigns after registration. *)
Definition frozenVendor (v : VendorSchema.t)
    : ObjectId * string * string * string * option Date :=
  (VendorSchema._id v, VendorSchema.username v, VendorSchema.password v,
   VendorSchema.stripeCustomerId v, VendorSchema.trialEndsAt v).

(** What may become of a stored vendor: an approval is not withdrawn and
    customers are not removed. *)
Definition stays (v v' : VendorSchema.t) : Prop :=
  frozenVendor v' = frozenVendor v /\
  (VendorSchema.approved v = true -> VendorSchema.approved v' = true) /\
  incl (VendorSchema.customers v) (VendorSchema.customers v').

(** Every vendor is still there, in place. *)
Definition keepsVendors (d d' : Db) : Prop :=
  distinctIds d -> Forall2 stays (vendors d) (vendors d').

(** Vendors were only added, under usernames not yet taken. *)
Definition addsVendors (d d' : Db) : Prop :=
  (exists new, vendors d' = (vendors d ++ new)%list) /\
  (NoDup (map VendorSchema.username (vendors d)) ->
   NoDup (map VendorSchema.username (vendors d'))).

(** The responses sent, oldest first. *)
Definition responses (h : list Effect) : list Response :=
  flat_map (fun e => match e with Sent r => [r] | _ => [] end) h.

(** [follows R m]: every run of [m] ends in a state related by [R] to the
    one it started in. *)
Definition follows {A} (R : St -> St -> Prop) (m : M A) : Prop :=
  forall env s, R s (snd (m env s)).

(** Between two states of one request: a response that was sent stays
    the response, and the history gains at most that one response. *)
Definition answers (s s' : St) : Prop :=
  match sent (res s) with
  | Some r => sent (res s') = Some r /\ responses (effects s') = responses (effects s)
  | None =>
      responses (effects s')
      = (responses (effects s)
         ++ match sent (res s') with Some r => [r] | None => [] end)%list
  end.

(** [m] ends with the response sent, however it ends. *)
Definition answered {A} (m : M A) : Prop :=
  forall env s, sent (res (snd (m env s))) <> None.

(** [m] has sent the response whenever it returns. *)
Definition answeredOnReturn {A} (m : M A) : Prop :=
  forall env s, match m env s with
                | (Ok _, s') => sent (res s') <> None
                | (Throw _, _) => True
                end.

(** [m] does not throw. *)
Definition returns {A} (m : M A) : Prop :=
  forall env s, exists a s', m env s = (Ok a, s').

(** An invoice with its status set to [paid], as the webhook rewrites it. *)
Definition asPaid (i : InvoiceSchema.t) : InvoiceSchema.t :=
  Invoice.assign (Invoice.set_status "paid") i.

(** Between two states: no refund was asked for. *)
Definition noRefund (s s' : St) : Prop :=
  refundAttempts (effects s') = refundAttempts (effects s).

(** The refunds serving a request asks Stripe for: those of a verified
    webhook event, and none on any other route. *)
Definition refundsOf (env : Env) (req : Request) : list string :=
  match route req with
  | POST_stripe_webhook rawBody sig =>
      match verification env rawBody sig with
      | Ok ev => refundsRequested ev
      | Throw _ => []
      end
  | _ => []
  end.

(* ------------------------------------------------------------------ *)
(** ** More of the bench *)


(** The bench with another Stripe and another [jwt.verify]. *)
Definition benchWith (api : StripeApi) (verify : string -> option string -> result User)
    : Env :=
  let env := delivering invoicePaid in
  mkEnv api (JWT_SECRET env) (STRIPE_WEBHOOK_SECRET env) (NODE_ENV env)
    (jwt_sign env) verify (bcrypt_hash env) (bcrypt_compare env)
    (Date_now env) (newObjectId env) (numberToString env) (inspect env)
    (toUpperCase env) (toLocaleDateString env) (regexMatchI env)
    (toString_ env) (resume env).


(** [jwt.verify] that also accepts the token the bench's [jwt.sign]
    issues to vendor [v1]. *)
Definition sessionVerify (tok : string) (secret : option string) : result User :=
  if String.eqb tok "token-of-v1" then Ok (mkUser "v1" "vendor")
  else benchVerify tok secret.

Definition inSession : Env := benchWith (stripe (delivering invoicePaid)) sessionVerify.

Definition payoutSucceeded : Stripe.Event.t :=
  Stripe.Event.mk "evt_4" "payout.succeeded" (eventObject "po_1" "" "" "paid").

(** The bench during an ordinary request. *)
Definition bench : Env := delivering invoicePaid.

(** Stripe when every call succeeds. *)
Definition stripeUp : StripeApi :=
  mkStripe
    (fun _ _ _ _ => Ok customerWithCard)
    (fun _ => Ok customerWithCard)
    (fun _ _ => Ok tt)
    (fun _ _ _ _ => Ok tt)
    (fun _ _ => Ok benchDraft)
    (fun _ => Ok finalizedOpen)
    (fun _ => Ok [finalizedOpen])
    (fun _ => Ok tt)
    (fun _ => Ok ["pm_1"])
    (fun _ _ => Ok tt)
    (fun _ _ _ => Ok "pi_1")
    (fun _ => Ok "seti_1_secret")
    (fun _ _ => Ok (Stripe.Subscription.mk "sub_1" "active"))
    (fun _ => Ok [Stripe.Subscription.mk "sub_1" "active"])
    (fun _ => Ok (Stripe.Subscription.mk "sub_1" "canceled"))
    (fun _ _ => Ok "po_1")
    (fun _ => Ok [])
    (fun _ => Ok "acct_1")
    (fun _ => Ok "https://connect.stripe.com/setup/acct_1")
    (fun _ _ _ => unavailable).

Definition working : Env := benchWith stripeUp benchVerify.

(** A second vendor, with a connected payout account, and a world that
    holds both. *)
Definition vendor2 : VendorSchema.t :=
  VendorSchema.mk "oid-v2" "v2" "hash:pw" true [] "cus_2" "active" None (Some "acct_2").

Definition connectedWorld : World := mkWorld (mkDb [vendor1; vendor2] [invoice1] []) [].

(** A vendor with three customers, and a world that holds it. *)
Definition vendor3 : VendorSchema.t :=
  VendorSchema.mk "oid-v3" "v3" "hash:pw" true ["cus_7"; "cus_8"; "cus_9"] "cus_3" "active"
    None None.

Definition portfolioWorld : World := mkWorld (mkDb [vendor1; vendor3] [invoice1] []) [].

(** Stripe that does not know customer [cus_9]. *)
Definition stripeWithout9 : StripeApi :=
  mkStripe
    (on_customers_create stripeUp)
    (fun c => if String.eqb c "cus_9" then Throw (mkError "No such customer: 'cus_9'")
              else Ok (Stripe.Customer.mk c None None None (Some None)))
    (on_customers_update stripeUp) (on_invoiceItems_create stripeUp)
    (on_invoices_create stripeUp) (on_invoices_finalizeInvoice stripeUp)
    (on_invoices_list stripeUp) (on_refunds_create stripeUp)
    (on_paymentMethods_list stripeUp) (on_paymentMethods_attach stripeUp)
    (on_paymentIntents_create stripeUp) (on_setupIntents_create stripeUp)
    (on_subscriptions_create stripeUp) (on_subscriptions_list stripeUp)
    (on_subscriptions_cancel stripeUp) (on_payouts_create stripeUp)
    (on_payouts_list stripeUp) (on_accounts_create stripeUp)
    (on_accountLinks_create stripeUp) (webhooks_constructEvent stripeUp).

(** The bench with that Stripe and an event loop that resumes the second
    of the waiting callbacks first. *)
Definition secondFirst : Env :=
  let env := benchWith stripeWithout9 benchVerify in
  mkEnv (stripe env) (JWT_SECRET env) (STRIPE_WEBHOOK_SECRET env) (NODE_ENV env)
    (jwt_sign env) (jwt_verify env) (bcrypt_hash env) (bcrypt_compare env)
    (Date_now env) (newObjectId env) (numberToString env) (inspect env)
    (toUpperCase env) (toLocaleDateString env) (regexMatchI env)
    (toString_ env) (fun _ => 1).

(* ================================================================== *)
(** * Proofs *)

Local Open Scope string_scope.
Local Open Scope js_scope.
Local Open Scope list_scope.

(** ** Rewriting the first match of a list *)

Section Lists.
Context {A : Type} (p : A -> bool) (f : A -> A).

Lemma updateFirst_miss (l : list A) :
  List.find p l = None -> updateFirst p f l = (None, l).
Proof.
  induction l as [|x l IH]; cbn; [reflexivity|].
  destruct (p x); [discriminate|].
  intros H. rewrite (IH H). reflexivity.
Qed.

Lemma updateFirst_hit (l : list A) (x : A) :
  List.find p l = Some x ->
  exists before after,
    l = before ++ x :: after /\
    List.find p before = None /\
    updateFirst p f l = (Some (f x), before ++ f x :: after).
Proof.
  induction l as [|y l IH]; cbn; [discriminate|].
  destruct (p y) eqn:Hy.
  - intros [= ->]. exists [], l. cbn. auto.
  - intros H. destruct (IH H) as (b & a & -> & Hb & ->).
    exists (y :: b), a. cbn. rewrite Hy. auto.
Qed.

End Lists.

Lemma find_ext {A} (p q : A -> bool) (l : list A) :
  (forall x, p x = q x) -> List.find p l = List.find q l.
Proof.
  intros H. induction l as [|x l IH]; cbn; [reflexivity|].
  rewrite H, IH. reflexivity.
Qed.

(** ** Running the operations of the store *)

Lemma bind_ret_tt (m : M unit) env s : (m ;; ret tt) env s = m env s.
Proof. unfold bind, ret. destruct (m env s) as [[[]|e] s']; reflexivity. Qed.

Lemma sequence_one (m : M unit) env s : sequence [m] env s = m env s.
Proof. apply bind_ret_tt. Qed.

Arguments ActivityLog.create : simpl never.
Arguments Vendor.findOneAndUpdate : simpl never.
Arguments Invoice.findOneAndUpdate : simpl never.
Arguments Vendor.findOne : simpl never.
Arguments Invoice.create : simpl never.
Arguments String.append : simpl never.
Arguments nonEmpty : simpl never.

Ltac js_unfold :=
  unfold try_catch, bind, stripeCall, console_log_with, console_log, console_error_with,
    console_error, perform, moment, ask, getDb, putDb, liftResult, ret, throw,
    res_status_json, res_json, res_status_send, res_send, res_sendStatus, send.

Lemma create_eq t d r env s :
  nonEmpty t = true -> nonEmpty d = true ->
  ActivityLog.create t d r env s =
  (Ok (entryAt env s t d r),
   mkSt (ActivityLog.setActivityLogs (db s) (activityLogs (db s) ++ [entryAt env s t d r]))
        (effects s ++ [DbWrite (Inserted ActivityLogs (newObjectId env (length (effects s))))])
        (res s)).
Proof.
  intros Ht Hd. unfold ActivityLog.create, freshObjectId, Date_now_.
  js_unfold. cbn. rewrite Ht, Hd. reflexivity.
Qed.

Lemma Vendor_matches_customer env c v :
  Vendor.matches env [Vendor.stripeCustomerId_is c] v
  = String.eqb (VendorSchema.stripeCustomerId v) c.
Proof. cbn. apply andb_true_r. Qed.

Lemma Vendor_matches_username env u v :
  Vendor.matches env [Vendor.username_is u] v = String.eqb (VendorSchema.username v) u.
Proof. cbn. apply andb_true_r. Qed.

Lemma Invoice_matches_id i x :
  Invoice.matches [Invoice.id_is x] i = String.eqb (InvoiceSchema.id i) x.
Proof. cbn. apply andb_true_r. Qed.

Lemma Vendor_findOne_username u env s :
  Vendor.findOne [Vendor.username_is u] env s = (Ok (vendorNamed u (db s)), s).
Proof.
  unfold Vendor.findOne, vendorNamed. js_unfold. cbn.
  rewrite (find_ext _ _ _ (Vendor_matches_username env u)). reflexivity.
Qed.

Lemma updateFirst_ext {A} (p q : A -> bool) (f : A -> A) (l : list A) :
  (forall x, p x = q x) -> updateFirst p f l = updateFirst q f l.
Proof.
  intros H. induction l as [|x l IH]; cbn; [reflexivity|].
  rewrite H, IH. reflexivity.
Qed.

Lemma updateFirst_fst {A} (p : A -> bool) (f : A -> A) (l : list A) :
  fst (updateFirst p f l) = option_map f (List.find p l).
Proof.
  induction l as [|x l IH]; cbn; [reflexivity|].
  destruct (p x); [reflexivity|].
  destruct (updateFirst p f l). exact IH.
Qed.

Lemma Vendor_findOneAndUpdate_eq c upd env s :
  Vendor.findOneAndUpdate [Vendor.stripeCustomerId_is c] upd env s =
  match vendorOfCustomer c (db s) with
  | Some v =>
      (Ok (Some (Vendor.applyUpdate upd v)),
       mkSt (Vendor.setVendors (db s) (updatedVendors c upd (vendors (db s))))
            (effects s ++ [DbWrite (Updated Vendors (VendorSchema._id (Vendor.applyUpdate upd v)))])
            (res s))
  | None => (Ok None, s)
  end.
Proof.
  unfold vendorOfCustomer, updatedVendors, Vendor.findOneAndUpdate. js_unfold. cbn.
  rewrite (updateFirst_ext _ _ _ _ (Vendor_matches_customer env c)).
  pose proof (updateFirst_fst (fun v => String.eqb (VendorSchema.stripeCustomerId v) c)
                (Vendor.applyUpdate upd) (vendors (db s))) as H.
  destruct (updateFirst _ _ (vendors (db s))) as [o l]. cbn in H. subst o.
  destruct (List.find _ (vendors (db s))); reflexivity.
Qed.

Lemma Invoice_findOneAndUpdate_eq x upd env s :
  Invoice.findOneAndUpdate [Invoice.id_is x] upd env s =
  match invoiceOfId x (db s) with
  | Some i =>
      (Ok (Some (Invoice.applyUpdate upd i)),
       mkSt (Invoice.setInvoices (db s) (updatedInvoices x upd (invoices (db s))))
            (effects s ++ [DbWrite (Updated Invoices (InvoiceSchema._id (Invoice.applyUpdate upd i)))])
            (res s))
  | None => (Ok None, s)
  end.
Proof.
  unfold invoiceOfId, updatedInvoices, Invoice.findOneAndUpdate. js_unfold. cbn.
  rewrite (updateFirst_ext _ _ _ _ (fun i => Invoice_matches_id i x)).
  pose proof (updateFirst_fst (fun i => String.eqb (InvoiceSchema.id i) x)
                (Invoice.applyUpdate upd) (invoices (db s))) as H.
  destruct (updateFirst _ _ (invoices (db s))) as [o l]. cbn in H. subst o.
  destruct (List.find _ (invoices (db s))); reflexivity.
Qed.

Lemma updatedVendors_hit c upd vs v :
  List.find (fun v => String.eqb (VendorSchema.stripeCustomerId v) c) vs = Some v ->
  exists before after,
    vs = before ++ v :: after /\
    List.find (fun v => String.eqb (VendorSchema.stripeCustomerId v) c) before = None /\
    updatedVendors c upd vs = before ++ Vendor.applyUpdate upd v :: after.
Proof.
  intros H. destruct (updateFirst_hit _ (Vendor.applyUpdate upd) _ _ H) as (b & a & Hl & Hb & Hu).
  exists b, a. unfold updatedVendors. rewrite Hu. auto.
Qed.

Lemma updatedVendors_miss c upd vs :
  List.find (fun v => String.eqb (VendorSchema.stripeCustomerId v) c) vs = None ->
  updatedVendors c upd vs = vs.
Proof. intros H. unfold updatedVendors. rewrite updateFirst_miss; auto. Qed.

Lemma updatedInvoices_hit x upd l i :
  List.find (fun i => String.eqb (InvoiceSchema.id i) x) l = Some i ->
  exists before after,
    l = before ++ i :: after /\
    List.find (fun i => String.eqb (InvoiceSchema.id i) x) before = None /\
    updatedInvoices x upd l = before ++ Invoice.applyUpdate upd i :: after.
Proof.
  intros H. destruct (updateFirst_hit _ (Invoice.applyUpdate upd) _ _ H) as (b & a & Hl & Hb & Hu).
  exists b, a. unfold updatedInvoices. rewrite Hu. auto.
Qed.

Lemma updatedInvoices_miss x upd l :
  List.find (fun i => String.eqb (InvoiceSchema.id i) x) l = None ->
  updatedInvoices x upd l = l.
Proof. intros H. unfold updatedInvoices. rewrite updateFirst_miss; auto. Qed.

(** ** The dispatch of the webhook *)

Lemma selected_webhookSwitch t :
  selected webhookSwitch t = [(branchOf t, handlerOf t)].
Proof.
  unfold selected, webhookSwitch, branchOf, handlerOf.
  cbn [findClause label existsb].
  repeat match goal with
  | |- context [String.eqb ?a t] => rewrite (String.eqb_sym a t)
  end.
  repeat match goal with
  | |- context [String.eqb t ?a] => destruct (String.eqb_spec t a); [subst; reflexivity|]
  end.
  reflexivity.
Qed.

Lemma runSwitch_webhookSwitch ev env s :
  runSwitch webhookSwitch ev env s = handlerOf (Stripe.Event.type ev) ev env s.
Proof.
  unfold runSwitch. rewrite selected_webhookSwitch. cbn [map snd]. apply sequence_one.
Qed.

Lemma stripe_webhook_verified env rawBody sig ev s :
  verification env rawBody sig = Ok ev ->
  stripe_webhook rawBody sig env s
  = (handlerOf (Stripe.Event.type ev) ev ;; res_json received) env s.
Proof.
  unfold verification, stripe_webhook. intros H. js_unfold. cbn. rewrite H. cbn.
  rewrite runSwitch_webhookSwitch. reflexivity.
Qed.

Lemma stripe_webhook_rejected env rawBody sig err s :
  verification env rawBody sig = Throw err ->
  sent (res s) = None ->
  stripe_webhook rawBody sig env s
  = let r := mkResponse 400 (pendingCookies (res s)) (Text ("Webhook Error: " ++ message err)) in
    (Ok tt,
     mkSt (db s)
          (effects s ++ [Console ErrorLevel ("Webhook Error: " ++ message err); Sent r])
          (mkRes (pendingCookies (res s)) (Some r))).
Proof.
  unfold verification, stripe_webhook. intros H Hs. js_unfold. cbn. rewrite H. cbn.
  rewrite Hs. cbn. rewrite <- app_assoc. reflexivity.
Qed.

(** ** What each handler does *)

Ltac obs :=
  unfold stripeCalls, refundAttempts, dbWrites, consoleLines;
  rewrite ?flat_map_app; cbn [flat_map List.app]; rewrite ?app_nil_r, <- ?app_assoc;
  cbn [List.app].

Lemma on_charge_dispute_created_run ev env s :
  let charge := Stripe.Object.charge (Stripe.Event.data_object ev) in
  exists s' entry,
    on_charge_dispute_created ev env s = (Ok tt, s') /\
    res s' = res s /\
    vendors (db s') = vendors (db s) /\
    invoices (db s') = invoices (db s) /\
    activityLogs (db s') = activityLogs (db s) ++ [entry] /\
    stripeCalls (effects s') = stripeCalls (effects s) ++ [Stripe.refunds_create charge] /\
    ActivityLogSchema.relatedId entry = Some charge /\
    match on_refunds_create (stripe env) charge with
    | Ok _ =>
        ActivityLogSchema.eventType entry = "fraud_warning_refund"%string /\
        ActivityLogSchema.description entry
        = ("Fraud warning: Dispute created for charge " ++ charge ++ ". Auto-refund initiated.")%string
    | Throw refundError =>
        ActivityLogSchema.eventType entry = "fraud_warning_refund_failed"%string /\
        ActivityLogSchema.description entry
        = ("Fraud warning: Dispute created for charge " ++ charge
           ++ ". Auto-refund FAILED. Error: " ++ message refundError)%string
    end.
Proof.
  intros charge. unfold on_charge_dispute_created. fold charge.
  js_unfold. cbn.
  destruct (on_refunds_create (stripe env) charge) as [[]|e]; cbn;
    rewrite create_eq by reflexivity; cbn;
    (eexists; eexists; split; [reflexivity|]); cbn;
    repeat (split; [try reflexivity|]); try reflexivity; obs; reflexivity.
Qed.

Lemma on_customer_subscription_updated_run ev env s :
  let subscription := Stripe.Event.data_object ev in
  let c := Stripe.Object.customer subscription in
  let newStatus := Stripe.Object.status subscription in
  exists s',
    on_customer_subscription_updated ev env s = (Ok tt, s') /\
    res s' = res s /\
    vendors (db s') = updatedVendors c [Vendor.set_subscriptionStatus newStatus] (vendors (db s)) /\
    invoices (db s') = invoices (db s) /\
    stripeCalls (effects s') = stripeCalls (effects s) /\
    consoleLines ErrorLevel (effects s') = consoleLines ErrorLevel (effects s) /\
    match vendorOfCustomer c (db s) with
    | Some v =>
        exists entry,
          activityLogs (db s') = activityLogs (db s) ++ [entry] /\
          ActivityLogSchema.eventType entry = "subscription_status_updated"%string /\
          ActivityLogSchema.description entry
          = ("Vendor " ++ VendorSchema.username v ++ " subscription status updated to "
             ++ newStatus ++ ".")%string /\
          ActivityLogSchema.relatedId entry = Some (VendorSchema._id v)
    | None =>
        activityLogs (db s') = activityLogs (db s) /\
        effects s' = effects s
          ++ [Console LogLevel ("Subscription updated for customer " ++ c
                                ++ ". New status: " ++ newStatus);
              Console LogLevel ("Vendor not found for Stripe Customer ID: " ++ c ++ ".")]
    end.
Proof.
  intros subscription c newStatus. unfold on_customer_subscription_updated.
  fold subscription. fold c. fold newStatus.
  js_unfold. cbn. rewrite Vendor_findOneAndUpdate_eq. cbn.
  destruct (vendorOfCustomer c (db s)) as [v|] eqn:Hv; cbn.
  - rewrite create_eq by reflexivity. cbn.
    eexists. split; [reflexivity|]. cbn.
    repeat (split; [try reflexivity; obs; reflexivity|]).
    eexists. split; [reflexivity|]. cbn. auto.
  - eexists. split; [reflexivity|]. cbn.
    unfold vendorOfCustomer in Hv. rewrite (updatedVendors_miss _ _ _ Hv).
    repeat (split; [try reflexivity; obs; reflexivity|]).
    rewrite <- app_assoc. reflexivity.
Qed.

Lemma on_invoice_payment_succeeded_run ev env s :
  let x := Stripe.Object.id (Stripe.Event.data_object ev) in
  exists s',
    on_invoice_payment_succeeded ev env s = (Ok tt, s') /\
    res s' = res s /\
    vendors (db s') = vendors (db s) /\
    invoices (db s') = updatedInvoices x [Invoice.set_status "paid"] (invoices (db s)) /\
    stripeCalls (effects s') = stripeCalls (effects s) /\
    consoleLines ErrorLevel (effects s') = consoleLines ErrorLevel (effects s) /\
    match invoiceOfId x (db s) with
    | Some i =>
        exists entry,
          activityLogs (db s') = activityLogs (db s) ++ [entry] /\
          ActivityLogSchema.eventType entry = "invoice_paid"%string /\
          ActivityLogSchema.description entry
          = ("Invoice " ++ InvoiceSchema.id i ++ " paid successfully.")%string /\
          ActivityLogSchema.relatedId entry = Some (InvoiceSchema._id i)
    | None =>
        activityLogs (db s') = activityLogs (db s) /\
        effects s' = effects s
          ++ [Console LogLevel ("Invoice payment succeeded for invoice ID: " ++ x);
              Console LogLevel ("Invoice not found for ID: " ++ x ++ ".")]
    end.
Proof.
  intros x. unfold on_invoice_payment_succeeded. fold x.
  js_unfold. cbn. rewrite Invoice_findOneAndUpdate_eq. cbn.
  destruct (invoiceOfId x (db s)) as [i|] eqn:Hi; cbn.
  - rewrite create_eq by reflexivity. cbn.
    eexists. split; [reflexivity|]. cbn.
    repeat (split; [try reflexivity; obs; reflexivity|]).
    eexists. split; [reflexivity|]. cbn. auto.
  - eexists. split; [reflexivity|]. cbn.
    unfold invoiceOfId in Hi. rewrite (updatedInvoices_miss _ _ _ Hi).
    repeat (split; [try reflexivity; obs; reflexivity|]).
    rewrite <- app_assoc. reflexivity.
Qed.

(** The three handlers that only write to the ledger. *)
Lemma audit_only_run (h : Stripe.Event.t -> M unit) (t : string) ev env s :
  (h = on_payout_succeeded /\ t = "payout_succeeded"%string) \/
  (h = on_payout_failed /\ t = "payout_failed"%string) \/
  (h = on_charge_refunded /\ t = "charge_refunded"%string) ->
  exists s' entry,
    h ev env s = (Ok tt, s') /\
    res s' = res s /\
    vendors (db s') = vendors (db s) /\
    invoices (db s') = invoices (db s) /\
    stripeCalls (effects s') = stripeCalls (effects s) /\
    activityLogs (db s') = activityLogs (db s) ++ [entry] /\
    ActivityLogSchema.eventType entry = t /\
    ActivityLogSchema.relatedId entry = Some (Stripe.Object.id (Stripe.Event.data_object ev)).
Proof.
  intros [[-> ->]|[[-> ->]|[-> ->]]].
  - unfold on_payout_succeeded. js_unfold. cbn. rewrite create_eq by reflexivity. cbn.
    eexists. eexists. split; [reflexivity|]. cbn.
    repeat (split; [try reflexivity; obs; reflexivity|]). reflexivity.
  - unfold on_payout_failed. js_unfold. cbn. rewrite create_eq by reflexivity. cbn.
    eexists. eexists. split; [reflexivity|]. cbn.
    repeat (split; [try reflexivity; obs; reflexivity|]). reflexivity.
  - unfold on_charge_refunded. js_unfold. cbn. rewrite create_eq by reflexivity. cbn.
    eexists. eexists. split; [reflexivity|]. cbn.
    repeat (split; [try reflexivity; obs; reflexivity|]). reflexivity.
Qed.

Lemma serve_webhook_verified env tok rawBody sig ev w s' :
  verification env rawBody sig = Ok ev ->
  handlerOf (Stripe.Event.type ev) ev env (mkSt (store w) (history w) (mkRes [] None))
  = (Ok tt, s') ->
  res s' = mkRes [] None ->
  serve env (mkRequest tok (POST_stripe_webhook rawBody sig)) w
  = mkOutcome (mkWorld (db s') (effects s' ++ [Sent acknowledgement]))
      (Some acknowledgement) None.
Proof.
  intros Hv Hh Hr. unfold serve.
  change (app (mkRequest tok (POST_stripe_webhook rawBody sig)))
    with (stripe_webhook rawBody sig).
  rewrite (stripe_webhook_verified _ _ _ _ _ Hv).
  unfold bind at 1. rewrite Hh. unfold res_json, send. rewrite Hr. reflexivity.
Qed.

Lemma serve_webhook_rejected env tok rawBody sig err w :
  verification env rawBody sig = Throw err ->
  serve env (mkRequest tok (POST_stripe_webhook rawBody sig)) w
  = let r := mkResponse 400 [] (Text ("Webhook Error: " ++ message err)) in
    mkOutcome
      (mkWorld (store w)
         (history w ++ [Console ErrorLevel ("Webhook Error: " ++ message err); Sent r]))
      (Some r) None.
Proof.
  intros Hv. unfold serve.
  change (app (mkRequest tok (POST_stripe_webhook rawBody sig)))
    with (stripe_webhook rawBody sig).
  rewrite (stripe_webhook_rejected _ _ _ _ _ Hv) by reflexivity. reflexivity.
Qed.

(** ** The effect of a delivery, event type by event type *)

Lemma refundAttempts_stripeCalls h h' calls :
  stripeCalls h' = stripeCalls h ++ calls ->
  refundAttempts h' = refundAttempts h
    ++ flat_map (fun c => match c with Stripe.refunds_create x => [x] | _ => [] end) calls.
Proof.
  assert (E : forall l, refundAttempts l
              = flat_map (fun c => match c with Stripe.refunds_create x => [x] | _ => [] end)
                  (stripeCalls l)).
  { induction l as [|e l IH]; [reflexivity|].
    unfold refundAttempts, stripeCalls in *. cbn [flat_map]. rewrite flat_map_app, <- IH.
    destruct e as [| [] | |]; reflexivity. }
  intros H. rewrite !E, H, flat_map_app. reflexivity.
Qed.

Lemma refundAttempts_same h h' :
  stripeCalls h' = stripeCalls h -> refundAttempts h' = refundAttempts h ++ [].
Proof.
  intros H. apply (refundAttempts_stripeCalls h h' []). rewrite app_nil_r. exact H.
Qed.

Lemma handler_summary ev env s :
  exists s' entries,
    handlerOf (Stripe.Event.type ev) ev env s = (Ok tt, s') /\
    res s' = res s /\
    vendors (db s') = vendorsAfter ev (vendors (db s)) /\
    invoices (db s') = invoicesAfter ev (invoices (db s)) /\
    activityLogs (db s') = activityLogs (db s) ++ entries /\
    map ActivityLogSchema.eventType entries = entryTypes env ev (db s) /\
    refundAttempts (effects s') = refundAttempts (effects s) ++ refundsRequested ev.
Proof.
  unfold handlerOf, vendorsAfter, invoicesAfter, entryTypes, refundsRequested.
  destruct (String.eqb_spec (Stripe.Event.type ev) "charge.dispute.created") as [E|_].
  { try rewrite E. cbn.
    destruct (on_charge_dispute_created_run ev env s)
      as (s' & entry & H & Hr & Hv & Hi & Hl & Hc & _ & Ht).
    exists s', [entry]. repeat (split; [assumption|]). split.
    - unfold refundSucceeds. cbn.
      destruct (on_refunds_create _ _); destruct Ht as [-> _]; reflexivity.
    - rewrite (refundAttempts_stripeCalls _ _ _ Hc). reflexivity. }
  destruct (String.eqb_spec (Stripe.Event.type ev) "customer.subscription.updated") as [E|_].
  { try rewrite E. cbn.
    destruct (on_customer_subscription_updated_run ev env s)
      as (s' & H & Hr & Hv & Hi & Hc & _ & Hm).
    apply refundAttempts_same in Hc.
    destruct (vendorOfCustomer _ _).
    - destruct Hm as (entry & Hl & Ht & _). exists s', [entry].
      repeat (split; [assumption|]). cbn. rewrite Ht. auto.
    - destruct Hm as (Hl & _). exists s', []. rewrite !app_nil_r in *.
      repeat (split; [assumption|]). auto. }
  destruct (String.eqb_spec (Stripe.Event.type ev) "invoice.payment_succeeded") as [E|_].
  { try rewrite E. cbn.
    destruct (on_invoice_payment_succeeded_run ev env s)
      as (s' & H & Hr & Hv & Hi & Hc & _ & Hm).
    apply refundAttempts_same in Hc.
    destruct (invoiceOfId _ _).
    - destruct Hm as (entry & Hl & Ht & _). exists s', [entry].
      repeat (split; [assumption|]). cbn. rewrite Ht. auto.
    - destruct Hm as (Hl & _). exists s', []. rewrite !app_nil_r in *.
      repeat (split; [assumption|]). auto. }
  destruct (String.eqb_spec (Stripe.Event.type ev) "payout.succeeded") as [E|_].
  { destruct (audit_only_run on_payout_succeeded "payout_succeeded" ev env s)
      as (s' & entry & H & Hr & Hv & Hi & Hc & Hl & Ht & _); [auto|].
    apply refundAttempts_same in Hc.
    exists s', [entry]. repeat (split; [assumption|]). cbn. rewrite Ht. auto. }
  destruct (String.eqb_spec (Stripe.Event.type ev) "payout.failed") as [E|_].
  { destruct (audit_only_run on_payout_failed "payout_failed" ev env s)
      as (s' & entry & H & Hr & Hv & Hi & Hc & Hl & Ht & _); [auto|].
    apply refundAttempts_same in Hc.
    exists s', [entry]. repeat (split; [assumption|]). cbn. rewrite Ht. auto. }
  destruct (String.eqb_spec (Stripe.Event.type ev) "charge.refunded") as [E|_].
  { destruct (audit_only_run on_charge_refunded "charge_refunded" ev env s)
      as (s' & entry & H & Hr & Hv & Hi & Hc & Hl & Ht & _); [auto 6|].
    apply refundAttempts_same in Hc.
    exists s', [entry]. repeat (split; [assumption|]). cbn. rewrite Ht. auto. }
  eexists. exists []. split; [reflexivity|]. cbn. rewrite !app_nil_r.
  repeat (split; [reflexivity|]). obs. reflexivity.
Qed.

(** ** The claims about the webhook *)

Lemma Db_ext (d d' : Db) :
  vendors d' = vendors d -> invoices d' = invoices d -> activityLogs d' = activityLogs d ->
  d' = d.
Proof. destruct d, d'. cbn. intros -> -> ->. reflexivity. Qed.

(** Every verified delivery ends in the acknowledgement. *)
Lemma delivery_summary env tok rawBody sig ev w :
  verification env rawBody sig = Ok ev ->
  exists s' entries,
    handlerOf (Stripe.Event.type ev) ev env (mkSt (store w) (history w) (mkRes [] None))
    = (Ok tt, s') /\
    serve env (mkRequest tok (POST_stripe_webhook rawBody sig)) w
    = mkOutcome (mkWorld (db s') (effects s' ++ [Sent acknowledgement]))
        (Some acknowledgement) None /\
    vendors (db s') = vendorsAfter ev (vendors (store w)) /\
    invoices (db s') = invoicesAfter ev (invoices (store w)) /\
    activityLogs (db s') = activityLogs (store w) ++ entries /\
    map ActivityLogSchema.eventType entries = entryTypes env ev (store w) /\
    refundAttempts (effects s' ++ [Sent acknowledgement])
    = refundAttempts (history w) ++ refundsRequested ev.
Proof.
  intros Hv.
  destruct (handler_summary ev env (mkSt (store w) (history w) (mkRes [] None)))
    as (s' & entries & H & Hr & Hvs & His & Hl & Ht & Hq).
  exists s', entries. split; [exact H|]. split.
  - apply (serve_webhook_verified _ _ _ _ _ _ _ Hv H Hr).
  - repeat (split; [assumption|]).
    unfold refundAttempts in *. rewrite flat_map_app, Hq. cbn. apply app_nil_r.
Qed.

(** C6: the webhook endpoint responds 400 exactly when signature
    verification fails, and then leaves the store untouched and makes no
    call to Stripe and no write; in every other case it responds 200 with
    the acknowledgement body. *)
Theorem C6_webhook_status env tok rawBody sig w :
  let o := serve env (mkRequest tok (POST_stripe_webhook rawBody sig)) w in
  ((exists r, response o = Some r /\ statusCode r = 400%Z)
   <-> (exists err, verification env rawBody sig = Throw err)) /\
  match verification env rawBody sig with
  | Throw err =>
      response o = Some (mkResponse 400 [] (Text ("Webhook Error: " ++ message err))) /\
      store (world o) = store w /\
      stripeCalls (history (world o)) = stripeCalls (history w) /\
      dbWrites (history (world o)) = dbWrites (history w)
  | Ok ev =>
      response o = Some acknowledgement /\ rejection o = None
  end.
Proof.
  intros o. subst o.
  destruct (verification env rawBody sig) as [ev|err] eqn:Hv.
  - destruct (delivery_summary env tok rawBody sig ev w Hv) as (s' & entries & _ & -> & _).
    cbn. split; [|auto]. split.
    + intros (r & [= <-] & Hr). discriminate Hr.
    + intros (err & [=]).
  - rewrite (serve_webhook_rejected _ _ _ _ _ _ Hv). cbn. split.
    + split; [eauto|]. intros _. eexists. split; reflexivity.
    + repeat split; obs; reflexivity.
Qed.

(** C2: a verified [charge.dispute.created] event makes exactly one call
    to Stripe, the refund of the disputed charge, and writes exactly one
    ledger entry: [fraud_warning_refund] when the refund succeeded,
    [fraud_warning_refund_failed] with the error's message when it failed.
    Either way the handler does not reject and the delivery is
    acknowledged. *)
Theorem C2_dispute_refunded_once env tok rawBody sig ev w :
  verification env rawBody sig = Ok ev ->
  Stripe.Event.type ev = "charge.dispute.created"%string ->
  let charge := Stripe.Object.charge (Stripe.Event.data_object ev) in
  let o := serve env (mkRequest tok (POST_stripe_webhook rawBody sig)) w in
  stripeCalls (history (world o)) = stripeCalls (history w) ++ [Stripe.refunds_create charge] /\
  (exists entry,
     ledger (world o) = ledger w ++ [entry] /\
     ActivityLogSchema.relatedId entry = Some charge /\
     match on_refunds_create (stripe env) charge with
     | Ok _ =>
         ActivityLogSchema.eventType entry = "fraud_warning_refund"%string /\
         ActivityLogSchema.description entry
         = ("Fraud warning: Dispute created for charge " ++ charge
            ++ ". Auto-refund initiated.")%string
     | Throw refundError =>
         ActivityLogSchema.eventType entry = "fraud_warning_refund_failed"%string /\
         ActivityLogSchema.description entry
         = ("Fraud warning: Dispute created for charge " ++ charge
            ++ ". Auto-refund FAILED. Error: " ++ message refundError)%string
     end) /\
  response o = Some acknowledgement /\
  rejection o = None.
Proof.
  intros Hv Ht charge o. subst o.
  destruct (on_charge_dispute_created_run ev env (mkSt (store w) (history w) (mkRes [] None)))
    as (s' & entry & H & Hr & _ & _ & Hl & Hc & Hid & Hm).
  assert (Hh : handlerOf (Stripe.Event.type ev) ev env
                 (mkSt (store w) (history w) (mkRes [] None)) = (Ok tt, s'))
    by (rewrite Ht; exact H).
  rewrite (serve_webhook_verified _ _ _ _ _ _ _ Hv Hh Hr). cbn.
  split; [|split; [|auto]].
  - unfold stripeCalls in *. rewrite flat_map_app, Hc. cbn. apply app_nil_r.
  - exists entry. unfold ledger. cbn. auto.
Qed.

(** C4: a verified [customer.subscription.updated] event carrying status
    [X], whose customer id is the [stripeCustomerId] of a stored vendor,
    sets the [subscriptionStatus] of the vendor the lookup finds to [X],
    leaves every other vendor as it was, and appends one
    [subscription_status_updated] entry to the ledger. *)
Theorem C4_subscription_status_follows_event env tok rawBody sig ev w v :
  verification env rawBody sig = Ok ev ->
  Stripe.Event.type ev = "customer.subscription.updated"%string ->
  vendorOfCustomer (Stripe.Object.customer (Stripe.Event.data_object ev)) (store w) = Some v ->
  let X := Stripe.Object.status (Stripe.Event.data_object ev) in
  let o := serve env (mkRequest tok (POST_stripe_webhook rawBody sig)) w in
  (exists before after,
     vendors (store w) = before ++ v :: after /\
     vendors (store (world o))
     = before
       ++ VendorSchema.mk (VendorSchema._id v) (VendorSchema.username v)
            (VendorSchema.password v) (VendorSchema.approved v) (VendorSchema.customers v)
            (VendorSchema.stripeCustomerId v) X (VendorSchema.trialEndsAt v)
            (VendorSchema.stripeConnectAccountId v)
       :: after) /\
  (exists entry,
     ledger (world o) = ledger w ++ [entry] /\
     ActivityLogSchema.eventType entry = "subscription_status_updated"%string /\
     ActivityLogSchema.description entry
     = ("Vendor " ++ VendorSchema.username v ++ " subscription status updated to "
        ++ X ++ ".")%string /\
     ActivityLogSchema.relatedId entry = Some (VendorSchema._id v)) /\
  response o = Some acknowledgement.
Proof.
  intros Hv Ht Hfind X o. subst o.
  destruct (on_customer_subscription_updated_run ev env
              (mkSt (store w) (history w) (mkRes [] None)))
    as (s' & H & Hr & Hvs & _ & _ & _ & Hm).
  cbn [db] in Hm, Hvs. rewrite Hfind in Hm.
  assert (Hh : handlerOf (Stripe.Event.type ev) ev env
                 (mkSt (store w) (history w) (mkRes [] None)) = (Ok tt, s'))
    by (rewrite Ht; exact H).
  rewrite (serve_webhook_verified _ _ _ _ _ _ _ Hv Hh Hr). cbn.
  split; [|split; [|reflexivity]].
  - destruct (updatedVendors_hit _ [Vendor.set_subscriptionStatus X] _ _ Hfind)
      as (b & a & Hl & _ & Hu).
    exists b, a. split; [exact Hl|]. rewrite Hvs. exact Hu.
  - destruct Hm as (entry & Hm). exists entry. exact Hm.
Qed.

(** C5: a verified [invoice.payment_succeeded] event whose invoice id is
    the [id] of a stored invoice sets that invoice's status to [paid] and
    appends one [invoice_paid] entry whose [relatedId] is the local [_id]
    of the invoice record. *)
Theorem C5_invoice_paid_by_event env tok rawBody sig ev w i :
  verification env rawBody sig = Ok ev ->
  Stripe.Event.type ev = "invoice.payment_succeeded"%string ->
  invoiceOfId (Stripe.Object.id (Stripe.Event.data_object ev)) (store w) = Some i ->
  let o := serve env (mkRequest tok (POST_stripe_webhook rawBody sig)) w in
  (exists before after,
     invoices (store w) = before ++ i :: after /\
     invoices (store (world o))
     = before
       ++ InvoiceSchema.mk (InvoiceSchema._id i) (InvoiceSchema.id i)
            (InvoiceSchema.customerId i) (InvoiceSchema.amount i)
            (InvoiceSchema.description i) (InvoiceSchema.invoiceUrl i) "paid"
            (InvoiceSchema.createdAt i)
       :: after) /\
  (exists entry,
     ledger (world o) = ledger w ++ [entry] /\
     ActivityLogSchema.eventType entry = "invoice_paid"%string /\
     ActivityLogSchema.description entry
     = ("Invoice " ++ InvoiceSchema.id i ++ " paid successfully.")%string /\
     ActivityLogSchema.relatedId entry = Some (InvoiceSchema._id i)) /\
  response o = Some acknowledgement.
Proof.
  intros Hv Ht Hfind o. subst o.
  destruct (on_invoice_payment_succeeded_run ev env
              (mkSt (store w) (history w) (mkRes [] None)))
    as (s' & H & Hr & _ & His & _ & _ & Hm).
  cbn [db] in Hm, His. rewrite Hfind in Hm.
  assert (Hh : handlerOf (Stripe.Event.type ev) ev env
                 (mkSt (store w) (history w) (mkRes [] None)) = (Ok tt, s'))
    by (rewrite Ht; exact H).
  rewrite (serve_webhook_verified _ _ _ _ _ _ _ Hv Hh Hr). cbn.
  split; [|split; [|reflexivity]].
  - destruct (updatedInvoices_hit _ [Invoice.set_status "paid"] _ _ Hfind)
      as (b & a & Hl & _ & Hu).
    exists b, a. split; [exact Hl|]. rewrite His. exact Hu.
  - destruct Hm as (entry & Hm). exists entry. exact Hm.
Qed.

(** C7 (amended): when the lookup of a reconciliation event finds no
    local record, the handler writes no ledger entry and changes nothing
    in the store; it reports the miss with [console.log] and the delivery
    is acknowledged. *)
Theorem C7_lookup_miss_only_logged_to_console env tok rawBody sig ev w :
  verification env rawBody sig = Ok ev ->
  (Stripe.Event.type ev = "customer.subscription.updated"%string /\
   vendorOfCustomer (Stripe.Object.customer (Stripe.Event.data_object ev)) (store w) = None)
  \/ (Stripe.Event.type ev = "invoice.payment_succeeded"%string /\
      invoiceOfId (Stripe.Object.id (Stripe.Event.data_object ev)) (store w) = None) ->
  let o := serve env (mkRequest tok (POST_stripe_webhook rawBody sig)) w in
  store (world o) = store w /\
  (exists announced,
     history (world o)
     = history w
       ++ [Console LogLevel announced;
           Console LogLevel
             (if String.eqb (Stripe.Event.type ev) "customer.subscription.updated"
              then "Vendor not found for Stripe Customer ID: "
                   ++ Stripe.Object.customer (Stripe.Event.data_object ev) ++ "."
              else "Invoice not found for ID: "
                   ++ Stripe.Object.id (Stripe.Event.data_object ev) ++ ".")%string;
           Sent acknowledgement]) /\
  response o = Some acknowledgement /\
  rejection o = None.
Proof.
  intros Hv [[Ht Hfind]|[Ht Hfind]] o; subst o.
  - destruct (on_customer_subscription_updated_run ev env
                (mkSt (store w) (history w) (mkRes [] None)))
      as (s' & H & Hr & Hvs & His & _ & _ & Hm).
    cbn [db effects] in *. rewrite Hfind in Hm. destruct Hm as (Hl & He).
    assert (Hh : handlerOf (Stripe.Event.type ev) ev env
                   (mkSt (store w) (history w) (mkRes [] None)) = (Ok tt, s'))
      by (rewrite Ht; exact H).
    rewrite (serve_webhook_verified _ _ _ _ _ _ _ Hv Hh Hr). cbn.
    split; [|split; [|auto]].
    + apply Db_ext; try assumption. rewrite Hvs. apply updatedVendors_miss. exact Hfind.
    + eexists. rewrite He, <- app_assoc, Ht. reflexivity.
  - destruct (on_invoice_payment_succeeded_run ev env
                (mkSt (store w) (history w) (mkRes [] None)))
      as (s' & H & Hr & Hvs & His & _ & _ & Hm).
    cbn [db effects] in *. rewrite Hfind in Hm. destruct Hm as (Hl & He).
    assert (Hh : handlerOf (Stripe.Event.type ev) ev env
                   (mkSt (store w) (history w) (mkRes [] None)) = (Ok tt, s'))
      by (rewrite Ht; exact H).
    rewrite (serve_webhook_verified _ _ _ _ _ _ _ Hv Hh Hr). cbn.
    split; [|split; [|auto]].
    + apply Db_ext; try assumption. rewrite His. apply updatedInvoices_miss. exact Hfind.
    + eexists. rewrite He, <- app_assoc, Ht. reflexivity.
Qed.

(** ** A second delivery *)

Section UpdateTwice.
Context {A : Type} (p : A -> bool) (f : A -> A).
Hypothesis p_kept : forall x, p (f x) = p x.
Hypothesis f_idem : forall x, f (f x) = f x.

Lemma find_updateFirst (l : list A) :
  List.find p (snd (updateFirst p f l)) = option_map f (List.find p l).
Proof.
  induction l as [|x l IH]; cbn; [reflexivity|].
  destruct (p x) eqn:Hx; cbn.
  - rewrite p_kept, Hx. reflexivity.
  - destruct (updateFirst p f l) as [o l']. cbn in *. rewrite Hx. exact IH.
Qed.

Lemma updateFirst_twice (l : list A) :
  snd (updateFirst p f (snd (updateFirst p f l))) = snd (updateFirst p f l).
Proof.
  induction l as [|x l IH]; cbn; [reflexivity|].
  destruct (p x) eqn:Hx; cbn.
  - rewrite p_kept, Hx. cbn. rewrite f_idem. reflexivity.
  - destruct (updateFirst p f l) as [o l']. cbn in *. rewrite Hx.
    destruct (updateFirst p f l') as [o' l'']. cbn in *. rewrite IH. reflexivity.
Qed.

End UpdateTwice.

Lemma vendorsAfter_twice ev vs : vendorsAfter ev (vendorsAfter ev vs) = vendorsAfter ev vs.
Proof.
  unfold vendorsAfter. destruct (String.eqb _ _); [|reflexivity].
  unfold updatedVendors. apply updateFirst_twice; intros []; reflexivity.
Qed.

Lemma invoicesAfter_twice ev l : invoicesAfter ev (invoicesAfter ev l) = invoicesAfter ev l.
Proof.
  unfold invoicesAfter. destruct (String.eqb _ _); [|reflexivity].
  unfold updatedInvoices. apply updateFirst_twice; intros []; reflexivity.
Qed.

(** A second delivery finds what the first one found. *)
Lemma entryTypes_after env1 env2 ev d d' :
  vendors d' = vendorsAfter ev (vendors d) ->
  invoices d' = invoicesAfter ev (invoices d) ->
  length (entryTypes env2 ev d') = length (entryTypes env1 ev d) /\
  (refundSucceeds env1 (Stripe.Object.charge (Stripe.Event.data_object ev))
   = refundSucceeds env2 (Stripe.Object.charge (Stripe.Event.data_object ev)) ->
   entryTypes env2 ev d' = entryTypes env1 ev d).
Proof.
  intros Hv Hi. unfold entryTypes, vendorOfCustomer, invoiceOfId.
  rewrite Hv, Hi. unfold vendorsAfter, invoicesAfter.
  destruct (String.eqb_spec (Stripe.Event.type ev) "charge.dispute.created") as [E|_].
  { split; [reflexivity|]. intros ->. reflexivity. }
  destruct (String.eqb_spec (Stripe.Event.type ev) "customer.subscription.updated") as [E|_].
  { unfold updatedVendors. rewrite find_updateFirst by (intros []; reflexivity).
    destruct (List.find _ (vendors d)); cbn; auto. }
  destruct (String.eqb_spec (Stripe.Event.type ev) "invoice.payment_succeeded") as [E|_].
  { unfold updatedInvoices. rewrite find_updateFirst by (intros []; reflexivity).
    destruct (List.find _ (invoices d)); cbn; auto. }
  auto.
Qed.

Lemma entryTypes_audited env ev d :
  In (Stripe.Event.type ev)
     ["charge.dispute.created"; "payout.succeeded"; "payout.failed"; "charge.refunded"]%string ->
  length (entryTypes env ev d) = 1.
Proof.
  unfold entryTypes. intros [<-|[<-|[<-|[<-|[]]]]]; reflexivity.
Qed.

(** C1 (amended): the webhook keeps no record of the events it has
    handled, so a redelivered event is handled again.  The second delivery
    leaves every vendor and invoice as the first one left them, but it
    appends as many ledger entries as the first did (one for a dispute,
    a payout or a refunded charge; of the same types, when a refund fares
    the same both times) and repeats the refund attempt of a dispute. *)
Theorem C1_redelivery_is_handled_again env1 env2 rawBody sig ev w :
  verification env1 rawBody sig = Ok ev ->
  verification env2 rawBody sig = Ok ev ->
  let charge := Stripe.Object.charge (Stripe.Event.data_object ev) in
  let o1 := deliver env1 rawBody sig w in
  let o2 := deliver env2 rawBody sig (world o1) in
  vendors (store (world o2)) = vendors (store (world o1)) /\
  invoices (store (world o2)) = invoices (store (world o1)) /\
  (exists first second,
     ledger (world o1) = ledger w ++ first /\
     ledger (world o2) = ledger (world o1) ++ second /\
     length second = length first /\
     (In (Stripe.Event.type ev)
         ["charge.dispute.created"; "payout.succeeded"; "payout.failed"; "charge.refunded"]%string ->
      length first = 1) /\
     (refundSucceeds env1 charge = refundSucceeds env2 charge ->
      map ActivityLogSchema.eventType second = map ActivityLogSchema.eventType first)) /\
  (exists attempts,
     refundAttempts (history (world o1)) = refundAttempts (history w) ++ attempts /\
     refundAttempts (history (world o2)) = refundAttempts (history (world o1)) ++ attempts /\
     (Stripe.Event.type ev = "charge.dispute.created"%string -> attempts = [charge])) /\
  response o1 = Some acknowledgement /\
  response o2 = Some acknowledgement.
Proof.
  intros Hv1 Hv2 charge o1 o2. subst o1 o2. unfold deliver.
  destruct (delivery_summary env1 None rawBody sig ev w Hv1)
    as (s1 & first & _ & -> & Hvs1 & His1 & Hl1 & Ht1 & Hq1).
  cbn [world response].
  destruct (delivery_summary env2 None rawBody sig ev
              (mkWorld (db s1) (effects s1 ++ [Sent acknowledgement])) Hv2)
    as (s2 & second & _ & -> & Hvs2 & His2 & Hl2 & Ht2 & Hq2).
  cbn [world response store history] in *.
  destruct (entryTypes_after env1 env2 ev (store w) (db s1) Hvs1 His1) as [Hlen Hsame].
  split; [rewrite Hvs2, Hvs1; apply vendorsAfter_twice|].
  split; [rewrite His2, His1; apply invoicesAfter_twice|].
  split; [|split; [|auto]].
  - exists first, second. unfold ledger. cbn [store].
    split; [exact Hl1|]. split; [exact Hl2|]. split; [|split].
    + rewrite <- (length_map ActivityLogSchema.eventType second),
              <- (length_map ActivityLogSchema.eventType first), Ht1, Ht2. exact Hlen.
    + intros Hin. rewrite <- (length_map ActivityLogSchema.eventType first), Ht1.
      apply entryTypes_audited. exact Hin.
    + intros Hr. rewrite Ht1, Ht2. exact (Hsame Hr).
  - exists (refundsRequested ev). split; [exact Hq1|]. split; [exact Hq2|].
    intros Ht. unfold refundsRequested. rewrite Ht. reflexivity.
Qed.

Lemma branchOf_registered t :
  In (Some t) (map label webhookSwitch) -> branchOf t = Some t.
Proof.
  cbn. unfold branchOf. cbn.
  intros [H|[H|[H|[H|[H|[H|[H|[]]]]]]]]; try discriminate H;
    injection H as <-; reflexivity.
Qed.

Lemma branchOf_unregistered t :
  ~ In (Some t) (map label webhookSwitch) -> branchOf t = None /\ handlerOf t = on_unhandled.
Proof.
  cbn. unfold branchOf, handlerOf. cbn. intros H.
  repeat match goal with
  | |- context [String.eqb t ?a] =>
      destruct (String.eqb_spec t a); [subst; exfalso; apply H; auto 10|]
  end.
  auto.
Qed.

(** C3: the [switch] of the webhook runs exactly one handler body for
    every event type: the body of the clause labelled with that type, or
    the [default] body when no clause is; every clause is entered by some
    event type, and what [runSwitch] executes is that one body. *)
Theorem C3_switch_runs_one_branch :
  (forall t, In (Some t) (map label webhookSwitch) ->
     exists h rest,
       In (mkClause (Some t) (Exec h :: rest)) webhookSwitch /\
       selected webhookSwitch t = [(Some t, h)]) /\
  (forall t, ~ In (Some t) (map label webhookSwitch) ->
     selected webhookSwitch t = [(None, on_unhandled)]) /\
  Forall (fun c => exists t h rest,
            consequent c = Exec h :: rest /\ selected webhookSwitch t = [(label c, h)])
    webhookSwitch /\
  (forall ev env s,
     exists l h,
       selected webhookSwitch (Stripe.Event.type ev) = [(l, h)] /\
       runSwitch webhookSwitch ev env s = h ev env s).
Proof.
  split; [|split; [|split]].
  - intros t H. cbn in H.
    destruct H as [H|[H|[H|[H|[H|[H|[H|[]]]]]]]]; try discriminate H;
      injection H as <-; eexists; eexists; (split; [|reflexivity]); cbn; auto 10.
  - intros t H. rewrite selected_webhookSwitch.
    destruct (branchOf_unregistered t H) as [-> ->]. reflexivity.
  - unfold webhookSwitch.
    repeat (apply Forall_cons;
            [match goal with
             | |- exists _ _ _, consequent {| label := Some ?l |} = _ /\ _ =>
                 exists l; eexists; eexists; split; reflexivity
             | |- _ => exists "anything else"%string; eexists; eexists; split; reflexivity
             end|]).
    apply Forall_nil.
  - intros ev env s. exists (branchOf (Stripe.Event.type ev)), (handlerOf (Stripe.Event.type ev)).
    split; [apply selected_webhookSwitch | apply runSwitch_webhookSwitch].
Qed.

(** ** Invoice creation and login *)

Lemma existsb_find {A} (p : A -> bool) (l : list A) :
  List.find p l = None -> existsb p l = false.
Proof.
  induction l as [|x l IH]; cbn; [reflexivity|].
  destruct (p x); [discriminate|]. exact IH.
Qed.

Lemma authenticateToken_ok tok user next env s :
  jwt_verify env tok (JWT_SECRET env) = Ok user ->
  authenticateToken (Some tok) next env s = next user env s.
Proof. intros H. unfold authenticateToken. js_unfold. cbn. rewrite H. reflexivity. Qed.

Lemma Invoice_create_eq x c a d u st env s :
  nonEmpty x = true -> nonEmpty c = true -> PrimFloat.is_nan a = false ->
  invoiceOfId x (db s) = None ->
  Invoice.create x c a d u st env s =
  (Ok (invoiceAt env s x c a d u st),
   mkSt (Invoice.setInvoices (db s) (invoices (db s) ++ [invoiceAt env s x c a d u st]))
        (effects s ++ [DbWrite (Inserted Invoices (newObjectId env (length (effects s))))])
        (res s)).
Proof.
  intros Hx Hc Ha Hf. unfold Invoice.create, freshObjectId, Date_now_.
  js_unfold. cbn. rewrite Hx, Hc, Ha. cbn.
  unfold invoiceOfId in Hf. rewrite (existsb_find _ _ Hf). reflexivity.
Qed.

(** C8 (amended): POST /create-invoice writes the local Invoice record
    with status [paid] exactly when the customer has a default payment
    method (the invoice was then created for automatic charging and
    finalized), whatever status the finalized invoice reports, and with
    status [open] otherwise; the record is written after the last call to
    Stripe has returned and after the response has been sent. *)
Theorem C8_invoice_record_follows_payment_method
    env tok user customerId amount description w customer draft remote :
  jwt_verify env tok (JWT_SECRET env) = Ok user ->
  let automatic := hasDefaultPaymentMethod customer in
  let method := (if automatic then "charge_automatically" else "send_invoice")%string in
  on_invoiceItems_create (stripe env) customerId (amount * 100)%float "usd" description = Ok tt ->
  on_customers_retrieve (stripe env) customerId = Ok customer ->
  on_invoices_create (stripe env) customerId method = Ok draft ->
  (if automatic
   then on_invoices_finalizeInvoice (stripe env) (Stripe.Invoice.id draft) = Ok remote
   else remote = draft) ->
  nonEmpty (Stripe.Invoice.id remote) = true ->
  nonEmpty customerId = true ->
  PrimFloat.is_nan amount = false ->
  invoiceOfId (Stripe.Invoice.id remote) (store w) = None ->
  let o := serve env (mkRequest (Some tok) (POST_create_invoice customerId amount description)) w in
  exists record entry resp,
    invoices (store (world o)) = invoices (store w) ++ [record] /\
    InvoiceSchema.id record = Stripe.Invoice.id remote /\
    InvoiceSchema.customerId record = customerId /\
    InvoiceSchema.amount record = amount /\
    InvoiceSchema.invoiceUrl record = Stripe.Invoice.hosted_invoice_url remote /\
    InvoiceSchema.status record = (if automatic then "paid" else "open")%string /\
    ledger (world o) = ledger w ++ [entry] /\
    ActivityLogSchema.eventType entry
    = (if automatic then "invoice_created_and_paid" else "invoice_created")%string /\
    ActivityLogSchema.relatedId entry = Some (Stripe.Invoice.id remote) /\
    history (world o)
    = history w
      ++ [StripeCall (Stripe.invoiceItems_create customerId (amount * 100)%float "usd" description);
          StripeCall (Stripe.customers_retrieve customerId);
          StripeCall (Stripe.invoices_create customerId method)]
      ++ (if automatic
          then [StripeCall (Stripe.invoices_finalizeInvoice (Stripe.Invoice.id draft))]
          else [])
      ++ [Sent resp;
          DbWrite (Inserted Invoices (InvoiceSchema._id record));
          DbWrite (Inserted ActivityLogs (ActivityLogSchema._id entry))] /\
    statusCode resp = 200%Z /\
    response o = Some resp /\
    rejection o = None.
Proof.
  intros Hauth automatic method Hitem Hcust Hdraft Hfinal Hid Hc Ha Hfresh o. subst o.
  unfold serve.
  change (app (mkRequest (Some tok) (POST_create_invoice customerId amount description)))
    with (authenticateToken (Some tok) (fun _ => create_invoice customerId amount description)).
  rewrite (authenticateToken_ok _ _ _ _ _ Hauth).
  unfold create_invoice. js_unfold. cbn. rewrite Hitem. cbn. rewrite Hcust. cbn.
  fold automatic. subst method. destruct automatic; cbn.
  - rewrite Hdraft. cbn. rewrite Hfinal. cbn.
    rewrite Invoice_create_eq by assumption. cbn.
    rewrite create_eq by reflexivity. cbn.
    eexists. eexists. eexists. split; [reflexivity|]. cbn.
    repeat (split; [reflexivity|]).
    split; [cbn; rewrite <- !app_assoc; reflexivity | repeat split; reflexivity].
  - subst remote. rewrite Hdraft. cbn.
    rewrite Invoice_create_eq by assumption. cbn.
    rewrite create_eq by reflexivity. cbn.
    eexists. eexists. eexists. split; [reflexivity|]. cbn.
    repeat (split; [reflexivity|]).
    split; [cbn; rewrite <- !app_assoc; reflexivity | repeat split; reflexivity].
Qed.

Lemma truthy_Some s : truthy (Some s) = nonEmpty s.
Proof. destruct s; reflexivity. Qed.

Lemma truthyValue_VStr s : truthyValue (Some (VStr s)) = nonEmpty s.
Proof. destruct s; reflexivity. Qed.

(** With passwords that are strings, a login that fails because no vendor
    has the username and a login that fails because the password does not
    match receive the same response, status 401 with the message
    "Invalid credentials." and no cookie; neither changes the store. *)
Theorem login_failures_look_alike_for_strings env1 env2 tok1 tok2 u1 p1 u2 p2 w1 w2 v :
  nonEmpty u1 = true -> nonEmpty p1 = true ->
  nonEmpty u2 = true -> nonEmpty p2 = true ->
  vendorNamed u1 (store w1) = None ->
  vendorNamed u2 (store w2) = Some v ->
  bcrypt_compare env2 (VStr p2) (VendorSchema.password v) = Ok false ->
  let unknown := serve env1 (mkRequest tok1 (POST_login (Some u1) (Some (VStr p1)))) w1 in
  let wrong := serve env2 (mkRequest tok2 (POST_login (Some u2) (Some (VStr p2)))) w2 in
  response unknown = Some (mkResponse 401 [] (Json (message_ "Invalid credentials."))) /\
  response wrong = response unknown /\
  store (world unknown) = store w1 /\
  store (world wrong) = store w2.
Proof.
  intros Hu1 Hp1 Hu2 Hp2 Hnone Hsome Hcmp unknown wrong. subst unknown wrong.
  unfold serve.
  change (app (mkRequest tok1 (POST_login (Some u1) (Some (VStr p1)))))
    with (login (Some u1) (Some (VStr p1))).
  change (app (mkRequest tok2 (POST_login (Some u2) (Some (VStr p2)))))
    with (login (Some u2) (Some (VStr p2))).
  unfold login. rewrite !truthy_Some, !truthyValue_VStr, Hu1, Hp1, Hu2, Hp2.
  js_unfold. cbn. rewrite !Vendor_findOne_username. cbn.
  rewrite Hnone, Hsome. cbn. rewrite Hcmp. cbn. auto.
Qed.

(** A password that [bcrypt.compare] rejects (bcryptjs rejects whatever
    is not a string) is answered 401 when no vendor has the username, and
    500 with the error's message when one has: the rejection is caught at
    line 173, and only a stored vendor's password is ever compared. *)
Theorem login_rejected_password_tells_known_usernames env tok u password w :
  nonEmpty u = true ->
  truthyValue (Some password) = true ->
  let o := serve env (mkRequest tok (POST_login (Some u) (Some password))) w in
  store (world o) = store w /\
  match vendorNamed u (store w) with
  | None => response o = Some (mkResponse 401 [] (Json (message_ "Invalid credentials.")))
  | Some v =>
      forall e,
        bcrypt_compare env password (VendorSchema.password v) = Throw e ->
        response o = Some (mkResponse 500 [] (Json (message_error "Login failed." e)))
  end.
Proof.
  intros Hu Hp o. subst o. unfold serve.
  change (app (mkRequest tok (POST_login (Some u) (Some password))))
    with (login (Some u) (Some password)).
  unfold login. rewrite truthy_Some, Hu, Hp.
  js_unfold. cbn. rewrite Vendor_findOne_username. cbn.
  destruct (vendorNamed u (store w)) as [v|]; cbn; [|auto].
  destruct (bcrypt_compare env password (VendorSchema.password v)) as [[|]|e'] eqn:E; cbn.
  - split; [|intros e H; discriminate H].
    unfold jwt_sign_, res_cookie, addCookie. js_unfold. cbn.
    destruct (VendorSchema.approved v); cbn; [|reflexivity].
    destruct (jwt_sign env _ _); reflexivity.
  - split; [reflexivity | intros e H; discriminate H].
  - split; [reflexivity|]. intros e [= <-]. reflexivity.
Qed.

(** ** The ledger only grows *)

Lemma extendsLedger_refl d : extendsLedger d d.
Proof. exists []. symmetry. apply app_nil_r. Qed.

Lemma extendsLedger_trans d1 d2 d3 :
  extendsLedger d1 d2 -> extendsLedger d2 d3 -> extendsLedger d1 d3.
Proof.
  intros [n1 H1] [n2 H2]. exists (n1 ++ n2). rewrite H2, H1. symmetry. apply app_assoc.
Qed.

Lemma extendsLedger_same d d' : activityLogs d' = activityLogs d -> extendsLedger d d'.
Proof. intros H. exists []. rewrite H. symmetry. apply app_nil_r. Qed.

Create HintDb ao discriminated.

Lemma ao_ret {A} (a : A) : appendOnly (ret a).
Proof. intros env s. apply extendsLedger_refl. Qed.

Lemma ao_throw {A} e : appendOnly (@throw A e).
Proof. intros env s. apply extendsLedger_refl. Qed.

Lemma ao_bind {A B} (m : M A) (k : A -> M B) :
  appendOnly m -> (forall a, appendOnly (k a)) -> appendOnly (bind m k).
Proof.
  intros Hm Hk env s. unfold bind. specialize (Hm env s).
  destruct (m env s) as [[a|e] s']; cbn in *; [|exact Hm].
  eapply extendsLedger_trans; [exact Hm | apply Hk].
Qed.

Lemma ao_try_catch {A} (m : M A) (h : JsError -> M A) :
  appendOnly m -> (forall e, appendOnly (h e)) -> appendOnly (try_catch m h).
Proof.
  intros Hm Hh env s. unfold try_catch. specialize (Hm env s).
  destruct (m env s) as [[a|e] s']; cbn in *; [exact Hm|].
  eapply extendsLedger_trans; [exact Hm | apply Hh].
Qed.

Lemma ao_ask : appendOnly ask.
Proof. intros env s. apply extendsLedger_refl. Qed.

Lemma ao_getDb : appendOnly getDb.
Proof. intros env s. apply extendsLedger_refl. Qed.

Lemma ao_moment : appendOnly moment.
Proof. intros env s. apply extendsLedger_refl. Qed.

Lemma ao_perform e : appendOnly (perform e).
Proof. intros env s. apply extendsLedger_refl. Qed.

Lemma ao_liftResult {A} (r : result A) : appendOnly (liftResult r).
Proof. destruct r; [apply ao_ret | apply ao_throw]. Qed.

Lemma ao_send code b : appendOnly (send code b).
Proof. intros env s. unfold send. destruct (sent (res s)); apply extendsLedger_refl. Qed.

Lemma ao_addCookie c : appendOnly (addCookie c).
Proof. intros env s. unfold addCookie. destruct (sent (res s)); apply extendsLedger_refl. Qed.

#[local] Hint Resolve ao_ret ao_throw ao_ask ao_getDb ao_moment ao_perform ao_liftResult
  ao_send ao_addCookie : ao.

(** Decomposes an append-only goal along the structure of the handler. *)
Ltac ao_step :=
  first
    [ solve [auto with ao]
    | apply ao_bind; [|intros ?]
    | apply ao_try_catch; [|intros ?]
    | match goal with
      | |- appendOnly (match ?x with _ => _ end) => destruct x
      | |- appendOnly (let _ := _ in _) => cbv zeta
      end ].

Ltac ao := repeat ao_step.

Lemma ao_stripeCall {A} c (f : StripeApi -> result A) : appendOnly (stripeCall c f).
Proof. unfold stripeCall. ao. Qed.

Lemma ao_console_log m : appendOnly (console_log m).
Proof. apply ao_perform. Qed.

Lemma ao_console_error m : appendOnly (console_error m).
Proof. apply ao_perform. Qed.

Lemma ao_console_error_with m e : appendOnly (console_error_with m e).
Proof. apply ao_perform. Qed.

Lemma ao_console_log_with m v : appendOnly (console_log_with m v).
Proof. unfold console_log_with. ao. Qed.

Lemma ao_res_status_json c v : appendOnly (res_status_json c v).
Proof. apply ao_send. Qed.

Lemma ao_res_json v : appendOnly (res_json v).
Proof. apply ao_send. Qed.

Lemma ao_res_status_send c t : appendOnly (res_status_send c t).
Proof. apply ao_send. Qed.

Lemma ao_res_send t : appendOnly (res_send t).
Proof. apply ao_send. Qed.

Lemma ao_res_sendStatus c : appendOnly (res_sendStatus c).
Proof. apply ao_send. Qed.

Lemma ao_res_cookie n v : appendOnly (res_cookie n v).
Proof. unfold res_cookie. ao. Qed.

Lemma ao_res_clearCookie n : appendOnly (res_clearCookie n).
Proof. unfold res_clearCookie. ao. Qed.

Lemma ao_Date_now : appendOnly Date_now_.
Proof. unfold Date_now_. ao. Qed.

Lemma ao_freshObjectId : appendOnly freshObjectId.
Proof. unfold freshObjectId. ao. Qed.

Lemma ao_jwt_sign u : appendOnly (jwt_sign_ u).
Proof. unfold jwt_sign_. ao. Qed.

#[local] Hint Resolve ao_stripeCall ao_console_log ao_console_error ao_console_error_with
  ao_console_log_with ao_res_status_json ao_res_json ao_res_status_send ao_res_send
  ao_res_sendStatus ao_res_cookie ao_res_clearCookie ao_Date_now ao_freshObjectId
  ao_jwt_sign : ao.

Ltac ledger_kept := apply extendsLedger_same; reflexivity.

Lemma ao_Vendor_findOne f : appendOnly (Vendor.findOne f).
Proof. unfold Vendor.findOne. ao. Qed.

Lemma ao_Vendor_find f : appendOnly (Vendor.find f).
Proof. unfold Vendor.find. ao. Qed.

Lemma ao_Vendor_countDocuments f : appendOnly (Vendor.countDocuments f).
Proof. unfold Vendor.countDocuments. ao. Qed.

Lemma ao_Vendor_findOneAndUpdate f u : appendOnly (Vendor.findOneAndUpdate f u).
Proof.
  intros env s. unfold Vendor.findOneAndUpdate. js_unfold. cbn.
  destruct (updateFirst _ _ _) as [[v|] vs]; cbn; ledger_kept.
Qed.

Lemma ao_Vendor_insert v : appendOnly (Vendor.insert v).
Proof.
  intros env s. unfold Vendor.insert. js_unfold. cbn.
  repeat match goal with
  | |- context [if ?b then _ else _] => destruct b; cbn
  end; ledger_kept.
Qed.

Lemma ao_Vendor_save v : appendOnly (Vendor.save v).
Proof.
  intros env s. unfold Vendor.save. js_unfold. cbn.
  destruct (updateFirst _ _ _) as [[x|] vs]; cbn; ledger_kept.
Qed.

Lemma ao_Invoice_find f : appendOnly (Invoice.find f).
Proof. unfold Invoice.find. ao. Qed.

Lemma ao_Invoice_findOneAndUpdate f u : appendOnly (Invoice.findOneAndUpdate f u).
Proof.
  intros env s. unfold Invoice.findOneAndUpdate. js_unfold. cbn.
  destruct (updateFirst _ _ _) as [[v|] vs]; cbn; ledger_kept.
Qed.

Lemma ao_Invoice_create x c a d u st : appendOnly (Invoice.create x c a d u st).
Proof.
  intros env s. unfold Invoice.create, freshObjectId, Date_now_. js_unfold. cbn.
  repeat match goal with
  | |- context [if ?b then _ else _] => destruct b; cbn
  end; ledger_kept.
Qed.

(** The one operation that writes the ledger adds one entry at its end. *)
Lemma ao_ActivityLog_create t d r : appendOnly (ActivityLog.create t d r).
Proof.
  intros env s. unfold ActivityLog.create, freshObjectId, Date_now_. js_unfold. cbn.
  repeat match goal with
  | |- context [if ?b then _ else _] => destruct b; cbn
  end; try ledger_kept.
  eexists. reflexivity.
Qed.

Lemma ao_ActivityLog_find_sort f : appendOnly (ActivityLog.find_sort f).
Proof. unfold ActivityLog.find_sort. ao. Qed.

#[local] Hint Resolve ao_Vendor_findOne ao_Vendor_find ao_Vendor_countDocuments
  ao_Vendor_findOneAndUpdate ao_Vendor_insert ao_Vendor_save ao_Invoice_find
  ao_Invoice_findOneAndUpdate ao_Invoice_create ao_ActivityLog_create
  ao_ActivityLog_find_sort : ao.

Lemma ao_performAll es : appendOnly (performAll es).
Proof. induction es as [|e es IH]; cbn [performAll]; ao; auto. Qed.

Lemma ao_sequence ms : Forall appendOnly ms -> appendOnly (sequence ms).
Proof. induction 1; cbn [sequence]; ao; auto. Qed.

Lemma ao_authenticateToken tok next :
  (forall user, appendOnly (next user)) -> appendOnly (authenticateToken tok next).
Proof. intros H. unfold authenticateToken. ao; apply H. Qed.

Lemma ao_handlerOf t ev : appendOnly (handlerOf t ev).
Proof.
  unfold handlerOf.
  repeat match goal with
  | |- context [String.eqb t ?a] => destruct (String.eqb t a)
  end.
  - unfold on_charge_dispute_created. ao.
  - unfold on_customer_subscription_updated. ao.
  - unfold on_invoice_payment_succeeded. ao.
  - unfold on_payout_succeeded. ao.
  - unfold on_payout_failed. ao.
  - unfold on_charge_refunded. ao.
  - unfold on_unhandled. ao.
Qed.

Lemma ao_runSwitch_webhookSwitch ev : appendOnly (runSwitch webhookSwitch ev).
Proof. intros env s. rewrite runSwitch_webhookSwitch. apply ao_handlerOf. Qed.

Lemma ao_stripe_webhook rawBody sig : appendOnly (stripe_webhook rawBody sig).
Proof. unfold stripe_webhook. ao; apply ao_runSwitch_webhookSwitch. Qed.

(** Every route of the application is append-only. *)
Lemma ao_app req : appendOnly (app req).
Proof.
  unfold app. destruct (route req); cbv zeta;
    try (apply ao_authenticateToken; intros user).
  - unfold root. ao.
  - unfold register. ao.
  - unfold login. ao.
  - unfold admin_login, defaultErrorHandler. ao.
  - unfold admin_vendors_pending. ao.
  - unfold admin_vendors_approve. ao.
  - unfold create_customer. ao.
  - unfold create_setup_intent. ao.
  - unfold vendor_add_customer. ao.
  - unfold vendor_customers. ao; apply ao_performAll.
  - unfold create_payment_intent. ao.
  - unfold create_invoice. ao.
  - unfold vendor_create_subscription. ao.
  - unfold vendor_request_payout. ao.
  - apply ao_stripe_webhook.
  - unfold admin_vendors_all. ao.
  - unfold admin_analytics. ao.
  - unfold vendor_invoices. ao.
  - unfold admin_activity_log. ao.
  - unfold vendor_create_stripe_connect_account. ao.
  - unfold customer_invoices. ao.
  - unfold vendor_get_current_user. ao.
  - unfold vendor_create_subscription_setup_intent. ao.
  - unfold admin_vendor_details. ao.
  - unfold check_auth. ao.
  - unfold logout. ao.
  - unfold customer_generate_invite_link. ao.
  - unfold vendor_payout_history. ao.
  - unfold vendor_cancel_subscription. ao.
Qed.

Lemma serve_extends_ledger env req w :
  exists new, ledger (world (serve env req w)) = ledger w ++ new.
Proof.
  unfold serve, ledger.
  pose proof (ao_app req env (mkSt (store w) (history w) (mkRes [] None))) as H.
  destruct (app req env _) as [r s]. exact H.
Qed.

(** ** The display order of the ledger *)

Lemma insertDesc_perm a l : Permutation (ActivityLog.insertDesc a l) (a :: l).
Proof.
  induction l as [|b l IH]; cbn; [reflexivity|].
  destruct (Z.ltb _ _); [reflexivity|].
  rewrite IH. apply perm_swap.
Qed.

Lemma sortDesc_perm l : Permutation (ActivityLog.sortDesc l) l.
Proof.
  induction l as [|a l IH]; cbn; [reflexivity|].
  rewrite insertDesc_perm. apply perm_skip, IH.
Qed.

Lemma insertDesc_sorted a l :
  StronglySorted newerFirst l -> StronglySorted newerFirst (ActivityLog.insertDesc a l).
Proof.
  induction 1 as [|b l Hl IH Hb]; cbn.
  - repeat constructor.
  - destruct (Z.ltb_spec (ActivityLogSchema.timestamp b) (ActivityLogSchema.timestamp a)).
    + constructor; [constructor; assumption|].
      constructor; [unfold newerFirst; lia|].
      eapply Forall_impl; [|exact Hb]. unfold newerFirst. intros c Hc. lia.
    + constructor; [exact IH|].
      eapply Permutation_Forall; [symmetry; apply insertDesc_perm|].
      constructor; [unfold newerFirst; lia | exact Hb].
Qed.

Lemma sortDesc_sorted l : StronglySorted newerFirst (ActivityLog.sortDesc l).
Proof.
  induction l as [|a l IH]; cbn; [constructor|]. apply insertDesc_sorted, IH.
Qed.

(** C9: no request makes the server change or remove a ledger entry: after
    any request the ledger is the old ledger followed by the entries the
    request added.  The display query returns the entries that match the
    filter, newest first: an administrator's GET /admin/activity-log
    answers with them in descending order of timestamp. *)
Theorem C9_ledger_append_only_and_shown_newest_first :
  (forall env req w, exists new, ledger (world (serve env req w)) = ledger w ++ new) /\
  (forall env filter s,
     exists shown,
       ActivityLog.find_sort filter env s = (Ok shown, s) /\
       StronglySorted newerFirst shown /\
       Permutation shown (List.filter (ActivityLog.matches env filter) (activityLogs (db s)))) /\
  (forall env tok user search eventType w,
     jwt_verify env tok (JWT_SECRET env) = Ok user ->
     user_role user = "admin"%string ->
     exists shown,
       response (serve env (mkRequest (Some tok) (GET_admin_activity_log search eventType)) w)
       = Some (mkResponse 200 [] (Json (VArr (map ActivityLog.toJSON shown)))) /\
       StronglySorted newerFirst shown /\
       Permutation shown
         (List.filter (ActivityLog.matches env (activityQuery search eventType)) (ledger w))).
Proof.
  split; [exact serve_extends_ledger|]. split.
  - intros env filter s. eexists. split; [reflexivity|].
    split; [apply sortDesc_sorted | apply sortDesc_perm].
  - intros env tok user search eventType w Hauth Hrole.
    eexists. split; [|split; [apply sortDesc_sorted | apply sortDesc_perm]].
    unfold serve.
    change (app (mkRequest (Some tok) (GET_admin_activity_log search eventType)))
      with (authenticateToken (Some tok) (fun user => admin_activity_log user search eventType)).
    rewrite (authenticateToken_ok _ _ _ _ _ Hauth).
    unfold admin_activity_log, ActivityLog.find_sort. rewrite Hrole. js_unfold. cbn.
    reflexivity.
Qed.

(* ------------------------------------------------------------------ *)
(** ** The claims on the bench *)

(** C1, as stated, fails: the same [invoice.payment_succeeded] event
    delivered twice leaves two [invoice_paid] entries in the ledger, and
    the same dispute delivered twice makes two refund attempts for the
    same charge. *)
Lemma C1_redelivery_duplicates :
  verification (delivering invoicePaid) "{}" signature = Ok invoicePaid /\
  length (entriesOfType "invoice_paid" (ledger (world (once invoicePaid benchWorld)))) = 1 /\
  length (entriesOfType "invoice_paid" (ledger (world (twice invoicePaid benchWorld)))) = 2 /\
  refundAttempts (history (world (twice disputeCreated benchWorld))) = ["ch_1"; "ch_1"]%string.
Proof. vm_compute. repeat split; reflexivity. Qed.

(** The amended C1 on the bench: a dispute delivered twice. *)
Lemma C1_witness :
  let env := delivering disputeCreated in
  let o1 := deliver env "{}" signature benchWorld in
  let o2 := deliver env "{}" signature (world o1) in
  verification env "{}" signature = Ok disputeCreated /\
  vendors (store (world o2)) = vendors (store (world o1)) /\
  invoices (store (world o2)) = invoices (store (world o1)) /\
  (exists first second,
     ledger (world o1) = ledger benchWorld ++ first /\
     ledger (world o2) = ledger (world o1) ++ second /\
     length second = length first /\
     (In (Stripe.Event.type disputeCreated)
         ["charge.dispute.created"; "payout.succeeded"; "payout.failed"; "charge.refunded"]%string ->
      length first = 1) /\
     (refundSucceeds env "ch_1" = refundSucceeds env "ch_1" ->
      map ActivityLogSchema.eventType second = map ActivityLogSchema.eventType first)) /\
  (exists attempts,
     refundAttempts (history (world o1)) = refundAttempts (history benchWorld) ++ attempts /\
     refundAttempts (history (world o2)) = refundAttempts (history (world o1)) ++ attempts /\
     (Stripe.Event.type disputeCreated = "charge.dispute.created"%string ->
      attempts = ["ch_1"%string])) /\
  response o1 = Some acknowledgement /\
  response o2 = Some acknowledgement.
Proof.
  intros env o1 o2. split; [reflexivity|].
  exact (C1_redelivery_is_handled_again env env "{}" signature disputeCreated benchWorld
           eq_refl eq_refl).
Defined.

(** C2 on the bench: a dispute whose refund succeeds. *)
Lemma C2_witness :
  let env := delivering disputeCreated in
  let o := serve env (mkRequest None (POST_stripe_webhook "{}" signature)) benchWorld in
  verification env "{}" signature = Ok disputeCreated /\
  Stripe.Event.type disputeCreated = "charge.dispute.created"%string /\
  stripeCalls (history (world o)) = [Stripe.refunds_create "ch_1"] /\
  (exists entry,
     ledger (world o) = [entry] /\
     ActivityLogSchema.relatedId entry = Some "ch_1"%string /\
     ActivityLogSchema.eventType entry = "fraud_warning_refund"%string /\
     ActivityLogSchema.description entry
     = "Fraud warning: Dispute created for charge ch_1. Auto-refund initiated."%string) /\
  response o = Some acknowledgement /\
  rejection o = None.
Proof.
  intros env o. split; [reflexivity|]. split; [reflexivity|].
  exact (C2_dispute_refunded_once env None "{}" signature disputeCreated benchWorld
           eq_refl eq_refl).
Defined.

(** C4 on the bench: the subscription of vendor [v1] becomes active. *)
Lemma C4_witness :
  let env := delivering (subscriptionUpdated "cus_1") in
  let o := serve env (mkRequest None (POST_stripe_webhook "{}" signature)) benchWorld in
  verification env "{}" signature = Ok (subscriptionUpdated "cus_1") /\
  vendorOfCustomer "cus_1" (store benchWorld) = Some vendor1 /\
  (exists before after,
     vendors (store benchWorld) = before ++ vendor1 :: after /\
     vendors (store (world o))
     = before
       ++ VendorSchema.mk "oid-v1" "v1" "hash:secret" true ["cus_9"%string] "cus_1" "active"
            (Some 1702592000000%Z) None
       :: after) /\
  (exists entry,
     ledger (world o) = [entry] /\
     ActivityLogSchema.eventType entry = "subscription_status_updated"%string /\
     ActivityLogSchema.description entry
     = "Vendor v1 subscription status updated to active."%string /\
     ActivityLogSchema.relatedId entry = Some "oid-v1"%string) /\
  response o = Some acknowledgement.
Proof.
  intros env o. split; [reflexivity|]. split; [reflexivity|].
  exact (C4_subscription_status_follows_event env None "{}" signature
           (subscriptionUpdated "cus_1") benchWorld vendor1 eq_refl eq_refl eq_refl).
Defined.

(** C5 on the bench: invoice [in_1] is reported paid. *)
Lemma C5_witness :
  let env := delivering invoicePaid in
  let o := serve env (mkRequest None (POST_stripe_webhook "{}" signature)) benchWorld in
  verification env "{}" signature = Ok invoicePaid /\
  invoiceOfId "in_1" (store benchWorld) = Some invoice1 /\
  (exists before after,
     invoices (store benchWorld) = before ++ invoice1 :: after /\
     invoices (store (world o))
     = before
       ++ InvoiceSchema.mk "oid-in-1" "in_1" "cus_9" 50%float "Consulting"
            (Some "https://invoice.stripe.com/i/in_1"%string) "paid" 1700000000000%Z
       :: after) /\
  (exists entry,
     ledger (world o) = [entry] /\
     ActivityLogSchema.eventType entry = "invoice_paid"%string /\
     ActivityLogSchema.description entry = "Invoice in_1 paid successfully."%string /\
     ActivityLogSchema.relatedId entry = Some "oid-in-1"%string) /\
  response o = Some acknowledgement.
Proof.
  intros env o. split; [reflexivity|]. split; [reflexivity|].
  exact (C5_invoice_paid_by_event env None "{}" signature invoicePaid benchWorld invoice1
           eq_refl eq_refl eq_refl).
Defined.

(** C7, as stated, fails: a subscription update for a customer no vendor
    is mapped to is acknowledged, but the ledger stays as it was (here:
    empty), and nothing is logged at a level above [console.log]. *)
Lemma C7_miss_writes_no_entry :
  let o := once (subscriptionUpdated "cus_unknown") benchWorld in
  vendorOfCustomer "cus_unknown" (store benchWorld) = None /\
  ledger (world o) = [] /\
  consoleLines ErrorLevel (history (world o)) = [] /\
  consoleLines LogLevel (history (world o))
  = ["Subscription updated for customer cus_unknown. New status: active";
     "Vendor not found for Stripe Customer ID: cus_unknown."]%string /\
  response o = Some acknowledgement.
Proof. vm_compute. repeat split; reflexivity. Qed.

(** The amended C7 on the bench: an update for an unmapped customer. *)
Lemma C7_witness :
  let ev := subscriptionUpdated "cus_unknown" in
  let env := delivering ev in
  let o := serve env (mkRequest None (POST_stripe_webhook "{}" signature)) benchWorld in
  verification env "{}" signature = Ok ev /\
  vendorOfCustomer "cus_unknown" (store benchWorld) = None /\
  store (world o) = store benchWorld /\
  (exists announced,
     history (world o)
     = history benchWorld
       ++ [Console LogLevel announced;
           Console LogLevel "Vendor not found for Stripe Customer ID: cus_unknown.";
           Sent acknowledgement]) /\
  response o = Some acknowledgement /\
  rejection o = None.
Proof.
  intros ev env o. split; [reflexivity|]. split; [reflexivity|].
  exact (C7_lookup_miss_only_logged_to_console env None "{}" signature ev benchWorld
           eq_refl (or_introl (conj eq_refl eq_refl))).
Defined.

(** C8, as stated, fails: the customer has a default payment method and
    the finalized invoice comes back [open], not paid, yet the local
    record is written with status [paid]. *)
Lemma C8_paid_without_confirmation :
  let o := serve (invoicing customerWithCard finalizedOpen) createInvoice emptyWorld in
  hasDefaultPaymentMethod customerWithCard = true /\
  Stripe.Invoice.status finalizedOpen = "open"%string /\
  map InvoiceSchema.status (invoices (store (world o))) = ["paid"%string].
Proof. vm_compute. repeat split; reflexivity. Qed.

(** The amended C8 on the bench: an invoice for a customer without a
    default payment method. *)
Lemma C8_witness :
  let env := invoicing customerWithoutCard finalizedOpen in
  let o := serve env createInvoice emptyWorld in
  jwt_verify env "vendor-token" (JWT_SECRET env) = Ok (mkUser "v1" "vendor") /\
  hasDefaultPaymentMethod customerWithoutCard = false /\
  exists record entry resp,
    invoices (store (world o)) = [record] /\
    InvoiceSchema.id record = "in_1"%string /\
    InvoiceSchema.customerId record = "cus_9"%string /\
    InvoiceSchema.amount record = 50%float /\
    InvoiceSchema.invoiceUrl record = None /\
    InvoiceSchema.status record = "open"%string /\
    ledger (world o) = [entry] /\
    ActivityLogSchema.eventType entry = "invoice_created"%string /\
    ActivityLogSchema.relatedId entry = Some "in_1"%string /\
    history (world o)
    = [StripeCall (Stripe.invoiceItems_create "cus_9" (50 * 100)%float "usd" "Consulting");
       StripeCall (Stripe.customers_retrieve "cus_9");
       StripeCall (Stripe.invoices_create "cus_9" "send_invoice");
       Sent resp;
       DbWrite (Inserted Invoices (InvoiceSchema._id record));
       DbWrite (Inserted ActivityLogs (ActivityLogSchema._id entry))] /\
    statusCode resp = 200%Z /\
    response o = Some resp /\
    rejection o = None.
Proof.
  intros env o. split; [reflexivity|]. split; [reflexivity|].
  exact (C8_invoice_record_follows_payment_method env "vendor-token" (mkUser "v1" "vendor")
           "cus_9" 50%float "Consulting" emptyWorld customerWithoutCard benchDraft benchDraft
           eq_refl eq_refl eq_refl eq_refl eq_refl eq_refl eq_refl eq_refl eq_refl).
Defined.

(** C10: the login route does not keep the two failures alike for
    every body it can receive.  With the number 123 as password, the
    request for the stored vendor [v1] is answered 500 "Login failed."
    with the message of the error [bcrypt.compare] rejects with, and the
    request for a username no vendor has is answered 401
    "Invalid credentials.": the status tells which usernames exist. *)
Theorem C10_nonstring_password_reveals_username :
  let unknown :=
    serve bench (mkRequest None (POST_login (Some "nobody") (Some (VNum 123%float))))
      benchWorld in
  let known :=
    serve bench (mkRequest None (POST_login (Some "v1") (Some (VNum 123%float))))
      benchWorld in
  vendorNamed "nobody" (store benchWorld) = None /\
  vendorNamed "v1" (store benchWorld) = Some vendor1 /\
  bcrypt_compare bench (VNum 123%float) (VendorSchema.password vendor1)
  = Throw (mkError "Illegal arguments: number, string") /\
  response unknown = Some (mkResponse 401 [] (Json (message_ "Invalid credentials."))) /\
  response known
  = Some (mkResponse 500 []
            (Json (VObj [("message", VStr "Login failed.");
                         ("error", VStr "Illegal arguments: number, string")]))) /\
  store (world unknown) = store benchWorld /\
  store (world known) = store benchWorld.
Proof. vm_compute. repeat split; reflexivity. Qed.

(** With strings, on the bench: an unknown username and a wrong
    password. *)
Lemma login_failures_on_the_bench :
  let env := delivering invoicePaid in
  let unknown :=
    serve env (mkRequest None (POST_login (Some "nobody") (Some (VStr "secret")))) benchWorld in
  let wrong :=
    serve env (mkRequest None (POST_login (Some "v1") (Some (VStr "guess")))) benchWorld in
  vendorNamed "nobody" (store benchWorld) = None /\
  vendorNamed "v1" (store benchWorld) = Some vendor1 /\
  bcrypt_compare env (VStr "guess") (VendorSchema.password vendor1) = Ok false /\
  response unknown = Some (mkResponse 401 [] (Json (message_ "Invalid credentials."))) /\
  response wrong = response unknown /\
  store (world unknown) = store benchWorld /\
  store (world wrong) = store benchWorld.
Proof.
  intros env unknown wrong. split; [reflexivity|]. split; [reflexivity|]. split; [reflexivity|].
  exact (login_failures_look_alike_for_strings env env None None "nobody" "secret" "v1" "guess"
           benchWorld benchWorld vendor1 eq_refl eq_refl eq_refl eq_refl eq_refl eq_refl eq_refl).
Defined.

(* ------------------------------------------------------------------ *)
(** ** The scenarios of the specification, run on the bench *)

Example scenario_invoice_reconciled :
  let w := session reconciliation emptyWorld in
  map InvoiceSchema.status (invoices (store w)) = ["paid"%string] /\
  length (entriesOfType "invoice_paid" (ledger w)) = 1 /\
  map ActivityLogSchema.relatedId (entriesOfType "invoice_paid" (ledger w))
  = map (fun i => Some (InvoiceSchema._id i)) (invoices (store w)).
Proof. vm_compute. repeat split; reflexivity. Qed.

Example scenario_dispute_refunded :
  let o := once disputeCreated benchWorld in
  refundAttempts (history (world o)) = ["ch_1"%string] /\
  map ActivityLogSchema.eventType (ledger (world o)) = ["fraud_warning_refund"%string] /\
  map ActivityLogSchema.relatedId (ledger (world o)) = [Some "ch_1"%string].
Proof. vm_compute. repeat split; reflexivity. Qed.

Example scenario_refund_refused :
  let env := benchEnv (Ok disputeCreated) (Throw (mkError "charge_already_refunded"))
               customerWithCard finalizedOpen in
  let o := deliver env "{}" signature benchWorld in
  map ActivityLogSchema.description (ledger (world o))
  = ["Fraud warning: Dispute created for charge ch_1. Auto-refund FAILED. Error: charge_already_refunded"%string] /\
  response o = Some acknowledgement.
Proof. vm_compute. repeat split; reflexivity. Qed.

Example scenario_unsigned_delivery :
  let o := deliver (delivering invoicePaid) "{}" None benchWorld in
  option_map statusCode (response o) = Some 400%Z /\
  store (world o) = store benchWorld.
Proof. vm_compute. repeat split; reflexivity. Qed.

Example scenario_unregistered_event :
  let ev := Stripe.Event.mk "evt_4" "customer.created" (eventObject "cus_2" "" "" "") in
  let o := once ev benchWorld in
  store (world o) = store benchWorld /\
  consoleLines LogLevel (history (world o)) = ["Unhandled event type customer.created"%string] /\
  response o = Some acknowledgement.
Proof. vm_compute. repeat split; reflexivity. Qed.

Example scenario_ledger_shown_newest_first :
  let w := session reconciliation emptyWorld in
  let o := serve (delivering invoicePaid)
             (mkRequest (Some "admin-token") (GET_admin_activity_log None None)) w in
  response o
  = Some (mkResponse 200 []
            (Json (VArr (map ActivityLog.toJSON (rev (ledger w)))))).
Proof. vm_compute. reflexivity. Qed.

(* ================================================================== *)
(* ================================================================== *)
(** * Further properties of the routes *)

(** ** Requests that do not pass [authenticateToken] *)

Ltac enter_route := unfold serve; cbv beta iota zeta delta [app route token].

(** X1: a request to a route behind [authenticateToken] that carries no
    token, or a token that does not verify, is refused (401 without a
    token, 403 with a bad one) before the handler runs: the store is
    unchanged, nothing is written and no call is made to Stripe. *)
Theorem X1_unauthenticated_request_changes_nothing env tok r w :
  behindAuth r = true ->
  refusal env tok <> None ->
  let o := serve env (mkRequest tok r) w in
  option_map statusCode (response o) = refusal env tok /\
  store (world o) = store w /\
  stripeCalls (history (world o)) = stripeCalls (history w) /\
  dbWrites (history (world o)) = dbWrites (history w) /\
  rejection o = None.
Proof.
  intros Hr Hno o. subst o. unfold refusal, authentication in *.
  destruct tok as [t|].
  - destruct (jwt_verify env t (JWT_SECRET env)) as [user|err] eqn:Hv; [contradiction|].
    destruct r; try discriminate Hr; enter_route; unfold authenticateToken; js_unfold;
      cbn; rewrite Hv; cbn; repeat split; obs; reflexivity.
  - destruct r; try discriminate Hr; enter_route; cbn; repeat split; obs; reflexivity.
Qed.

(** ** Relations every step of a handler keeps *)

Section Respects.
Context (R : Db -> Db -> Prop) {R_preorder : PreOrder R}.

Lemma respects_kept {A} (m : M A) :
  (forall env s, db (snd (m env s)) = db s) -> respects R m.
Proof. intros H env s. rewrite H. reflexivity. Qed.

Lemma respects_ret {A} (a : A) : respects R (ret a).
Proof. apply respects_kept. reflexivity. Qed.

Lemma respects_throw {A} e : respects R (@throw A e).
Proof. apply respects_kept. reflexivity. Qed.

Lemma respects_bind {A B} (m : M A) (k : A -> M B) :
  respects R m -> (forall a, respects R (k a)) -> respects R (bind m k).
Proof.
  intros Hm Hk env s. unfold bind. specialize (Hm env s).
  destruct (m env s) as [[a|e] s']; cbn in *; [|exact Hm].
  etransitivity; [exact Hm | apply Hk].
Qed.

Lemma respects_try_catch {A} (m : M A) (h : JsError -> M A) :
  respects R m -> (forall e, respects R (h e)) -> respects R (try_catch m h).
Proof.
  intros Hm Hh env s. unfold try_catch. specialize (Hm env s).
  destruct (m env s) as [[a|e] s']; cbn in *; [exact Hm|].
  etransitivity; [exact Hm | apply Hh].
Qed.

Lemma respects_ask : respects R ask.
Proof. apply respects_kept. reflexivity. Qed.

Lemma respects_getDb : respects R getDb.
Proof. apply respects_kept. reflexivity. Qed.

Lemma respects_moment : respects R moment.
Proof. apply respects_kept. reflexivity. Qed.

Lemma respects_perform e : respects R (perform e).
Proof. apply respects_kept. reflexivity. Qed.

Lemma respects_liftResult {A} (r : result A) : respects R (liftResult r).
Proof. destruct r; [apply respects_ret | apply respects_throw]. Qed.

Lemma respects_send code b : respects R (send code b).
Proof. apply respects_kept. intros env s. unfold send. destruct (sent (res s)); reflexivity. Qed.

Lemma respects_addCookie c : respects R (addCookie c).
Proof.
  apply respects_kept. intros env s. unfold addCookie. destruct (sent (res s)); reflexivity.
Qed.

End Respects.

Create HintDb rs discriminated.

#[local] Hint Resolve respects_ret respects_throw respects_ask respects_getDb respects_moment
  respects_perform respects_liftResult respects_send respects_addCookie : rs.
#[local] Hint Extern 0 (PreOrder _) => typeclasses eauto : rs.

(** Decomposes a goal [respects R m] along the structure of [m]. *)
Ltac rs_step :=
  first
    [ solve [auto with rs]
    | apply respects_bind; [typeclasses eauto | | intros ?]
    | apply respects_try_catch; [typeclasses eauto | | intros ?]
    | match goal with
      | |- respects _ (match ?x with _ => _ end) => destruct x
      | |- respects _ (let _ := _ in _) => cbv zeta
      end ].

Ltac rs := repeat rs_step.

Section RespectsDerived.
Context (R : Db -> Db -> Prop) {R_preorder : PreOrder R}.

Lemma respects_stripeCall {A} c (f : StripeApi -> result A) : respects R (stripeCall c f).
Proof. unfold stripeCall. rs. Qed.

Lemma respects_console_log m : respects R (console_log m).
Proof. apply respects_perform; exact R_preorder. Qed.

Lemma respects_console_error_with m e : respects R (console_error_with m e).
Proof. apply respects_perform; exact R_preorder. Qed.

Lemma respects_console_error m : respects R (console_error m).
Proof. apply respects_perform; exact R_preorder. Qed.

Lemma respects_console_log_with m v : respects R (console_log_with m v).
Proof. unfold console_log_with, console_log. rs. Qed.

Lemma respects_res_status_json c v : respects R (res_status_json c v).
Proof. apply respects_send; exact R_preorder. Qed.

Lemma respects_res_json v : respects R (res_json v).
Proof. apply respects_send; exact R_preorder. Qed.

Lemma respects_res_status_send c t : respects R (res_status_send c t).
Proof. apply respects_send; exact R_preorder. Qed.

Lemma respects_res_send t : respects R (res_send t).
Proof. apply respects_send; exact R_preorder. Qed.

Lemma respects_res_sendStatus c : respects R (res_sendStatus c).
Proof. apply respects_send; exact R_preorder. Qed.

Lemma respects_res_cookie n v : respects R (res_cookie n v).
Proof. unfold res_cookie. rs. Qed.

Lemma respects_res_clearCookie n : respects R (res_clearCookie n).
Proof. unfold res_clearCookie. rs. Qed.

Lemma respects_Date_now : respects R Date_now_.
Proof. unfold Date_now_. rs. Qed.

Lemma respects_freshObjectId : respects R freshObjectId.
Proof. unfold freshObjectId. rs. Qed.

Lemma respects_jwt_sign u : respects R (jwt_sign_ u).
Proof. unfold jwt_sign_. rs. Qed.

Lemma respects_Vendor_findOne f : respects R (Vendor.findOne f).
Proof. unfold Vendor.findOne. rs. Qed.

Lemma respects_Vendor_find f : respects R (Vendor.find f).
Proof. unfold Vendor.find. rs. Qed.

Lemma respects_Vendor_countDocuments f : respects R (Vendor.countDocuments f).
Proof. unfold Vendor.countDocuments. rs. Qed.

Lemma respects_Invoice_find f : respects R (Invoice.find f).
Proof. unfold Invoice.find. rs. Qed.

Lemma respects_ActivityLog_find_sort f : respects R (ActivityLog.find_sort f).
Proof. unfold ActivityLog.find_sort. rs. Qed.

Lemma respects_performAll es : respects R (performAll es).
Proof. induction es as [|e es IH]; cbn [performAll]; rs; auto. Qed.

Lemma respects_authenticateToken tok next :
  (forall user, respects R (next user)) -> respects R (authenticateToken tok next).
Proof.
  intros H. unfold authenticateToken.
  destruct tok; [|apply respects_send; exact R_preorder].
  apply respects_bind; [exact R_preorder | apply respects_ask; exact R_preorder |].
  intros env. destruct (jwt_verify _ _ _); [apply H|].
  apply respects_bind; [exact R_preorder | apply respects_perform; exact R_preorder |].
  intros _. apply respects_send; exact R_preorder.
Qed.

End RespectsDerived.

#[local] Hint Resolve respects_stripeCall respects_console_log respects_console_error_with
  respects_console_error respects_console_log_with respects_res_status_json respects_res_json
  respects_res_status_send respects_res_send respects_res_sendStatus respects_res_cookie
  respects_res_clearCookie respects_Date_now respects_freshObjectId respects_jwt_sign
  respects_Vendor_findOne respects_Vendor_find respects_Vendor_countDocuments
  respects_Invoice_find respects_ActivityLog_find_sort respects_performAll : rs.

(** ** Reading does not write *)

Lemma GET_respects_eq req : isGET (route req) = true -> respects eq (app req).
Proof.
  unfold app. destruct (route req); try discriminate; intros _; cbv zeta;
    try (apply respects_authenticateToken; [typeclasses eauto|]; intros user).
  - unfold root. rs.
  - unfold admin_vendors_pending. rs.
  - unfold vendor_customers. rs.
  - unfold admin_vendors_all. rs.
  - unfold admin_analytics. rs.
  - unfold vendor_invoices. rs.
  - unfold admin_activity_log. rs.
  - unfold customer_invoices. rs.
  - unfold vendor_get_current_user. rs.
  - unfold admin_vendor_details. rs.
  - unfold check_auth. rs.
  - unfold vendor_payout_history. rs.
Qed.

(** X2: a GET request never changes the store, whoever sends it and
    whatever Stripe answers: vendors, invoices and ledger are afterwards
    what they were. *)
Theorem X2_GET_requests_leave_the_store_alone env req w :
  isGET (route req) = true ->
  store (world (serve env req w)) = store w.
Proof.
  intros H. unfold serve.
  pose proof (GET_respects_eq req H env (mkSt (store w) (history w) (mkRes [] None))) as E.
  destruct (app req env _) as [r s]. cbn in *. symmetry. exact E.
Qed.

(** ** Invoices are never deleted or rewritten *)

Lemma settles_refl i : settles i i.
Proof. split; auto. Qed.

Lemma settles_trans i1 i2 i3 : settles i1 i2 -> settles i2 i3 -> settles i1 i3.
Proof.
  intros [F1 S1] [F2 S2]. split; [congruence|].
  destruct S2 as [S2|S2]; [rewrite S2; exact S1 | auto].
Qed.

Lemma Forall2_settles_refl l : Forall2 settles l l.
Proof. induction l; constructor; auto using settles_refl. Qed.

Lemma Forall2_settles_trans l1 l2 l3 :
  Forall2 settles l1 l2 -> Forall2 settles l2 l3 -> Forall2 settles l1 l3.
Proof.
  intros H. revert l3. induction H; intros l3 H3; inversion H3; subst; constructor.
  - eapply settles_trans; eassumption.
  - auto.
Qed.

Lemma keepsInvoices_PreOrder : PreOrder keepsInvoices.
Proof.
  split.
  - intros d. split; [|auto].
    exists (invoices d), []. split; [symmetry; apply app_nil_r | apply Forall2_settles_refl].
  - intros d1 d2 d3 [(k1 & n1 & E1 & F1) N1] [(k2 & n2 & E2 & F2) N2]. split; [|auto].
    rewrite E1 in F2. apply Forall2_app_inv_l in F2.
    destruct F2 as (a & b & Fa & Fb & ->).
    exists a, (b ++ n2). split; [rewrite E2; symmetry; apply app_assoc|].
    eapply Forall2_settles_trans; eassumption.
Qed.

#[local] Existing Instance keepsInvoices_PreOrder.

Lemma keepsInvoices_same d d' : invoices d' = invoices d -> keepsInvoices d d'.
Proof.
  intros H. unfold keepsInvoices. rewrite H. split; [|auto].
  exists (invoices d), []. split; [symmetry; apply app_nil_r | apply Forall2_settles_refl].
Qed.

Lemma updateFirst_map {A B} (p : A -> bool) (f : A -> A) (g : A -> B) (l : list A) :
  (forall x, g (f x) = g x) -> map g (snd (updateFirst p f l)) = map g l.
Proof.
  intros H. induction l as [|x l IH]; cbn; [reflexivity|].
  destruct (p x); cbn; [rewrite H; reflexivity|].
  destruct (updateFirst p f l) as [o l']. cbn in *. rewrite IH. reflexivity.
Qed.

Lemma updateFirst_Forall2 {A} (S : A -> A -> Prop) (p : A -> bool) (f : A -> A) (l : list A) :
  (forall x, S x x) -> (forall x, S x (f x)) -> Forall2 S l (snd (updateFirst p f l)).
Proof.
  intros Hr Hf. induction l as [|x l IH]; cbn; [constructor|].
  destruct (p x); cbn.
  - constructor; [apply Hf|]. clear IH. induction l; constructor; auto.
  - destruct (updateFirst p f l) as [o l']. cbn in *. constructor; auto.
Qed.

Lemma respects_keepsInvoices_findOneAndUpdate f :
  respects keepsInvoices (Invoice.findOneAndUpdate f [Invoice.set_status "paid"]).
Proof.
  intros env s. unfold Invoice.findOneAndUpdate. js_unfold. cbn.
  pose proof (updateFirst_Forall2 settles (Invoice.matches f)
                (Invoice.applyUpdate [Invoice.set_status "paid"]) (invoices (db s))
                settles_refl) as Hf.
  pose proof (updateFirst_map (Invoice.matches f)
                (Invoice.applyUpdate [Invoice.set_status "paid"]) InvoiceSchema.id
                (invoices (db s))) as Hi.
  destruct (updateFirst _ _ _) as [[i|] l]; cbn in *; [|reflexivity].
  split; cbn.
  - exists l, []. split; [symmetry; apply app_nil_r|].
    apply Hf. intros x. split; [reflexivity | right; reflexivity].
  - rewrite Hi; [auto | reflexivity].
Qed.

Lemma existsb_id_In x (l : list InvoiceSchema.t) :
  existsb (fun j => String.eqb (InvoiceSchema.id j) x) l = false ->
  ~ In x (map InvoiceSchema.id l).
Proof.
  induction l as [|j l IH]; cbn; [tauto|].
  destruct (String.eqb_spec (InvoiceSchema.id j) x); cbn; [discriminate|].
  intros H [E|E]; [congruence | exact (IH H E)].
Qed.

Lemma respects_keepsInvoices_create x c a d u st :
  respects keepsInvoices (Invoice.create x c a d u st).
Proof.
  intros env s. unfold Invoice.create, freshObjectId, Date_now_. js_unfold. cbn.
  destruct (negb (nonEmpty x)); cbn; [reflexivity|].
  destruct (negb (nonEmpty c)); cbn; [reflexivity|].
  destruct (is_nan a); cbn; [reflexivity|].
  destruct (existsb _ (invoices (db s))) eqn:E; cbn; [reflexivity|].
  split; cbn.
  - eexists. eexists. split; [reflexivity | apply Forall2_settles_refl].
  - intros N. rewrite map_app. cbn.
    apply NoDup_app; [exact N | repeat constructor; intros [] |].
    intros y Hy [<-|[]]. exact (existsb_id_In _ _ E Hy).
Qed.

Lemma respects_keepsInvoices_Vendor_findOneAndUpdate f u :
  respects keepsInvoices (Vendor.findOneAndUpdate f u).
Proof.
  intros env s. unfold Vendor.findOneAndUpdate. js_unfold. cbn.
  destruct (updateFirst _ _ _) as [[v|] vs]; cbn; apply keepsInvoices_same; reflexivity.
Qed.

Lemma respects_keepsInvoices_Vendor_insert v : respects keepsInvoices (Vendor.insert v).
Proof.
  intros env s. unfold Vendor.insert. js_unfold. cbn.
  repeat match goal with
  | |- context [if ?b then _ else _] => destruct b; cbn
  end; apply keepsInvoices_same; reflexivity.
Qed.

Lemma respects_keepsInvoices_Vendor_save v : respects keepsInvoices (Vendor.save v).
Proof.
  intros env s. unfold Vendor.save. js_unfold. cbn.
  destruct (updateFirst _ _ _) as [[x|] vs]; cbn; apply keepsInvoices_same; reflexivity.
Qed.

Lemma respects_keepsInvoices_ActivityLog_create t d r :
  respects keepsInvoices (ActivityLog.create t d r).
Proof.
  intros env s. unfold ActivityLog.create, freshObjectId, Date_now_. js_unfold. cbn.
  repeat match goal with
  | |- context [if ?b then _ else _] => destruct b; cbn
  end; apply keepsInvoices_same; reflexivity.
Qed.

#[local] Hint Resolve respects_keepsInvoices_findOneAndUpdate respects_keepsInvoices_create
  respects_keepsInvoices_Vendor_findOneAndUpdate respects_keepsInvoices_Vendor_insert
  respects_keepsInvoices_Vendor_save respects_keepsInvoices_ActivityLog_create : rs.

Lemma respects_keepsInvoices_handlerOf t ev : respects keepsInvoices (handlerOf t ev).
Proof.
  unfold handlerOf.
  repeat match goal with
  | |- context [String.eqb t ?a] => destruct (String.eqb t a)
  end.
  - unfold on_charge_dispute_created. rs.
  - unfold on_customer_subscription_updated. rs.
  - unfold on_invoice_payment_succeeded. rs.
  - unfold on_payout_succeeded. rs.
  - unfold on_payout_failed. rs.
  - unfold on_charge_refunded. rs.
  - unfold on_unhandled. rs.
Qed.

Lemma respects_keepsInvoices_stripe_webhook rawBody sig :
  respects keepsInvoices (stripe_webhook rawBody sig).
Proof.
  unfold stripe_webhook. rs.
  intros env s. rewrite runSwitch_webhookSwitch. apply respects_keepsInvoices_handlerOf.
Qed.

Lemma respects_keepsInvoices_app req : respects keepsInvoices (app req).
Proof.
  unfold app. destruct (route req); cbv zeta;
    try (apply respects_authenticateToken; [typeclasses eauto|]; intros user).
  - unfold root. rs.
  - unfold register. rs.
  - unfold login. rs.
  - unfold admin_login, defaultErrorHandler. rs.
  - unfold admin_vendors_pending. rs.
  - unfold admin_vendors_approve. rs.
  - unfold create_customer. rs.
  - unfold create_setup_intent. rs.
  - unfold vendor_add_customer. rs.
  - unfold vendor_customers. rs.
  - unfold create_payment_intent. rs.
  - unfold create_invoice. rs.
  - unfold vendor_create_subscription. rs.
  - unfold vendor_request_payout. rs.
  - apply respects_keepsInvoices_stripe_webhook.
  - unfold admin_vendors_all. rs.
  - unfold admin_analytics. rs.
  - unfold vendor_invoices. rs.
  - unfold admin_activity_log. rs.
  - unfold vendor_create_stripe_connect_account. rs.
  - unfold customer_invoices. rs.
  - unfold vendor_get_current_user. rs.
  - unfold vendor_create_subscription_setup_intent. rs.
  - unfold admin_vendor_details. rs.
  - unfold check_auth. rs.
  - unfold logout. rs.
  - unfold customer_generate_invite_link. rs.
  - unfold vendor_payout_history. rs.
  - unfold vendor_cancel_subscription. rs.
Qed.

(** X3: no request deletes an invoice or rewrites anything of it but its
    status, and a status only ever changes to [paid]: after any request
    the stored invoices are the old ones, in place, followed by the new
    ones; and if no two invoices shared a Stripe id before, none do
    afterwards. *)
Theorem X3_invoices_are_kept env req w :
  let after := invoices (store (world (serve env req w))) in
  (exists kept new,
     after = kept ++ new /\
     Forall2 (fun old now =>
                frozen now = frozen old /\
                (InvoiceSchema.status now = InvoiceSchema.status old \/
                 InvoiceSchema.status now = "paid"%string))
       (invoices (store w)) kept) /\
  (NoDup (map InvoiceSchema.id (invoices (store w))) -> NoDup (map InvoiceSchema.id after)).
Proof.
  unfold serve.
  pose proof (respects_keepsInvoices_app req env (mkSt (store w) (history w) (mkRes [] None)))
    as H.
  destruct (app req env _) as [r s]. exact H.
Qed.

(** ** Registration, approval and login *)

Lemma find_app_miss {A} (p : A -> bool) (l1 l2 : list A) :
  List.find p l1 = None -> List.find p (l1 ++ l2) = List.find p l2.
Proof.
  induction l1 as [|y l1 IH]; cbn; [reflexivity|].
  destruct (p y); [discriminate|]. exact IH.
Qed.

Lemma Vendor_insert_eq v env s :
  nonEmpty (VendorSchema.username v) = true ->
  nonEmpty (VendorSchema.password v) = true ->
  nonEmpty (VendorSchema.stripeCustomerId v) = true ->
  vendorNamed (VendorSchema.username v) (db s) = None ->
  Vendor.insert v env s =
  (Ok tt,
   mkSt (Vendor.setVendors (db s) (vendors (db s) ++ [v]))
        (effects s ++ [DbWrite (Inserted Vendors (VendorSchema._id v))])
        (res s)).
Proof.
  intros Hu Hp Hc Hf. unfold Vendor.insert. js_unfold. cbn. rewrite Hu, Hp, Hc. cbn.
  unfold vendorNamed in Hf. rewrite (existsb_find _ _ Hf). reflexivity.
Qed.

#[local] Arguments Vendor.insert : simpl never.
#[local] Arguments Vendor.save : simpl never.

(** X4: POST /register turns a request down before anything happens:
    without a username or a password it answers 400, for a username that
    is taken 409; in both cases no Stripe customer is created and the
    store is unchanged. *)
Theorem X4_register_refuses_before_acting env tok username password w :
  truthy username && truthy password = false
  \/ vendorNamed (showOpt username) (store w) <> None ->
  let o := serve env (mkRequest tok (POST_register username password)) w in
  let resp :=
    if truthy username && truthy password
    then mkResponse 409 [] (Json (message_ "Vendor with this username already exists."))
    else mkResponse 400 [] (Json (message_ "Username and password are required.")) in
  response o = Some resp /\
  world o = mkWorld (store w) (history w ++ [Sent resp]) /\
  rejection o = None.
Proof.
  intros H o resp. subst o resp. enter_route. unfold register.
  destruct (truthy username) eqn:Hu; cbn [negb andb orb].
  - destruct (truthy password) eqn:Hp; cbn [negb andb orb].
    + destruct H as [H|H]; [discriminate|].
      js_unfold. cbn. rewrite Vendor_findOne_username. cbn.
      destruct (vendorNamed (showOpt username) (store w)); [|contradiction]. cbn. auto.
    + js_unfold. cbn. auto.
  - js_unfold. cbn. auto.
Qed.

(** X5: a registration with a fresh username stores one vendor, not yet
    approved, on trial for thirty days from the time the clock shows once
    Stripe has answered, with the hash of the password rather than the
    password, bound to the Stripe customer that was created for it; one
    [vendor_registered] entry points at the new vendor and the answer is
    201. *)
Theorem X5_register_stores_pending_vendor env tok u p w customer :
  nonEmpty u = true -> nonEmpty p = true ->
  vendorNamed u (store w) = None ->
  on_customers_create (stripe env) (Some u) (Some u) (Some ("Vendor: " ++ u)%string) None
  = Ok customer ->
  nonEmpty (Stripe.Customer.id customer) = true ->
  nonEmpty (bcrypt_hash env p) = true ->
  let o := serve env (mkRequest tok (POST_register (Some u) (Some p))) w in
  let moment := length (history w) + 1 in
  let oid := newObjectId env moment in
  let now := Date_now env moment in
  exists entry,
    vendors (store (world o))
    = vendors (store w)
      ++ [registered oid u (bcrypt_hash env p) (Stripe.Customer.id customer) now] /\
    VendorSchema.trialEndsAt
      (registered oid u (bcrypt_hash env p) (Stripe.Customer.id customer) now)
    = Some (Date_now env moment + 30 * 24 * 60 * 60 * 1000)%Z /\
    invoices (store (world o)) = invoices (store w) /\
    ledger (world o) = ledger w ++ [entry] /\
    ActivityLogSchema.eventType entry = "vendor_registered"%string /\
    ActivityLogSchema.description entry = ("New vendor registered: " ++ u)%string /\
    ActivityLogSchema.relatedId entry = Some oid /\
    stripeCalls (history (world o))
    = stripeCalls (history w)
      ++ [Stripe.customers_create (Some u) (Some u) (Some ("Vendor: " ++ u)%string) None] /\
    response o
    = Some (mkResponse 201 []
              (Json (message_ "Vendor registered successfully. Awaiting admin approval."))) /\
    rejection o = None.
Proof.
  intros Hu Hp Hfresh Hstripe Hc Hh o moment oid now. subst o oid now moment.
  enter_route. unfold register.
  rewrite !truthy_Some, Hu, Hp. cbn [negb orb showOpt].
  unfold freshObjectId, Date_now_. js_unfold. cbn.
  rewrite Vendor_findOne_username. cbn. rewrite Hfresh. cbn. rewrite Hstripe. cbn.
  rewrite Vendor_insert_eq by assumption. cbn.
  rewrite create_eq by reflexivity. cbn.
  rewrite !length_app. cbn [length].
  eexists. split; [reflexivity|]. cbn.
  repeat (split; [reflexivity|]). split; [obs; reflexivity|]. auto.
Qed.

Lemma Vendor_findOneAndUpdate_username_eq u upd env s :
  Vendor.findOneAndUpdate [Vendor.username_is u] upd env s =
  match vendorNamed u (db s) with
  | Some v =>
      (Ok (Some (Vendor.applyUpdate upd v)),
       mkSt (Vendor.setVendors (db s) (vendorsWith u upd (vendors (db s))))
            (effects s
             ++ [DbWrite (Updated Vendors (VendorSchema._id (Vendor.applyUpdate upd v)))])
            (res s))
  | None => (Ok None, s)
  end.
Proof.
  unfold vendorNamed, vendorsWith, Vendor.findOneAndUpdate. js_unfold. cbn.
  rewrite (updateFirst_ext _ _ _ _ (Vendor_matches_username env u)).
  pose proof (updateFirst_fst (fun v => String.eqb (VendorSchema.username v) u)
                (Vendor.applyUpdate upd) (vendors (db s))) as H.
  destruct (updateFirst _ _ (vendors (db s))) as [o l]. cbn in H. subst o.
  destruct (List.find _ (vendors (db s))); reflexivity.
Qed.

Lemma vendorsWith_hit u upd vs v :
  List.find (fun v => String.eqb (VendorSchema.username v) u) vs = Some v ->
  exists before after,
    vs = before ++ v :: after /\
    List.find (fun v => String.eqb (VendorSchema.username v) u) before = None /\
    vendorsWith u upd vs = before ++ Vendor.applyUpdate upd v :: after.
Proof.
  intros H. destruct (updateFirst_hit _ (Vendor.applyUpdate upd) _ _ H) as (b & a & Hl & Hb & Hu).
  exists b, a. unfold vendorsWith. rewrite Hu. auto.
Qed.

(** X6: POST /login for a stored vendor whose password matches: while
    the vendor is not approved the answer is 403 and no cookie is set;
    once approved it is 200 with the signed token in the [token] cookie.
    The store is not touched either way. *)
Theorem X6_login_needs_approval env tok u p w v token :
  nonEmpty u = true -> nonEmpty p = true ->
  vendorNamed u (store w) = Some v ->
  bcrypt_compare env (VStr p) (VendorSchema.password v) = Ok true ->
  jwt_sign env (mkUser (VendorSchema.username v) "vendor") (JWT_SECRET env) = Ok token ->
  let o := serve env (mkRequest tok (POST_login (Some u) (Some (VStr p)))) w in
  response o
  = Some (if VendorSchema.approved v
          then mkResponse 200 [SetCookie "token" token (secureCookies env)]
                 (Json (VObj [("message", VStr "Login successful!");
                              ("vendor", loginPayload v)]))
          else mkResponse 403 []
                 (Json (message_ "Your account is awaiting admin approval."))) /\
  store (world o) = store w /\
  rejection o = None.
Proof.
  intros Hu Hp Hfind Hcmp Hsign o. subst o. enter_route. unfold login.
  rewrite truthy_Some, truthyValue_VStr, Hu, Hp. cbn [negb orb showOpt].
  unfold jwt_sign_, res_cookie, addCookie. js_unfold. cbn.
  rewrite Vendor_findOne_username. cbn. rewrite Hfind. cbn. rewrite Hcmp. cbn.
  destruct (VendorSchema.approved v); cbn; [rewrite Hsign; cbn|]; auto.
Qed.

(** X7: POST /admin/vendors/approve asks for a valid token but not for
    the administrator's: for any authenticated user it marks the named
    vendor approved, leaves the rest of the vendor and the other vendors
    as they were and writes one [vendor_approved] entry; for an unknown
    username it answers 404 and changes nothing. *)
Theorem X7_any_authenticated_user_approves env tok user u w :
  jwt_verify env tok (JWT_SECRET env) = Ok user ->
  let o := serve env (mkRequest (Some tok) (POST_admin_vendors_approve u)) w in
  match vendorNamed u (store w) with
  | Some v =>
      exists before after entry,
        vendors (store w) = before ++ v :: after /\
        vendors (store (world o)) = before ++ withApproved v true :: after /\
        invoices (store (world o)) = invoices (store w) /\
        ledger (world o) = ledger w ++ [entry] /\
        ActivityLogSchema.eventType entry = "vendor_approved"%string /\
        ActivityLogSchema.relatedId entry = Some (VendorSchema._id v) /\
        response o
        = Some (mkResponse 200 []
                  (Json (message_ ("Vendor " ++ u ++ " approved successfully.")%string)))
  | None =>
      store (world o) = store w /\
      response o = Some (mkResponse 404 [] (Json (message_ "Vendor not found.")))
  end.
Proof.
  intros Hauth o. subst o. enter_route. rewrite (authenticateToken_ok _ _ _ _ _ Hauth).
  unfold admin_vendors_approve. js_unfold. cbn.
  rewrite Vendor_findOneAndUpdate_username_eq. cbn.
  destruct (vendorNamed u (store w)) as [v|] eqn:Hfind; cbn; [|auto].
  rewrite create_eq by reflexivity. cbn.
  destruct (vendorsWith_hit u [Vendor.set_approved true] _ _ Hfind) as (b & a & Hl & _ & Hw).
  exists b, a. eexists. split; [exact Hl|]. split; [exact Hw|].
  repeat (split; [reflexivity|]). reflexivity.
Qed.

Lemma find_last {A} (p : A -> bool) (l : list A) (x : A) :
  List.find p l = None -> p x = true -> List.find p (l ++ [x]) = Some x.
Proof. intros Hl Hx. rewrite find_app_miss by exact Hl. cbn. rewrite Hx. reflexivity. Qed.

Lemma updateFirst_last {A} (p : A -> bool) (f : A -> A) (l : list A) (x : A) :
  List.find p l = None -> p x = true ->
  updateFirst p f (l ++ [x]) = (Some (f x), l ++ [f x]).
Proof.
  intros Hl Hx. induction l as [|y l IH]; cbn in *; [rewrite Hx; reflexivity|].
  destruct (p y); [discriminate|]. rewrite (IH Hl). reflexivity.
Qed.

(** X8: registration, approval and login fit together.  A vendor who has
    just registered and logs in with the same password is told to wait
    for approval (403, no cookie); after POST /admin/vendors/approve the
    same login succeeds and sets the token cookie. *)
Theorem X8_login_works_once_approved
    env1 env2 env3 tok1 tok2 tok3 admin u p w customer token :
  nonEmpty u = true -> nonEmpty p = true ->
  vendorNamed u (store w) = None ->
  on_customers_create (stripe env1) (Some u) (Some u) (Some ("Vendor: " ++ u)%string) None
  = Ok customer ->
  nonEmpty (Stripe.Customer.id customer) = true ->
  nonEmpty (bcrypt_hash env1 p) = true ->
  jwt_verify env2 tok2 (JWT_SECRET env2) = Ok admin ->
  bcrypt_compare env3 (VStr p) (bcrypt_hash env1 p) = Ok true ->
  jwt_sign env3 (mkUser u "vendor") (JWT_SECRET env3) = Ok token ->
  let attempt := mkRequest tok3 (POST_login (Some u) (Some (VStr p))) in
  let w1 := world (serve env1 (mkRequest tok1 (POST_register (Some u) (Some p))) w) in
  let w2 := world (serve env2 (mkRequest (Some tok2) (POST_admin_vendors_approve u)) w1) in
  response (serve env3 attempt w1)
  = Some (mkResponse 403 [] (Json (message_ "Your account is awaiting admin approval."))) /\
  option_map statusCode (response (serve env3 attempt w2)) = Some 200%Z /\
  option_map setCookies (response (serve env3 attempt w2))
  = Some [SetCookie "token" token (secureCookies env3)].
Proof.
  intros Hu Hp Hfresh Hstripe Hc Hh Hadmin Hcmp Hsign attempt w1 w2.
  assert (E1 : exists v l h,
             w1 = mkWorld (mkDb (vendors (store w) ++ [v]) (invoices (store w)) l) h /\
             VendorSchema.username v = u /\
             VendorSchema.password v = bcrypt_hash env1 p /\
             VendorSchema.approved v = false).
  { subst w1. enter_route. unfold register.
    rewrite !truthy_Some, Hu, Hp. cbn [negb orb showOpt].
    unfold freshObjectId, Date_now_. js_unfold. cbn.
    rewrite Vendor_findOne_username. cbn. rewrite Hfresh. cbn. rewrite Hstripe. cbn.
    rewrite Vendor_insert_eq by assumption. cbn.
    rewrite create_eq by reflexivity. cbn.
    eexists. eexists. eexists. split; [reflexivity|]. cbn. auto. }
  destruct E1 as (v & l & h & E1 & Hvu & Hvp & Hva).
  assert (Hnamed : vendorNamed u (store w1) = Some v).
  { rewrite E1. unfold vendorNamed in *. cbn.
    apply find_last; [exact Hfresh | rewrite Hvu; apply String.eqb_refl]. }
  assert (E2 : exists l' h',
             w2 = mkWorld (mkDb (vendors (store w) ++ [withApproved v true])
                                (invoices (store w)) l') h').
  { subst w2. enter_route. rewrite (authenticateToken_ok _ _ _ _ _ Hadmin).
    unfold admin_vendors_approve. js_unfold. cbn.
    rewrite Vendor_findOneAndUpdate_username_eq. cbn. rewrite Hnamed. cbn.
    rewrite create_eq by reflexivity. cbn.
    rewrite E1. cbn. unfold vendorsWith.
    rewrite updateFirst_last;
      [| exact Hfresh | rewrite Hvu; apply String.eqb_refl].
    eexists. eexists. reflexivity. }
  destruct E2 as (l' & h' & E2).
  assert (Hnamed2 : vendorNamed u (store w2) = Some (withApproved v true)).
  { rewrite E2. unfold vendorNamed in *. cbn.
    apply find_last; [exact Hfresh | cbn; rewrite Hvu; apply String.eqb_refl]. }
  clearbody w1 w2. subst attempt. split; [|split].
  - enter_route. unfold login.
    rewrite truthy_Some, truthyValue_VStr, Hu, Hp. cbn [negb orb showOpt].
    js_unfold. cbn. rewrite Vendor_findOne_username. cbn. rewrite Hnamed. cbn.
    rewrite Hvp, Hcmp, Hva. reflexivity.
  - enter_route. unfold login.
    rewrite truthy_Some, truthyValue_VStr, Hu, Hp. cbn [negb orb showOpt].
    unfold jwt_sign_, res_cookie, addCookie. js_unfold. cbn.
    rewrite Vendor_findOne_username. cbn. rewrite Hnamed2. cbn.
    rewrite Hvp, Hcmp. cbn. rewrite Hvu, Hsign. reflexivity.
  - enter_route. unfold login.
    rewrite truthy_Some, truthyValue_VStr, Hu, Hp. cbn [negb orb showOpt].
    unfold jwt_sign_, res_cookie, addCookie. js_unfold. cbn.
    rewrite Vendor_findOne_username. cbn. rewrite Hnamed2. cbn.
    rewrite Hvp, Hcmp. cbn. rewrite Hvu, Hsign. reflexivity.
Qed.

(** ** Saving a vendor that was read from the store *)

Lemma updateFirst_at {A} (q : A -> bool) (f : A -> A) (before after : list A) (x : A) :
  Forall (fun y => q y = false) before -> q x = true ->
  updateFirst q f (before ++ x :: after) = (Some (f x), before ++ f x :: after).
Proof.
  intros Hb Hx. induction Hb as [|y l Hy Hl IH]; cbn; [rewrite Hx; reflexivity|].
  rewrite Hy, IH. reflexivity.
Qed.

Lemma distinct_before (before after : list VendorSchema.t) v :
  NoDup (map VendorSchema._id (before ++ v :: after)) ->
  Forall (fun y => String.eqb (VendorSchema._id y) (VendorSchema._id v) = false) before.
Proof.
  rewrite map_app. cbn. intros N. apply NoDup_remove_2 in N.
  apply Forall_forall. intros y Hy.
  destruct (String.eqb_spec (VendorSchema._id y) (VendorSchema._id v)) as [E|]; [|reflexivity].
  exfalso. apply N. apply in_or_app. left. rewrite <- E. apply in_map. exact Hy.
Qed.

(** A vendor found by username is, among vendors with distinct [_id]s,
    the one [save] rewrites. *)
Lemma Vendor_save_found u v v' env s :
  vendorNamed u (db s) = Some v ->
  distinctIds (db s) ->
  VendorSchema._id v' = VendorSchema._id v ->
  exists before after,
    vendors (db s) = before ++ v :: after /\
    List.find (fun x => String.eqb (VendorSchema.username x) u) before = None /\
    Vendor.save v' env s =
    (Ok tt,
     mkSt (Vendor.setVendors (db s) (before ++ v' :: after))
          (effects s ++ [DbWrite (Updated Vendors (VendorSchema._id v'))])
          (res s)).
Proof.
  unfold vendorNamed, distinctIds. intros Hfind Hd Hid.
  destruct (updateFirst_hit _ (fun x => x) _ _ Hfind) as (b & a & Hl & Hb & _).
  exists b, a. split; [exact Hl|]. split; [exact Hb|].
  unfold Vendor.save. js_unfold. cbn. rewrite Hl in *. rewrite Hid.
  rewrite (updateFirst_at _ (fun _ => v') b a v (distinct_before b a v Hd) (String.eqb_refl _)).
  reflexivity.
Qed.

(** X9: POST /vendor/add-customer associates a customer with a vendor at
    most once.  A customer the vendor does not have yet is added at the
    end of the vendor's list (200); asking again, or for a customer the
    vendor already has, answers 409 and changes nothing. *)
Theorem X9_customer_is_associated_once env env' tok tok' user user' u c w v :
  jwt_verify env tok (JWT_SECRET env) = Ok user ->
  jwt_verify env' tok' (JWT_SECRET env') = Ok user' ->
  vendorNamed u (store w) = Some v ->
  distinctIds (store w) ->
  let o := serve env (mkRequest (Some tok) (POST_vendor_add_customer u c)) w in
  let again := serve env' (mkRequest (Some tok') (POST_vendor_add_customer u c)) (world o) in
  let conflict :=
    mkResponse 409 [] (Json (message_ "Customer already associated with this vendor.")) in
  (if existsb (String.eqb c) (VendorSchema.customers v)
   then response o = Some conflict /\ store (world o) = store w
   else
     response o
     = Some (mkResponse 200 []
               (Json (message_ "Customer associated with vendor successfully."))) /\
     exists before after,
       vendors (store w) = before ++ v :: after /\
       vendors (store (world o))
       = before ++ withCustomers v (VendorSchema.customers v ++ [c]) :: after) /\
  response again = Some conflict /\
  store (world again) = store (world o).
Proof.
  intros Hauth Hauth' Hfind Hd o again conflict.
  assert (Hagain : forall w' v',
            vendorNamed u (store w') = Some v' ->
            existsb (String.eqb c) (VendorSchema.customers v') = true ->
            let o' := serve env' (mkRequest (Some tok') (POST_vendor_add_customer u c)) w' in
            response o' = Some conflict /\ store (world o') = store w').
  { intros w' v' Hf He. enter_route. rewrite (authenticateToken_ok _ _ _ _ _ Hauth').
    unfold vendor_add_customer. js_unfold. cbn.
    rewrite Vendor_findOne_username. cbn. rewrite Hf. cbn. rewrite He. cbn. auto. }
  subst again o. enter_route. rewrite (authenticateToken_ok _ _ _ _ _ Hauth).
  unfold vendor_add_customer. js_unfold. cbn.
  rewrite Vendor_findOne_username. cbn. rewrite Hfind. cbn.
  destruct (existsb (String.eqb c) (VendorSchema.customers v)) eqn:He; cbn.
  - split; [auto|].
    apply (Hagain (mkWorld (store w) _) v); [exact Hfind | exact He].
  - destruct (Vendor_save_found u v (withCustomers v (VendorSchema.customers v ++ [c])) env
                (mkSt (store w) (history w) (mkRes [] None)) Hfind Hd eq_refl)
      as (b & a & Hl & Hb & Hsave).
    rewrite Hsave. cbn. split; [split; [reflexivity|]; exists b, a; auto|].
    apply (Hagain (mkWorld _ _) (withCustomers v (VendorSchema.customers v ++ [c]))).
    + unfold vendorNamed. cbn. rewrite find_app_miss by exact Hb. cbn.
      unfold vendorNamed in Hfind. apply find_some in Hfind. destruct Hfind as [_ ->].
      reflexivity.
    + cbn. rewrite existsb_app. cbn. rewrite String.eqb_refl. apply orb_true_r.
Qed.

(** ** Invoice creation when something fails *)


Lemma find_existsb {A} (p : A -> bool) (l : list A) :
  List.find p l <> None -> existsb p l = true.
Proof.
  induction l as [|x l IH]; cbn; [congruence|].
  destruct (p x); [reflexivity | exact IH].
Qed.

(** X11: POST /create-invoice answers before it writes.  When Stripe
    returns an invoice id that is already stored, the client has received
    200, the write is refused by the unique index, the second response
    the handler then attempts throws, and the handler rejects: no record
    and no ledger entry is written for the invoice. *)
Theorem X11_invoice_answered_before_written
    env tok user customerId amount description w customer draft remote :
  jwt_verify env tok (JWT_SECRET env) = Ok user ->
  let automatic := hasDefaultPaymentMethod customer in
  let method := (if automatic then "charge_automatically" else "send_invoice")%string in
  on_invoiceItems_create (stripe env) customerId (amount * 100)%float "usd" description = Ok tt ->
  on_customers_retrieve (stripe env) customerId = Ok customer ->
  on_invoices_create (stripe env) customerId method = Ok draft ->
  (if automatic
   then on_invoices_finalizeInvoice (stripe env) (Stripe.Invoice.id draft) = Ok remote
   else remote = draft) ->
  nonEmpty (Stripe.Invoice.id remote) = true ->
  nonEmpty customerId = true ->
  PrimFloat.is_nan amount = false ->
  invoiceOfId (Stripe.Invoice.id remote) (store w) <> None ->
  let o := serve env (mkRequest (Some tok) (POST_create_invoice customerId amount description)) w in
  option_map statusCode (response o) = Some 200%Z /\
  rejection o = Some ERR_HTTP_HEADERS_SENT /\
  store (world o) = store w /\
  dbWrites (history (world o)) = dbWrites (history w).
Proof.
  intros Hauth automatic method Hitem Hcust Hdraft Hfinal Hid Hc Ha Hdup o. subst o.
  enter_route. rewrite (authenticateToken_ok _ _ _ _ _ Hauth).
  unfold create_invoice, Invoice.create, freshObjectId, Date_now_. js_unfold. cbn.
  rewrite Hitem. cbn. rewrite Hcust. cbn.
  fold automatic. subst method. unfold invoiceOfId in Hdup. apply find_existsb in Hdup.
  destruct automatic; cbn.
  - rewrite Hdraft. cbn. rewrite Hfinal. cbn. rewrite Hid, Hc, Ha. cbn. rewrite Hdup. cbn.
    repeat split; obs; reflexivity.
  - subst remote. rewrite Hdraft. cbn. rewrite Hid, Hc, Ha. cbn. rewrite Hdup. cbn.
    repeat split; obs; reflexivity.
Qed.

(** ** Charges and payouts *)

(** X12: POST /create-payment-intent charges the first card Stripe lists
    for the customer, for a hundred times the amount; when the customer
    has no card it answers 400 and asks for no payment.  The store is
    never touched. *)
Theorem X12_payment_needs_a_card env tok user customerId amount w :
  jwt_verify env tok (JWT_SECRET env) = Ok user ->
  let o := serve env (mkRequest (Some tok) (POST_create_payment_intent customerId amount)) w in
  store (world o) = store w /\
  match on_paymentMethods_list (stripe env) customerId with
  | Ok [] =>
      response o
      = Some (mkResponse 400 []
                (Json (message_ "No payment method found for this customer."))) /\
      stripeCalls (history (world o))
      = stripeCalls (history w) ++ [Stripe.paymentMethods_list customerId]
  | Ok (card :: _) =>
      stripeCalls (history (world o))
      = stripeCalls (history w)
        ++ [Stripe.paymentMethods_list customerId;
            Stripe.paymentIntents_create customerId (amount * 100)%float card] /\
      match on_paymentIntents_create (stripe env) customerId (amount * 100)%float card with
      | Ok paymentIntentId =>
          response o
          = Some (mkResponse 200 []
                    (Json (VObj [("message", VStr "Payment successful!");
                                 ("paymentIntentId", VStr paymentIntentId)])))
      | Throw e =>
          response o
          = Some (mkResponse 500 []
                    (Json (message_error "Failed to create Payment Intent." e)))
      end
  | Throw e =>
      response o
      = Some (mkResponse 500 [] (Json (message_error "Failed to create Payment Intent." e))) /\
      stripeCalls (history (world o))
      = stripeCalls (history w) ++ [Stripe.paymentMethods_list customerId]
  end.
Proof.
  intros Hauth o. subst o. enter_route. rewrite (authenticateToken_ok _ _ _ _ _ Hauth).
  unfold create_payment_intent. js_unfold. cbn.
  destruct (on_paymentMethods_list (stripe env) customerId) as [[|card rest]|e]; cbn.
  - repeat split; obs; reflexivity.
  - destruct (on_paymentIntents_create (stripe env) customerId _ card); cbn;
      repeat split; obs; reflexivity.
  - repeat split; obs; reflexivity.
Qed.

(** X13: POST /vendor/request-payout reaches Stripe only for a stored
    vendor with a connected account: an unknown vendor gets 404 and a
    vendor without an account 400, in both cases without any call to
    Stripe or change to the store.  Otherwise one payout of a hundred
    times the amount is requested on the vendor's account and, if Stripe
    accepts it, one [payout_requested] entry records the payout's id. *)
Theorem X13_payout_needs_connected_account env tok user u amount w :
  jwt_verify env tok (JWT_SECRET env) = Ok user ->
  let o := serve env (mkRequest (Some tok) (POST_vendor_request_payout u amount)) w in
  vendors (store (world o)) = vendors (store w) /\
  invoices (store (world o)) = invoices (store w) /\
  match vendorNamed u (store w) with
  | None =>
      response o = Some (mkResponse 404 [] (Json (message_ "Vendor not found."))) /\
      stripeCalls (history (world o)) = stripeCalls (history w) /\
      ledger (world o) = ledger w
  | Some v =>
      if truthy (VendorSchema.stripeConnectAccountId v) then
        let account := showOpt (VendorSchema.stripeConnectAccountId v) in
        stripeCalls (history (world o))
        = stripeCalls (history w) ++ [Stripe.payouts_create (amount * 100)%float account] /\
        match on_payouts_create (stripe env) (amount * 100)%float account with
        | Ok payoutId =>
            option_map statusCode (response o) = Some 200%Z /\
            exists entry,
              ledger (world o) = ledger w ++ [entry] /\
              ActivityLogSchema.eventType entry = "payout_requested"%string /\
              ActivityLogSchema.relatedId entry = Some payoutId
        | Throw e =>
            response o
            = Some (mkResponse 500 [] (Json (message_error "Failed to request payout." e))) /\
            ledger (world o) = ledger w
        end
      else
        response o
        = Some (mkResponse 400 []
                  (Json (message_ "Stripe Express account not connected for this vendor."))) /\
        stripeCalls (history (world o)) = stripeCalls (history w) /\
        ledger (world o) = ledger w
  end.
Proof.
  intros Hauth o. subst o. enter_route. rewrite (authenticateToken_ok _ _ _ _ _ Hauth).
  unfold vendor_request_payout. js_unfold. cbn.
  rewrite Vendor_findOne_username. cbn.
  destruct (vendorNamed u (store w)) as [v|]; cbn.
  - destruct (truthy (VendorSchema.stripeConnectAccountId v)); cbn.
    + destruct (on_payouts_create (stripe env) _ _) as [payoutId|e]; cbn.
      * rewrite create_eq by reflexivity. cbn.
        repeat (split; [try reflexivity; obs; reflexivity|]).
        eexists. unfold ledger. cbn. repeat split; reflexivity.
      * repeat split; obs; reflexivity.
    + repeat split; obs; reflexivity.
  - repeat split; obs; reflexivity.
Qed.

(** ** Subscriptions *)

(** X14: POST /vendor/create-subscription for a stored vendor calls
    Stripe in a fixed order: attach the payment method, make it the
    customer's default, create the subscription at the price
    [price_12345].  The first call that fails ends the request with 500
    and an untouched store; when all succeed the vendor's subscription
    status becomes the status Stripe reports and one [vendor_subscribed]
    entry about the vendor is appended. *)
Theorem X14_subscription_recorded_after_stripe env tok user u paymentMethodId w v :
  jwt_verify env tok (JWT_SECRET env) = Ok user ->
  vendorNamed u (store w) = Some v ->
  distinctIds (store w) ->
  let o := serve env (mkRequest (Some tok) (POST_vendor_create_subscription u paymentMethodId)) w in
  let customer := VendorSchema.stripeCustomerId v in
  let attach := Stripe.paymentMethods_attach paymentMethodId customer in
  let update := Stripe.customers_update customer paymentMethodId in
  let create := Stripe.subscriptions_create customer "price_12345" in
  let failed e calls :=
    response o
    = Some (mkResponse 500 [] (Json (message_error "Failed to create subscription." e))) /\
    stripeCalls (history (world o)) = stripeCalls (history w) ++ calls /\
    store (world o) = store w in
  match on_paymentMethods_attach (stripe env) paymentMethodId customer with
  | Throw e => failed e [attach]
  | Ok _ =>
      match on_customers_update (stripe env) customer paymentMethodId with
      | Throw e => failed e [attach; update]
      | Ok _ =>
          match on_subscriptions_create (stripe env) customer "price_12345" with
          | Throw e => failed e [attach; update; create]
          | Ok subscription =>
              let v' := withSubscriptionStatus v (Stripe.Subscription.status subscription) in
              stripeCalls (history (world o))
              = stripeCalls (history w) ++ [attach; update; create] /\
              invoices (store (world o)) = invoices (store w) /\
              response o
              = Some (mkResponse 200 []
                        (Json (VObj [("message", VStr "Subscription successful!");
                                     ("subscriptionId",
                                      VStr (Stripe.Subscription.id subscription));
                                     ("vendor", Vendor.toJSON v')]))) /\
              exists before after entry,
                vendors (store w) = before ++ v :: after /\
                vendors (store (world o)) = before ++ v' :: after /\
                ledger (world o) = ledger w ++ [entry] /\
                ActivityLogSchema.eventType entry = "vendor_subscribed"%string /\
                ActivityLogSchema.relatedId entry = Some (VendorSchema._id v)
          end
      end
  end.
Proof.
  intros Hauth Hfind Hd o customer attach update create failed.
  subst failed o create update attach customer.
  enter_route. rewrite (authenticateToken_ok _ _ _ _ _ Hauth).
  unfold vendor_create_subscription. js_unfold. cbn.
  rewrite Vendor_findOne_username. cbn. rewrite Hfind. cbn.
  destruct (on_paymentMethods_attach _ _ _); cbn; [|repeat split; obs; reflexivity].
  destruct (on_customers_update _ _ _); cbn; [|repeat split; obs; reflexivity].
  destruct (on_subscriptions_create _ _ _) as [subscription|e]; cbn;
    [|repeat split; obs; reflexivity].
  match goal with |- context [Vendor.save ?v' ?env ?s] =>
    destruct (Vendor_save_found u v v' env s Hfind Hd eq_refl) as (before & after & Hl & Hb & Hsave)
  end.
  rewrite Hsave. cbn. rewrite create_eq by reflexivity. cbn.
  repeat (split; [try reflexivity; obs; reflexivity|]).
  exists before, after. eexists. unfold ledger. cbn. repeat split; try reflexivity. exact Hl.
Qed.

(** X15: POST /vendor/cancel-subscription cancels the first subscription
    Stripe lists for the vendor of the token and records the status of
    the cancelled subscription on the vendor, with one
    [subscription_canceled] entry.  When Stripe lists none, the answer is
    400 and nothing is cancelled or written. *)
Theorem X15_cancel_needs_a_subscription env tok user w v :
  jwt_verify env tok (JWT_SECRET env) = Ok user ->
  vendorNamed (user_username user) (store w) = Some v ->
  distinctIds (store w) ->
  let o := serve env (mkRequest (Some tok) POST_vendor_cancel_subscription) w in
  let customer := VendorSchema.stripeCustomerId v in
  let list := Stripe.subscriptions_list customer in
  let failed e calls :=
    response o
    = Some (mkResponse 500 [] (Json (message_error "Failed to cancel subscription." e))) /\
    stripeCalls (history (world o)) = stripeCalls (history w) ++ calls /\
    store (world o) = store w in
  match on_subscriptions_list (stripe env) customer with
  | Throw e => failed e [list]
  | Ok [] =>
      response o
      = Some (mkResponse 400 []
                (Json (message_ "No active subscription found for this vendor."))) /\
      stripeCalls (history (world o)) = stripeCalls (history w) ++ [list] /\
      store (world o) = store w
  | Ok (first :: _) =>
      let cancel := Stripe.subscriptions_cancel (Stripe.Subscription.id first) in
      match on_subscriptions_cancel (stripe env) (Stripe.Subscription.id first) with
      | Throw e => failed e [list; cancel]
      | Ok canceled =>
          let v' := withSubscriptionStatus v (Stripe.Subscription.status canceled) in
          stripeCalls (history (world o)) = stripeCalls (history w) ++ [list; cancel] /\
          invoices (store (world o)) = invoices (store w) /\
          response o
          = Some (mkResponse 200 []
                    (Json (VObj [("message", VStr "Subscription canceled successfully.");
                                 ("vendor", Vendor.toJSON v')]))) /\
          exists before after entry,
            vendors (store w) = before ++ v :: after /\
            vendors (store (world o)) = before ++ v' :: after /\
            ledger (world o) = ledger w ++ [entry] /\
            ActivityLogSchema.eventType entry = "subscription_canceled"%string /\
            ActivityLogSchema.relatedId entry = Some (VendorSchema._id v)
      end
  end.
Proof.
  intros Hauth Hfind Hd o customer list failed.
  subst failed o list customer.
  enter_route. rewrite (authenticateToken_ok _ _ _ _ _ Hauth).
  unfold vendor_cancel_subscription. js_unfold. cbn.
  rewrite Vendor_findOne_username. cbn. rewrite Hfind. cbn.
  destruct (on_subscriptions_list _ _) as [[|first rest]|e]; cbn;
    [repeat split; obs; reflexivity| |repeat split; obs; reflexivity].
  destruct (on_subscriptions_cancel _ _) as [canceled|e]; cbn;
    [|repeat split; obs; reflexivity].
  match goal with |- context [Vendor.save ?v' ?env ?s] =>
    destruct (Vendor_save_found (user_username user) v v' env s Hfind Hd eq_refl)
      as (before & after & Hl & Hb & Hsave)
  end.
  rewrite Hsave. cbn. rewrite create_eq by reflexivity. cbn.
  repeat (split; [try reflexivity; obs; reflexivity|]).
  exists before, after. eexists. unfold ledger. cbn. repeat split; try reflexivity. exact Hl.
Qed.

(** ** Webhook events that touch no vendor and no invoice *)

(** X16: a verified webhook event other than a dispute, a subscription
    update or an invoice payment changes no vendor and no invoice and
    makes no call to Stripe.  For [payout.succeeded], [payout.failed] and
    [charge.refunded] it appends one ledger entry about the event's
    object; for every other type it only prints
    [Unhandled event type ...].  The answer is always the 200
    acknowledgement. *)
Theorem X16_other_events_are_only_recorded env tok rawBody sig ev w :
  verification env rawBody sig = Ok ev ->
  let t := Stripe.Event.type ev in
  t <> "charge.dispute.created"%string ->
  t <> "customer.subscription.updated"%string ->
  t <> "invoice.payment_succeeded"%string ->
  let o := serve env (mkRequest tok (POST_stripe_webhook rawBody sig)) w in
  response o = Some acknowledgement /\
  rejection o = None /\
  vendors (store (world o)) = vendors (store w) /\
  invoices (store (world o)) = invoices (store w) /\
  stripeCalls (history (world o)) = stripeCalls (history w) /\
  match auditedAs t with
  | Some entryType =>
      exists entry,
        ledger (world o) = ledger w ++ [entry] /\
        ActivityLogSchema.eventType entry = entryType /\
        ActivityLogSchema.relatedId entry
        = Some (Stripe.Object.id (Stripe.Event.data_object ev))
  | None =>
      world o
      = mkWorld (store w)
          (history w ++ [Console LogLevel ("Unhandled event type " ++ t)%string;
                         Sent acknowledgement])
  end.
Proof.
  intros Hv t H1 H2 H3 o. subst o.
  assert (Haudit : forall h entryType,
             handlerOf t = h ->
             (h = on_payout_succeeded /\ entryType = "payout_succeeded"%string) \/
             (h = on_payout_failed /\ entryType = "payout_failed"%string) \/
             (h = on_charge_refunded /\ entryType = "charge_refunded"%string) ->
             let o := serve env (mkRequest tok (POST_stripe_webhook rawBody sig)) w in
             response o = Some acknowledgement /\
             rejection o = None /\
             vendors (store (world o)) = vendors (store w) /\
             invoices (store (world o)) = invoices (store w) /\
             stripeCalls (history (world o)) = stripeCalls (history w) /\
             exists entry,
               ledger (world o) = ledger w ++ [entry] /\
               ActivityLogSchema.eventType entry = entryType /\
               ActivityLogSchema.relatedId entry
               = Some (Stripe.Object.id (Stripe.Event.data_object ev))).
  { intros h entryType Hh Hcase.
    destruct (audit_only_run h entryType ev env
                (mkSt (store w) (history w) (mkRes [] None)) Hcase)
      as (s' & entry & Hrun & Hres & Hvs & His & Hcalls & Hl & Ht & Hr).
    rewrite <- Hh in Hrun.
    rewrite (serve_webhook_verified _ _ _ _ _ _ _ Hv Hrun Hres). cbn.
    repeat (split; [try reflexivity; try assumption|]).
    - obs. rewrite ?app_nil_r. exact Hcalls.
    - exists entry. auto. }
  unfold auditedAs.
  destruct (String.eqb_spec t "payout.succeeded") as [E|N4].
  { apply (Haudit on_payout_succeeded); [rewrite E; reflexivity|auto]. }
  destruct (String.eqb_spec t "payout.failed") as [E|N5].
  { apply (Haudit on_payout_failed); [rewrite E; reflexivity|auto]. }
  destruct (String.eqb_spec t "charge.refunded") as [E|N6].
  { apply (Haudit on_charge_refunded); [rewrite E; reflexivity|auto]. }
  assert (Hrun : handlerOf t ev env (mkSt (store w) (history w) (mkRes [] None))
                 = (Ok tt, mkSt (store w)
                             (history w ++ [Console LogLevel ("Unhandled event type " ++ t)%string])
                             (mkRes [] None))).
  { unfold handlerOf.
    repeat match goal with
           | |- context [String.eqb t ?x] =>
               destruct (String.eqb_spec t x); [congruence|]
           end.
    reflexivity. }
  rewrite (serve_webhook_verified _ _ _ _ _ _ _ Hv Hrun eq_refl). cbn.
  rewrite <- app_assoc. cbn.
  repeat (split; [try reflexivity|]); try reflexivity.
  obs. rewrite ?app_nil_r. reflexivity.
Qed.

(** ** Who may do what *)

(** X17: the two routes that check the role refuse every authenticated
    user who is not an admin: GET /admin/activity-log and
    GET /admin/vendor-details/:username answer 403
    [Access denied. Admins only.] and read or write nothing. *)
Theorem X17_admin_only_routes_refuse_others env tok user r w :
  adminOnly r = true ->
  jwt_verify env tok (JWT_SECRET env) = Ok user ->
  user_role user <> "admin"%string ->
  let denied := mkResponse 403 [] (Json (message_ "Access denied. Admins only.")) in
  serve env (mkRequest (Some tok) r) w
  = mkOutcome (mkWorld (store w) (history w ++ [Sent denied])) (Some denied) None.
Proof.
  intros Hr Hauth Hrole denied. apply String.eqb_neq in Hrole.
  destruct r; try discriminate Hr; enter_route;
    rewrite (authenticateToken_ok _ _ _ _ _ Hauth).
  - unfold admin_activity_log. rewrite Hrole. reflexivity.
  - unfold admin_vendor_details. rewrite Hrole. reflexivity.
Qed.

(** X18: the token is only what the middleware makes of it.  A route
    outside [authenticateToken] is served the same with any cookie or
    none; a route behind it whose handler does not read [req.user] is
    served the same for every token that verifies, whoever it names: the
    vendor, the customer or the invoice acted on comes from the body or
    the path. *)
Theorem X18_caller_identity_is_not_consulted env tok tok' user user' r w :
  readsUser r = false ->
  (behindAuth r = true ->
   authentication env tok = Some (Ok user) /\ authentication env tok' = Some (Ok user')) ->
  serve env (mkRequest tok r) w = serve env (mkRequest tok' r) w.
Proof.
  intros Hr Hauth.
  destruct (behindAuth r) eqn:Hb.
  - destruct (Hauth eq_refl) as [H1 H2]. unfold authentication in H1, H2.
    destruct tok as [t|]; [|discriminate]. destruct tok' as [t'|]; [|discriminate].
    injection H1 as H1. injection H2 as H2.
    destruct r; try discriminate Hr; try discriminate Hb; enter_route;
      rewrite (authenticateToken_ok _ _ _ _ _ H1), (authenticateToken_ok _ _ _ _ _ H2);
      reflexivity.
  - destruct r; try discriminate Hb; reflexivity.
Qed.

(** X19: POST /admin/login sets the [token] cookie only for the
    credentials [admin] / [adminpass]; anything else is answered 401
    without a cookie.  Either way the store is untouched and the
    submitted password is printed on the console in clear. *)
Theorem X19_admin_login_has_fixed_credentials env tok username password w :
  let o := serve env (mkRequest tok (POST_admin_login username password)) w in
  store (world o) = store w /\
  consoleLines LogLevel (history (world o))
  = consoleLines LogLevel (history w)
    ++ [("Admin Login attempt for username: " ++ showOpt username
         ++ ", password: " ++ showOpt password)%string] /\
  if adminCredentials username password then
    match jwt_sign env (mkUser "admin" "admin") (JWT_SECRET env) with
    | Ok token =>
        response o
        = Some (mkResponse 200 [SetCookie "token" token (secureCookies env)]
                  (Json (VObj [("message", VStr "Admin login successful!");
                               ("user", VObj [("username", VStr "admin");
                                              ("role", VStr "admin")])])))
    | Throw e =>
        option_map statusCode (response o) = Some 500%Z /\
        option_map setCookies (response o) = Some []
    end
  else
    response o
    = Some (mkResponse 401 [] (Json (message_ "Invalid admin credentials."))).
Proof.
  intros o. subst o. enter_route. unfold admin_login, adminCredentials.
  destruct username as [u|], password as [p|];
    try (js_unfold; cbn; repeat split; obs; reflexivity).
  cbn [showOpt].
  destruct ((u =? "admin")%string && (p =? "adminpass")%string).
  - unfold jwt_sign_, res_cookie, addCookie, defaultErrorHandler.
    js_unfold. cbn.
    destruct (jwt_sign env _ _); cbn; repeat split; obs; reflexivity.
  - js_unfold. cbn. repeat split; obs; reflexivity.
Qed.

(** ** Vendors are never deleted, renamed or un-approved *)

Section RespectsFrom.
Context (R : Db -> Db -> Prop) {R_preorder : PreOrder R}.

Lemma respectsFrom_weaken {A} (P : Db -> Prop) (m : M A) :
  respects R m -> respectsFrom P R m.
Proof. intros H env s _. apply H. Qed.

(** A step that leaves the store alone passes the precondition on. *)
Lemma respectsFrom_bind_silent {A B} (P : Db -> Prop) (m : M A) (k : A -> M B) :
  respects eq m -> (forall a, respectsFrom P R (k a)) -> respectsFrom P R (bind m k).
Proof.
  intros Hm Hk env s HP. unfold bind. specialize (Hm env s).
  destruct (m env s) as [[a|e] s']; cbn in *.
  - rewrite Hm. apply Hk. rewrite <- Hm. exact HP.
  - rewrite <- Hm. reflexivity.
Qed.

Lemma respectsFrom_bind {A B} (P : Db -> Prop) (m : M A) (k : A -> M B) :
  respectsFrom P R m -> (forall a, respects R (k a)) -> respectsFrom P R (bind m k).
Proof.
  intros Hm Hk env s HP. unfold bind. specialize (Hm env s HP).
  destruct (m env s) as [[a|e] s']; cbn in *; [|exact Hm].
  etransitivity; [exact Hm | apply Hk].
Qed.

(** What follows [Vendor.findOne({ username })] may rely on the vendor
    found being stored. *)
Lemma respects_found {B} u (k : option VendorSchema.t -> M B) :
  (forall v, respectsFrom (fun d => In v (vendors d)) R (k (Some v))) ->
  respects R (k None) ->
  respects R (bind (Vendor.findOne [Vendor.username_is u]) k).
Proof.
  intros Hs Hn env s. unfold bind, Vendor.findOne. js_unfold. cbn.
  destruct (List.find _ (vendors (db s))) as [v|] eqn:E.
  - apply Hs. apply find_some in E. apply E.
  - apply Hn.
Qed.

End RespectsFrom.

Lemma stays_refl v : stays v v.
Proof. split; [reflexivity|]. split; [auto | apply incl_refl]. Qed.

Lemma stays_trans v1 v2 v3 : stays v1 v2 -> stays v2 v3 -> stays v1 v3.
Proof.
  intros (F1 & A1 & C1) (F2 & A2 & C2). split; [congruence|].
  split; [auto | eapply incl_tran; eassumption].
Qed.

Lemma Forall2_stays_refl l : Forall2 stays l l.
Proof. induction l; constructor; auto using stays_refl. Qed.

Lemma Forall2_stays_trans l1 l2 l3 :
  Forall2 stays l1 l2 -> Forall2 stays l2 l3 -> Forall2 stays l1 l3.
Proof.
  intros H. revert l3. induction H; intros l3 H3; inversion H3; subst; constructor.
  - eapply stays_trans; eassumption.
  - auto.
Qed.

Lemma Forall2_stays_frozen l l' :
  Forall2 stays l l' -> map frozenVendor l' = map frozenVendor l.
Proof. induction 1 as [|v v' l l' [F _] _ IH]; cbn; [reflexivity | rewrite F, IH; reflexivity]. Qed.

Lemma Forall2_stays_ids l l' :
  Forall2 stays l l' -> map VendorSchema._id l' = map VendorSchema._id l.
Proof.
  intros H. apply Forall2_stays_frozen in H.
  apply (f_equal (map (fun x : ObjectId * string * string * string * option Date =>
                         fst (fst (fst (fst x)))))) in H.
  rewrite !map_map in H. exact H.
Qed.

Lemma Forall2_stays_usernames l l' :
  Forall2 stays l l' -> map VendorSchema.username l' = map VendorSchema.username l.
Proof.
  intros H. apply Forall2_stays_frozen in H.
  apply (f_equal (map (fun x : ObjectId * string * string * string * option Date =>
                         snd (fst (fst (fst x)))))) in H.
  rewrite !map_map in H. exact H.
Qed.

Lemma keepsVendors_PreOrder : PreOrder keepsVendors.
Proof.
  split.
  - intros d _. apply Forall2_stays_refl.
  - intros d1 d2 d3 H1 H2 N. specialize (H1 N).
    eapply Forall2_stays_trans; [exact H1|]. apply H2.
    unfold distinctIds in *. rewrite (Forall2_stays_ids _ _ H1). exact N.
Qed.

#[local] Existing Instance keepsVendors_PreOrder.

Lemma keepsVendors_same d d' : vendors d' = vendors d -> keepsVendors d d'.
Proof. intros H _. rewrite H. apply Forall2_stays_refl. Qed.

Lemma stays_applyUpdate update v :
  Forall (fun a => a <> Vendor.set_approved false) update ->
  stays v (Vendor.applyUpdate update v).
Proof.
  unfold Vendor.applyUpdate. intros H. revert v.
  induction H as [|a update Ha _ IH]; intros v; cbn; [apply stays_refl|].
  eapply stays_trans; [|apply IH].
  destruct a as [[|]|s]; try congruence; (split; [reflexivity|]);
    (split; [auto | apply incl_refl]).
Qed.

Lemma respects_keepsVendors_findOneAndUpdate f update :
  Forall (fun a => a <> Vendor.set_approved false) update ->
  respects keepsVendors (Vendor.findOneAndUpdate f update).
Proof.
  intros Hu env s. unfold Vendor.findOneAndUpdate. js_unfold. cbn.
  pose proof (updateFirst_Forall2 stays (Vendor.matches env f) (Vendor.applyUpdate update)
                (vendors (db s)) stays_refl (fun x => stays_applyUpdate update x Hu)) as Hf.
  destruct (updateFirst _ _ _) as [[v|] vs]; cbn in *; [|reflexivity].
  intros _. exact Hf.
Qed.

Lemma respects_keepsVendors_approve f :
  respects keepsVendors (Vendor.findOneAndUpdate f [Vendor.set_approved true]).
Proof. apply respects_keepsVendors_findOneAndUpdate. repeat constructor. discriminate. Qed.

Lemma respects_keepsVendors_subscriptionStatus f s :
  respects keepsVendors (Vendor.findOneAndUpdate f [Vendor.set_subscriptionStatus s]).
Proof. apply respects_keepsVendors_findOneAndUpdate. repeat constructor. discriminate. Qed.

Lemma respects_keepsVendors_Invoice_findOneAndUpdate f u :
  respects keepsVendors (Invoice.findOneAndUpdate f u).
Proof.
  intros env s. unfold Invoice.findOneAndUpdate. js_unfold. cbn.
  destruct (updateFirst _ _ _) as [[v|] vs]; cbn; apply keepsVendors_same; reflexivity.
Qed.

Lemma respects_keepsVendors_Invoice_create x c a d u st :
  respects keepsVendors (Invoice.create x c a d u st).
Proof.
  intros env s. unfold Invoice.create, freshObjectId, Date_now_. js_unfold. cbn.
  repeat match goal with
  | |- context [if ?b then _ else _] => destruct b; cbn
  end; apply keepsVendors_same; reflexivity.
Qed.

Lemma respects_keepsVendors_ActivityLog_create t d r :
  respects keepsVendors (ActivityLog.create t d r).
Proof.
  intros env s. unfold ActivityLog.create, freshObjectId, Date_now_. js_unfold. cbn.
  repeat match goal with
  | |- context [if ?b then _ else _] => destruct b; cbn
  end; apply keepsVendors_same; reflexivity.
Qed.

#[local] Hint Resolve respects_keepsVendors_approve respects_keepsVendors_subscriptionStatus
  respects_keepsVendors_Invoice_findOneAndUpdate respects_keepsVendors_Invoice_create
  respects_keepsVendors_ActivityLog_create : rs.

Lemma NoDup_map_eq {A B} (g : A -> B) (l : list A) x y :
  NoDup (map g l) -> In x l -> In y l -> g x = g y -> x = y.
Proof.
  induction l as [|z l IH]; cbn; [tauto|].
  intros N Hx Hy E. inversion N as [|? ? Hz N']; subst.
  destruct Hx as [->|Hx], Hy as [->|Hy]; auto.
  - exfalso. apply Hz. rewrite E. apply in_map. exact Hy.
  - exfalso. apply Hz. rewrite <- E. apply in_map. exact Hx.
Qed.

Lemma updateFirst_Forall2_In {A} (S : A -> A -> Prop) (p : A -> bool) (f : A -> A) (l : list A) :
  (forall x, S x x) -> (forall x, In x l -> p x = true -> S x (f x)) ->
  Forall2 S l (snd (updateFirst p f l)).
Proof.
  intros Hr. induction l as [|x l IH]; intros Hf; cbn; [constructor|].
  destruct (p x) eqn:E; cbn.
  - constructor; [apply Hf; [left; reflexivity | exact E]|].
    clear IH Hf E. induction l; constructor; auto.
  - specialize (IH (fun y Hy => Hf y (or_intror Hy))).
    destruct (updateFirst p f l) as [o l']. cbn in *. constructor; auto.
Qed.

(** Saving a changed copy of a stored vendor. *)
Lemma respectsFrom_keepsVendors_save v v' :
  stays v v' ->
  respectsFrom (fun d => In v (vendors d)) keepsVendors (Vendor.save v').
Proof.
  intros Hs env s Hin N. unfold Vendor.save. js_unfold. cbn.
  assert (Hid : VendorSchema._id v' = VendorSchema._id v).
  { destruct Hs as [F _]. unfold frozenVendor in F. congruence. }
  pose proof (updateFirst_Forall2_In stays
                (fun w => String.eqb (VendorSchema._id w) (VendorSchema._id v'))
                (fun _ => v') (vendors (db s)) stays_refl) as Hf.
  destruct (updateFirst _ _ _) as [[x|] vs]; cbn in *; [|apply Forall2_stays_refl].
  apply Hf. intros x0 Hx0 E. apply String.eqb_eq in E. rewrite Hid in E.
  rewrite (NoDup_map_eq VendorSchema._id _ x0 v N Hx0 Hin E). exact Hs.
Qed.

Lemma stays_withCustomers v c :
  stays v (withCustomers v (VendorSchema.customers v ++ [c])).
Proof. split; [reflexivity|]. split; [auto | apply incl_appl, incl_refl]. Qed.

Lemma stays_subscriptionStatus v s : stays v (Vendor.assign (Vendor.set_subscriptionStatus s) v).
Proof. split; [reflexivity|]. split; [auto | apply incl_refl]. Qed.

Lemma stays_withStripeConnectAccountId v a : stays v (withStripeConnectAccountId v a).
Proof. split; [reflexivity|]. split; [auto | apply incl_refl]. Qed.

(** The handlers that save a vendor they have just read. *)
Ltac rs_saved Hstays :=
  apply respects_try_catch; [typeclasses eauto | | intros ?; rs];
  apply respects_found; [intros v | rs];
  repeat first
    [ apply respectsFrom_bind; [typeclasses eauto | apply respectsFrom_keepsVendors_save, Hstays
                                | intros ?; rs]
    | apply respectsFrom_bind_silent; [typeclasses eauto | solve [rs] | intros ?]
    | match goal with
      | |- respectsFrom _ _ (match ?x with _ => _ end) => destruct x
      | |- respectsFrom _ _ (let _ := _ in _) => cbv zeta
      end
    | apply respectsFrom_weaken; solve [rs] ].

Lemma respects_keepsVendors_handlerOf t ev : respects keepsVendors (handlerOf t ev).
Proof.
  unfold handlerOf.
  repeat match goal with
  | |- context [String.eqb t ?a] => destruct (String.eqb t a)
  end.
  - unfold on_charge_dispute_created. rs.
  - unfold on_customer_subscription_updated. rs.
  - unfold on_invoice_payment_succeeded. rs.
  - unfold on_payout_succeeded. rs.
  - unfold on_payout_failed. rs.
  - unfold on_charge_refunded. rs.
  - unfold on_unhandled. rs.
Qed.

Lemma respects_keepsVendors_stripe_webhook rawBody sig :
  respects keepsVendors (stripe_webhook rawBody sig).
Proof.
  unfold stripe_webhook. rs.
  intros env s. rewrite runSwitch_webhookSwitch. apply respects_keepsVendors_handlerOf.
Qed.

Lemma respects_keepsVendors_app req :
  (forall u p, route req <> POST_register u p) -> respects keepsVendors (app req).
Proof.
  unfold app. destruct (route req); intros Hr; cbv zeta;
    try (apply respects_authenticateToken; [typeclasses eauto|]; intros user).
  - unfold root. rs.
  - exfalso. eapply Hr. reflexivity.
  - unfold login. rs.
  - unfold admin_login, defaultErrorHandler. rs.
  - unfold admin_vendors_pending. rs.
  - unfold admin_vendors_approve. rs.
  - unfold create_customer. rs.
  - unfold create_setup_intent. rs.
  - unfold vendor_add_customer. rs_saved stays_withCustomers.
  - unfold vendor_customers. rs.
  - unfold create_payment_intent. rs.
  - unfold create_invoice. rs.
  - unfold vendor_create_subscription. rs_saved stays_subscriptionStatus.
  - unfold vendor_request_payout. rs.
  - apply respects_keepsVendors_stripe_webhook.
  - unfold admin_vendors_all. rs.
  - unfold admin_analytics. rs.
  - unfold vendor_invoices. rs.
  - unfold admin_activity_log. rs.
  - unfold vendor_create_stripe_connect_account. rs_saved stays_withStripeConnectAccountId.
  - unfold customer_invoices. rs.
  - unfold vendor_get_current_user. rs.
  - unfold vendor_create_subscription_setup_intent. rs.
  - unfold admin_vendor_details. rs.
  - unfold check_auth. rs.
  - unfold logout. rs.
  - unfold customer_generate_invite_link. rs.
  - unfold vendor_payout_history. rs.
  - unfold vendor_cancel_subscription. cbv zeta. rs_saved stays_subscriptionStatus.
Qed.

Lemma addsVendors_PreOrder : PreOrder addsVendors.
Proof.
  split.
  - intros d. split; [|auto]. exists []. symmetry. apply app_nil_r.
  - intros d1 d2 d3 [(n1 & E1) N1] [(n2 & E2) N2]. split; [|auto].
    exists (n1 ++ n2). rewrite E2, E1. symmetry. apply app_assoc.
Qed.

#[local] Existing Instance addsVendors_PreOrder.

Lemma addsVendors_same d d' : vendors d' = vendors d -> addsVendors d d'.
Proof.
  intros H. unfold addsVendors. rewrite H. split; [|auto].
  exists []. symmetry. apply app_nil_r.
Qed.

Lemma existsb_username_In u (l : list VendorSchema.t) :
  existsb (fun w => String.eqb (VendorSchema.username w) u) l = false ->
  ~ In u (map VendorSchema.username l).
Proof.
  induction l as [|j l IH]; cbn; [tauto|].
  destruct (String.eqb_spec (VendorSchema.username j) u); cbn; [discriminate|].
  intros H [E|E]; [congruence | exact (IH H E)].
Qed.

Lemma respects_addsVendors_insert v : respects addsVendors (Vendor.insert v).
Proof.
  intros env s. unfold Vendor.insert. js_unfold. cbn.
  destruct (negb (nonEmpty (VendorSchema.username v))); cbn; [reflexivity|].
  destruct (negb (nonEmpty (VendorSchema.password v))); cbn; [reflexivity|].
  destruct (negb (nonEmpty (VendorSchema.stripeCustomerId v))); cbn; [reflexivity|].
  destruct (existsb _ (vendors (db s))) eqn:E; cbn; [reflexivity|].
  split; cbn.
  - eexists. reflexivity.
  - intros N. rewrite map_app. cbn.
    apply NoDup_app; [exact N | repeat constructor; intros [] |].
    intros y Hy [<-|[]]. exact (existsb_username_In _ _ E Hy).
Qed.

Lemma respects_addsVendors_ActivityLog_create t d r :
  respects addsVendors (ActivityLog.create t d r).
Proof.
  intros env s. unfold ActivityLog.create, freshObjectId, Date_now_. js_unfold. cbn.
  repeat match goal with
  | |- context [if ?b then _ else _] => destruct b; cbn
  end; apply addsVendors_same; reflexivity.
Qed.

#[local] Hint Resolve respects_addsVendors_insert respects_addsVendors_ActivityLog_create : rs.

Lemma respects_addsVendors_register u p : respects addsVendors (register u p).
Proof. unfold register. rs. Qed.

(** X20: no request deletes a vendor, renames one, changes a password, a
    Stripe customer id, an [_id] or the end of a trial, withdraws an
    approval or removes a customer from a vendor.  Among vendors with
    distinct [_id]s, the stored vendors after any request are the old
    ones, in place, followed by the newly registered one if any; and
    usernames that were distinct stay distinct. *)
Theorem X20_vendors_are_kept env req w :
  distinctIds (store w) ->
  let after := vendors (store (world (serve env req w))) in
  exists kept new,
    after = kept ++ new /\
    Forall2 (fun old now =>
               frozenVendor now = frozenVendor old /\
               (VendorSchema.approved old = true -> VendorSchema.approved now = true) /\
               incl (VendorSchema.customers old) (VendorSchema.customers now))
      (vendors (store w)) kept /\
    (NoDup (map VendorSchema.username (vendors (store w))) ->
     NoDup (map VendorSchema.username after)).
Proof.
  intros Hd. unfold serve.
  destruct (route req) as [| u p | | | | | | | | | | | | | | | | | | | | | | | | | | |] eqn:Hr.
  2: {
    pose proof (respects_addsVendors_register u p env
                  (mkSt (store w) (history w) (mkRes [] None))) as H.
    unfold app. rewrite Hr. cbv zeta.
    destruct (register u p env _) as [r s]. cbn in *.
    destruct H as [(new & E) N].
    exists (vendors (store w)), new. split; [exact E|].
    split; [apply Forall2_stays_refl | exact N]. }
  all: assert (Hnr : forall u p, route req <> POST_register u p) by (intros; congruence).
  all: pose proof (respects_keepsVendors_app req Hnr env
                     (mkSt (store w) (history w) (mkRes [] None)) Hd) as H.
  all: destruct (app req env _) as [r s]; cbn in *.
  all: exists (vendors (db s)), []; split; [symmetry; apply app_nil_r|].
  all: split; [exact H|].
  all: intros N; rewrite (Forall2_stays_usernames _ _ H); exact N.
Qed.

(** ** The callbacks of [Promise.all] *)

Lemma advance_None {A} n (chains : list (list A)) :
  advance n chains = None -> concat chains = [].
Proof.
  revert n. induction chains as [|c chains IH]; intros n; cbn; [reflexivity|].
  destruct c as [|a c].
  - destruct (advance n chains) as [[b r]|] eqn:E; [discriminate|].
    intros _. exact (IH n E).
  - destruct n; [discriminate|].
    destruct (advance n chains) as [[b r]|]; discriminate.
Qed.

(** A step taken from the chains is one of their steps, and the others
    are left. *)
Lemma advance_Some {A} n (chains : list (list A)) a chains' :
  advance n chains = Some (a, chains') ->
  Permutation (concat chains) (a :: concat chains').
Proof.
  revert n a chains'. induction chains as [|c chains IH]; intros n a chains'; cbn;
    [discriminate|].
  destruct c as [|a0 c].
  - destruct (advance n chains) as [[b r]|] eqn:E; [|discriminate].
    intros [= <- <-]. cbn. exact (IH n b r E).
  - destruct n as [|n].
    + intros [= <- <-]. reflexivity.
    + destruct (advance n chains) as [[b r]|] eqn:E.
      * intros [= <- <-]. cbn. specialize (IH n b r E).
        rewrite IH. rewrite <- Permutation_middle. apply perm_swap.
      * intros [= <- <-]. reflexivity.
Qed.

Lemma interleaveFrom_perm {A} (choose : nat -> nat) fuel :
  forall step (chains : list (list A)),
    length (concat chains) = fuel ->
    Permutation (interleaveFrom choose step fuel chains) (concat chains).
Proof.
  induction fuel as [|fuel IH]; intros step chains Hl; cbn.
  - apply length_zero_iff_nil in Hl. rewrite Hl. constructor.
  - destruct (advance (choose step) chains) as [[a chains']|] eqn:E.
    + pose proof (advance_Some _ _ _ _ E) as P. rewrite P. constructor.
      apply IH. apply Permutation_length in P. cbn in P. congruence.
    + apply advance_None in E. rewrite E in Hl. discriminate.
Qed.

(** Whatever the event loop chooses, the callbacks take exactly their
    steps. *)
Lemma interleave_perm {A} (choose : nat -> nat) (chains : list (list A)) :
  Permutation (interleave choose chains) (concat chains).
Proof. apply interleaveFrom_perm. reflexivity. Qed.

(** The steps of the callbacks of GET /vendor/customers are requests for
    invoices and lines on the console. *)
Lemma Forall_continuations (P : Effect -> Prop) env choose cs :
  (forall c, P (StripeCall (Stripe.invoices_list c))) ->
  (forall level msg, P (Console level msg)) ->
  Forall P (interleave choose (map (continuation env) cs)).
Proof.
  intros Hcall Hlog.
  apply (Permutation_Forall (Permutation_sym (interleave_perm choose _))).
  apply Forall_concat. apply Forall_map. apply Forall_forall. intros c _.
  unfold continuation, fetchFailed.
  destruct (on_customers_retrieve _ _); [|repeat constructor; apply Hlog].
  constructor; [apply Hcall|].
  destruct (on_invoices_list _ _); repeat constructor. apply Hlog.
Qed.

Lemma Forall_retrieves (P : Effect -> Prop) (cs : list string) :
  (forall c, P (StripeCall (Stripe.customers_retrieve c))) ->
  Forall P (map (fun c => StripeCall (Stripe.customers_retrieve c)) cs).
Proof. intros H. apply Forall_map. apply Forall_forall. intros c _. apply H. Qed.

(** ** Every request is answered, once *)

Lemma answers_PreOrder : PreOrder answers.
Proof.
  split.
  - intros s. unfold answers. destruct (sent (res s)); [auto|]. symmetry. apply app_nil_r.
  - intros s1 s2 s3. unfold answers.
    destruct (sent (res s1)) as [r1|].
    + intros [-> E1] [-> E2]. split; congruence.
    + destruct (sent (res s2)) as [r2|].
      * intros E1 [-> E2]. congruence.
      * intros E1 E2. rewrite E2, E1, app_nil_r. reflexivity.
Qed.

#[local] Existing Instance answers_PreOrder.

Section Follows.
Context (R : St -> St -> Prop) {R_preorder : PreOrder R}.

Lemma follows_same {A} (m : M A) : (forall env s, snd (m env s) = s) -> follows R m.
Proof. intros H env s. rewrite H. reflexivity. Qed.

Lemma follows_ret {A} (a : A) : follows R (ret a).
Proof. apply follows_same. reflexivity. Qed.

Lemma follows_throw {A} e : follows R (@throw A e).
Proof. apply follows_same. reflexivity. Qed.

Lemma follows_ask : follows R ask.
Proof. apply follows_same. reflexivity. Qed.

Lemma follows_getDb : follows R getDb.
Proof. apply follows_same. reflexivity. Qed.

Lemma follows_moment : follows R moment.
Proof. apply follows_same. reflexivity. Qed.

Lemma follows_liftResult {A} (r : result A) : follows R (liftResult r).
Proof. destruct r; [apply follows_ret | apply follows_throw]. Qed.

Lemma follows_bind {A B} (m : M A) (k : A -> M B) :
  follows R m -> (forall a, follows R (k a)) -> follows R (bind m k).
Proof.
  intros Hm Hk env s. unfold bind. specialize (Hm env s).
  destruct (m env s) as [[a|e] s']; cbn in *; [|exact Hm].
  etransitivity; [exact Hm | apply Hk].
Qed.

Lemma follows_try_catch {A} (m : M A) (h : JsError -> M A) :
  follows R m -> (forall e, follows R (h e)) -> follows R (try_catch m h).
Proof.
  intros Hm Hh env s. unfold try_catch. specialize (Hm env s).
  destruct (m env s) as [[a|e] s']; cbn in *; [exact Hm|].
  etransitivity; [exact Hm | apply Hh].
Qed.

Lemma follows_sequence (ms : list (M unit)) :
  Forall (follows R) ms -> follows R (sequence ms).
Proof.
  induction 1 as [|m ms Hm _ IH]; cbn [sequence]; [apply follows_ret|].
  apply follows_bind; [exact Hm | intros _; exact IH].
Qed.

End Follows.

Lemma follows_answers_putDb d : follows answers (putDb d).
Proof.
  intros env s. unfold answers, putDb. cbn.
  destruct (sent (res s)); [auto|]. symmetry. apply app_nil_r.
Qed.

Lemma follows_answers_perform e :
  match e with Sent _ => False | _ => True end -> follows answers (perform e).
Proof.
  intros He env s. unfold answers, perform, responses. cbn. rewrite flat_map_app. cbn.
  destruct e; try contradiction; cbn; rewrite app_nil_r;
    (destruct (sent (res s)); [auto|]); symmetry; apply app_nil_r.
Qed.

Lemma follows_answers_send code b : follows answers (send code b).
Proof.
  intros env s. unfold answers, send, responses.
  destruct (sent (res s)) as [r|] eqn:E; cbn; rewrite ?E; [auto|].
  rewrite flat_map_app. reflexivity.
Qed.

Lemma follows_answers_addCookie c : follows answers (addCookie c).
Proof.
  intros env s. unfold answers, addCookie.
  destruct (sent (res s)) as [r|] eqn:E; cbn; rewrite ?E; [auto|].
  symmetry. apply app_nil_r.
Qed.

Lemma follows_answers_performAll es :
  Forall (fun e => match e with Sent _ => False | _ => True end) es ->
  follows answers (performAll es).
Proof.
  induction 1 as [|e es He _ IH]; cbn [performAll]; [apply follows_ret; typeclasses eauto|].
  apply follows_bind; [typeclasses eauto | apply follows_answers_perform; exact He |].
  intros _. exact IH.
Qed.

Lemma follows_answers_retrieves cs :
  follows answers (performAll (map (fun c => StripeCall (Stripe.customers_retrieve c)) cs)).
Proof. apply follows_answers_performAll, Forall_retrieves. intros c. exact I. Qed.

Lemma follows_answers_continuations env choose cs :
  follows answers (performAll (interleave choose (map (continuation env) cs))).
Proof.
  apply follows_answers_performAll, Forall_continuations; intros; exact I.
Qed.

Create HintDb fs discriminated.

#[local] Hint Resolve follows_ret follows_throw follows_ask follows_getDb follows_moment
  follows_liftResult follows_answers_putDb follows_answers_send follows_answers_addCookie
  follows_answers_retrieves follows_answers_continuations : fs.
#[local] Hint Extern 0 (PreOrder _) => typeclasses eauto : fs.
#[local] Hint Extern 1 (follows answers (perform _)) =>
  apply follows_answers_perform; exact I : fs.

(** Decomposes a goal [follows R m] along the structure of [m]. *)
Ltac fs_step :=
  first
    [ solve [auto with fs]
    | apply follows_bind; [typeclasses eauto | | intros ?]
    | apply follows_try_catch; [typeclasses eauto | | intros ?]
    | match goal with
      | |- follows _ (match ?x with _ => _ end) => destruct x
      | |- follows _ (let _ := _ in _) => cbv zeta
      end ].

Ltac fs := repeat fs_step.

Ltac fs_by_unfolding :=
  unfold defaultErrorHandler, Vendor.findOne, Vendor.find, Vendor.countDocuments,
    Vendor.findOneAndUpdate, Vendor.insert, Vendor.save, Invoice.find,
    Invoice.findOneAndUpdate, Invoice.create, ActivityLog.create, ActivityLog.find_sort;
  unfold stripeCall, console_error_with, console_log_with, res_status_json, res_json,
    res_status_send, res_send, res_sendStatus, res_cookie, res_clearCookie, Date_now_,
    freshObjectId, jwt_sign_;
  unfold console_log, console_error;
  fs.

Lemma follows_answers_authenticateToken tok next :
  (forall user, follows answers (next user)) -> follows answers (authenticateToken tok next).
Proof.
  intros H. unfold authenticateToken. destruct tok; [|fs_by_unfolding].
  apply follows_bind; [typeclasses eauto | apply follows_ask; typeclasses eauto |].
  intros env. destruct (jwt_verify _ _ _); [apply H | fs_by_unfolding].
Qed.

Lemma follows_answers_handlerOf t ev : follows answers (handlerOf t ev).
Proof.
  unfold handlerOf.
  repeat match goal with
  | |- context [String.eqb t ?a] => destruct (String.eqb t a)
  end.
  - unfold on_charge_dispute_created. fs_by_unfolding.
  - unfold on_customer_subscription_updated. fs_by_unfolding.
  - unfold on_invoice_payment_succeeded. fs_by_unfolding.
  - unfold on_payout_succeeded. fs_by_unfolding.
  - unfold on_payout_failed. fs_by_unfolding.
  - unfold on_charge_refunded. fs_by_unfolding.
  - unfold on_unhandled. fs_by_unfolding.
Qed.

Lemma follows_answers_stripe_webhook rawBody sig :
  follows answers (stripe_webhook rawBody sig).
Proof.
  unfold stripe_webhook. fs_by_unfolding.
  intros env s. rewrite runSwitch_webhookSwitch. apply follows_answers_handlerOf.
Qed.

Lemma follows_answers_app req : follows answers (app req).
Proof.
  unfold app. destruct (route req); cbv zeta;
    try (apply follows_answers_authenticateToken; intros user).
  - unfold root. fs_by_unfolding.
  - unfold register. fs_by_unfolding.
  - unfold login. fs_by_unfolding.
  - unfold admin_login. fs_by_unfolding.
  - unfold admin_vendors_pending. fs_by_unfolding.
  - unfold admin_vendors_approve. fs_by_unfolding.
  - unfold create_customer. fs_by_unfolding.
  - unfold create_setup_intent. fs_by_unfolding.
  - unfold vendor_add_customer. fs_by_unfolding.
  - unfold vendor_customers. fs_by_unfolding.
  - unfold create_payment_intent. fs_by_unfolding.
  - unfold create_invoice. fs_by_unfolding.
  - unfold vendor_create_subscription. fs_by_unfolding.
  - unfold vendor_request_payout. fs_by_unfolding.
  - apply follows_answers_stripe_webhook.
  - unfold admin_vendors_all. fs_by_unfolding.
  - unfold admin_analytics. fs_by_unfolding.
  - unfold vendor_invoices. fs_by_unfolding.
  - unfold admin_activity_log. fs_by_unfolding.
  - unfold vendor_create_stripe_connect_account. fs_by_unfolding.
  - unfold customer_invoices. fs_by_unfolding.
  - unfold vendor_get_current_user. fs_by_unfolding.
  - unfold vendor_create_subscription_setup_intent. fs_by_unfolding.
  - unfold admin_vendor_details. fs_by_unfolding.
  - unfold check_auth. fs_by_unfolding.
  - unfold logout. fs_by_unfolding.
  - unfold customer_generate_invite_link. fs_by_unfolding.
  - unfold vendor_payout_history. fs_by_unfolding.
  - unfold vendor_cancel_subscription. fs_by_unfolding.
Qed.

Lemma answered_send code b : answered (send code b).
Proof. intros env s. unfold send. destruct (sent (res s)) eqn:E; cbn; congruence. Qed.

Lemma answeredOnReturn_of {A} (m : M A) : answered m -> answeredOnReturn m.
Proof. intros H env s. specialize (H env s). destruct (m env s) as [[a|e] s']; auto. Qed.

Lemma answeredOnReturn_bind {A B} (m : M A) (k : A -> M B) :
  (forall a, answeredOnReturn (k a)) -> answeredOnReturn (bind m k).
Proof.
  intros Hk env s. unfold bind. destruct (m env s) as [[a|e] s']; [apply Hk | exact I].
Qed.

(** Once the response is out, what follows cannot take it back. *)
Lemma answeredOnReturn_after {A B} (m : M A) (k : A -> M B) :
  answeredOnReturn m -> (forall a, follows answers (k a)) -> answeredOnReturn (bind m k).
Proof.
  intros Hm Hk env s. unfold bind. specialize (Hm env s).
  destruct (m env s) as [[a|e] s']; [|exact I].
  specialize (Hk a env s'). unfold answers in Hk.
  destruct (k a env s') as [[b|e] s'']; [|exact I]. cbn in Hk.
  destruct (sent (res s')); [|contradiction]. destruct Hk as [-> _]. discriminate.
Qed.

Lemma answeredOnReturn_try_catch {A} (m : M A) (h : JsError -> M A) :
  answeredOnReturn m -> (forall e, answeredOnReturn (h e)) -> answeredOnReturn (try_catch m h).
Proof.
  intros Hm Hh env s. unfold try_catch. specialize (Hm env s).
  destruct (m env s) as [[a|e] s']; [exact Hm | apply Hh].
Qed.

Lemma answered_try_catch {A} (m : M A) (h : JsError -> M A) :
  answeredOnReturn m -> (forall e, answered (h e)) -> answered (try_catch m h).
Proof.
  intros Hm Hh env s. unfold try_catch. specialize (Hm env s).
  destruct (m env s) as [[a|e] s']; [exact Hm | apply Hh].
Qed.

Lemma answered_bind {A B} (m : M A) (k : A -> M B) :
  returns m -> (forall a, answered (k a)) -> answered (bind m k).
Proof.
  intros Hm Hk env s. unfold bind. destruct (Hm env s) as (a & s' & ->). apply Hk.
Qed.

Lemma returns_perform e : returns (perform e).
Proof. intros env s. eexists. eexists. reflexivity. Qed.

Lemma returns_ask : returns ask.
Proof. intros env s. eexists. eexists. reflexivity. Qed.

Lemma returns_handlerOf ev : returns (handlerOf (Stripe.Event.type ev) ev).
Proof.
  intros env s. destruct (handler_summary ev env s) as (s' & entries & H & _).
  exists tt, s'. exact H.
Qed.

Lemma answered_stripe_webhook rawBody sig : answered (stripe_webhook rawBody sig).
Proof.
  intros env s. destruct (verification env rawBody sig) as [ev|err] eqn:Hv.
  - rewrite (stripe_webhook_verified _ _ _ _ _ Hv).
    apply answered_bind; [apply returns_handlerOf | intros _; apply answered_send].
  - unfold verification in Hv. unfold stripe_webhook. js_unfold. cbn. rewrite Hv. cbn.
    destruct (sent (res s)) eqn:E; cbn; congruence.
Qed.

Lemma answered_authenticateToken tok next :
  (forall user, answered (next user)) -> answered (authenticateToken tok next).
Proof.
  intros H. unfold authenticateToken. destruct tok; [|apply answered_send].
  apply answered_bind; [apply returns_ask|]. intros env.
  destruct (jwt_verify _ _ _); [apply H|].
  apply answered_bind; [apply returns_perform | intros _; apply answered_send].
Qed.

Lemma answered_logout : answered logout.
Proof.
  intros env s. unfold logout, res_clearCookie, addCookie. js_unfold. cbn.
  destruct (sent (res s)) eqn:E; cbn; congruence.
Qed.

(** Decomposes a goal [answered m] or [answeredOnReturn m] along the
    structure of [m]; a [send] in the middle of a body settles the
    matter, whatever follows it. *)
Ltac ans_step :=
  match goal with
  | |- answered (send _ _) => apply answered_send
  | |- answered (try_catch _ _) => apply answered_try_catch; [|intros ?]
  | |- answered (bind (perform _) _) => apply answered_bind; [apply returns_perform | intros ?]
  | |- answered (bind ask _) => apply answered_bind; [apply returns_ask | intros ?]
  | |- answered (match ?x with _ => _ end) => destruct x
  | |- answered (let _ := _ in _) => cbv zeta
  | |- answeredOnReturn (send _ _) => apply answeredOnReturn_of, answered_send
  | |- answeredOnReturn (bind (send _ _) _) =>
      apply answeredOnReturn_after;
      [apply answeredOnReturn_of, answered_send | intros ?; fs_by_unfolding]
  | |- answeredOnReturn (bind _ _) => apply answeredOnReturn_bind; intros ?
  | |- answeredOnReturn (try_catch _ _) => apply answeredOnReturn_try_catch; [|intros ?]
  | |- answeredOnReturn (match ?x with _ => _ end) => destruct x
  | |- answeredOnReturn (let _ := _ in _) => cbv zeta
  end.

Ltac ans :=
  unfold defaultErrorHandler;
  unfold console_error_with, console_log_with, res_status_json, res_json, res_status_send,
    res_send, res_sendStatus;
  unfold console_log, console_error;
  repeat ans_step.

Lemma answered_app req : answered (app req).
Proof.
  unfold app. destruct (route req); cbv zeta;
    try (apply answered_authenticateToken; intros user).
  - unfold root. ans.
  - unfold register. ans.
  - unfold login. ans.
  - unfold admin_login. ans.
  - unfold admin_vendors_pending. ans.
  - unfold admin_vendors_approve. ans.
  - unfold create_customer. ans.
  - unfold create_setup_intent. ans.
  - unfold vendor_add_customer. ans.
  - unfold vendor_customers. ans.
  - unfold create_payment_intent. ans.
  - unfold create_invoice. ans.
  - unfold vendor_create_subscription. ans.
  - unfold vendor_request_payout. ans.
  - apply answered_stripe_webhook.
  - unfold admin_vendors_all. ans.
  - unfold admin_analytics. ans.
  - unfold vendor_invoices. ans.
  - unfold admin_activity_log. ans.
  - unfold vendor_create_stripe_connect_account. ans.
  - unfold customer_invoices. ans.
  - unfold vendor_get_current_user. ans.
  - unfold vendor_create_subscription_setup_intent. ans.
  - unfold admin_vendor_details. ans.
  - unfold check_auth. ans.
  - apply answered_logout.
  - unfold customer_generate_invite_link. ans.
  - unfold vendor_payout_history. ans.
  - unfold vendor_cancel_subscription. ans.
Qed.

(** X21: every request is answered, and answered once: whatever the
    route, the token, the store and Stripe's answers, serving a request
    sends exactly one response, also when the handler fails after
    sending it. *)
Theorem X21_every_request_is_answered_once env req w :
  let o := serve env req w in
  exists r,
    response o = Some r /\
    responses (history (world o)) = responses (history w) ++ [r].
Proof.
  unfold serve.
  pose proof (follows_answers_app req env (mkSt (store w) (history w) (mkRes [] None))) as F.
  pose proof (answered_app req env (mkSt (store w) (history w) (mkRes [] None))) as A.
  destruct (app req env _) as [x s]. unfold answers in F. cbn in *.
  destruct (sent (res s)) as [r|]; [|contradiction].
  exists r. split; [reflexivity | exact F].
Qed.

(** ** Listings *)

Lemma stripeCalls_app h1 h2 : stripeCalls (h1 ++ h2) = stripeCalls h1 ++ stripeCalls h2.
Proof. apply flat_map_app. Qed.

Lemma dbWrites_app h1 h2 : dbWrites (h1 ++ h2) = dbWrites h1 ++ dbWrites h2.
Proof. apply flat_map_app. Qed.

Lemma performAll_run es env s :
  performAll es env s = (Ok tt, mkSt (db s) (effects s ++ es) (res s)).
Proof.
  revert s. induction es as [|e es IH]; intros s; cbn [performAll].
  - unfold ret. rewrite app_nil_r. destruct s; reflexivity.
  - unfold bind, perform. rewrite IH. cbn. rewrite <- app_assoc. reflexivity.
Qed.

Lemma stripeCalls_retrieves (cs : list string) :
  stripeCalls (map (fun c => StripeCall (Stripe.customers_retrieve c)) cs)
  = map Stripe.customers_retrieve cs.
Proof. induction cs as [|c cs IH]; cbn; [reflexivity|]. f_equal. exact IH. Qed.

(** The requests for invoices the callbacks make: one for each customer
    Stripe returned. *)
Lemma stripeCalls_continuations env (cs : list string) :
  stripeCalls (concat (map (continuation env) cs))
  = map Stripe.invoices_list
      (List.filter (fun c => match on_customers_retrieve (stripe env) c with
                             | Ok _ => true
                             | Throw _ => false
                             end) cs).
Proof.
  induction cs as [|c cs IH]; cbn [map concat List.filter]; [reflexivity|].
  rewrite stripeCalls_app, IH. unfold continuation, fetchFailed.
  destruct (on_customers_retrieve (stripe env) c); [|reflexivity].
  destruct (on_invoices_list (stripe env) c); reflexivity.
Qed.

Lemma Forall2_map_r {A B} (R : A -> B -> Prop) (f : A -> B) (l : list A) :
  (forall x, R x (f x)) -> Forall2 R l (map f l).
Proof. intros H. induction l; cbn; constructor; auto. Qed.

(** X22: GET /vendor/customers/:username answers 200 with one object per
    customer of the vendor, in the vendor's order, also when Stripe
    fails: a customer Stripe cannot be asked about appears as a
    placeholder with the address [error@example.com].  Stripe is asked
    about every customer first, in the vendor's order, and then for the
    invoices of exactly the customers it returned, in whatever order its
    answers arrive. *)
Theorem X22_customer_list_survives_stripe_failures env tok user u w v :
  jwt_verify env tok (JWT_SECRET env) = Ok user ->
  vendorNamed u (store w) = Some v ->
  let o := serve env (mkRequest (Some tok) (GET_vendor_customers u)) w in
  let customers := VendorSchema.customers v in
  let returned c :=
    match on_customers_retrieve (stripe env) c with Ok _ => true | Throw _ => false end in
  exists enriched lists,
    response o = Some (mkResponse 200 [] (Json (VArr enriched))) /\
    rejection o = None /\
    Forall2 (fun c e =>
               match on_customers_retrieve (stripe env) c, on_invoices_list (stripe env) c with
               | Ok customer, Ok lastInvoices =>
                   e = VObj [("id", VStr (Stripe.Customer.id customer));
                             ("name", VOptStr (Stripe.Customer.name customer));
                             ("email", VOptStr (Stripe.Customer.email customer));
                             ("phone", VOptStr (Stripe.Customer.phone customer));
                             ("lastInvoice", lastInvoiceJSON env (hd_error lastInvoices))]
               | _, _ =>
                   e = VObj [("id", VStr c);
                             ("name", VStr ("Customer " ++ c ++ " (Error)")%string);
                             ("email", VStr "error@example.com");
                             ("lastInvoice", VNull)]
               end) customers enriched /\
    stripeCalls (history (world o))
    = stripeCalls (history w) ++ map Stripe.customers_retrieve customers ++ lists /\
    Permutation lists (map Stripe.invoices_list (List.filter returned customers)).
Proof.
  intros Hauth Hfind o customers returned. subst o.
  enter_route. rewrite (authenticateToken_ok _ _ _ _ _ Hauth).
  unfold vendor_customers. js_unfold. cbn.
  rewrite Vendor_findOne_username. cbn. rewrite Hfind. cbn.
  rewrite !performAll_run. cbn. fold customers.
  exists (map (enrichedCustomer env) customers).
  exists (stripeCalls (interleave (resume env) (map (continuation env) customers))).
  split; [reflexivity|]. split; [reflexivity|]. split; [|split].
  - apply Forall2_map_r. intros c. unfold enrichedCustomer.
    destruct (on_customers_retrieve (stripe env) c); [|reflexivity].
    destruct (on_invoices_list (stripe env) c); reflexivity.
  - rewrite !stripeCalls_app, stripeCalls_retrieves. cbn. rewrite app_nil_r, <- app_assoc.
    reflexivity.
  - subst returned. rewrite <- (stripeCalls_continuations env customers). unfold stripeCalls.
    apply Permutation_flat_map. apply interleave_perm.
Qed.

(** X23: GET /admin/vendors/all lists, in the order of the store and
    without their passwords, exactly the vendors that pass the filters
    of the query string.  An empty [search] or [subscriptionStatus] does
    not filter; [approved], when present, selects the approved vendors
    only if it is the string [true], and the vendors not approved for
    any other value. *)
Theorem X23_vendor_listing_filters env tok user search approved subscriptionStatus w :
  jwt_verify env tok (JWT_SECRET env) = Ok user ->
  let o := serve env (mkRequest (Some tok)
                        (GET_admin_vendors_all search approved subscriptionStatus)) w in
  exists listed,
    response o = Some (mkResponse 200 [] (Json (VArr (map vendorSummary listed)))) /\
    (exists selects, listed = List.filter selects (vendors (store w))) /\
    forall v,
      In v listed <->
      In v (vendors (store w)) /\
      (forall pattern, search = Some pattern -> pattern <> ""%string ->
                       regexMatchI env pattern (VendorSchema.username v) = true) /\
      (forall a, approved = Some a ->
                 VendorSchema.approved v = String.eqb a "true") /\
      (forall s, subscriptionStatus = Some s -> s <> ""%string ->
                 VendorSchema.subscriptionStatus v = s).
Proof.
  intros Hauth o. subst o. enter_route. rewrite (authenticateToken_ok _ _ _ _ _ Hauth).
  unfold admin_vendors_all, Vendor.find. js_unfold. cbn.
  eexists. split; [reflexivity|]. split; [eexists; reflexivity|].
  intros v. rewrite filter_In. unfold Vendor.matches, vendorsQuery.
  rewrite !forallb_app.
  assert (H1 : forallb (fun c => Vendor.holds env c v)
                 (if truthy search then [Vendor.username_regex (showOpt search)] else []) = true
               <-> (forall pattern, search = Some pattern -> pattern <> ""%string ->
                                    regexMatchI env pattern (VendorSchema.username v) = true)).
  { destruct search as [[|c pattern]|]; cbn.
    - split; [|reflexivity]. intros _ p [= <-] N. contradiction N. reflexivity.
    - rewrite andb_true_r. split.
      + intros H p [= <-] _. exact H.
      + intros H. apply (H _ eq_refl). discriminate.
    - split; [|reflexivity]. intros _ p H. discriminate. }
  assert (H2 : forallb (fun c => Vendor.holds env c v)
                 (match approved with
                  | Some a => [Vendor.approved_is (String.eqb a "true")]
                  | None => []
                  end) = true
               <-> (forall a, approved = Some a ->
                              VendorSchema.approved v = String.eqb a "true")).
  { destruct approved as [a|]; cbn; [|split; [intros _ p H; discriminate | reflexivity]].
    rewrite andb_true_r. split.
    - intros H a' [= <-]. apply Bool.eqb_prop. exact H.
    - intros H. rewrite (H a eq_refl). apply Bool.eqb_reflx. }
  assert (H3 : forallb (fun c => Vendor.holds env c v)
                 (if truthy subscriptionStatus
                  then [Vendor.subscriptionStatus_is (showOpt subscriptionStatus)] else [])
               = true
               <-> (forall s, subscriptionStatus = Some s -> s <> ""%string ->
                              VendorSchema.subscriptionStatus v = s)).
  { destruct subscriptionStatus as [[|c st]|]; cbn.
    - split; [|reflexivity]. intros _ p [= <-] N. contradiction N. reflexivity.
    - rewrite andb_true_r, String.eqb_eq. split.
      + intros H p [= <-] _. exact H.
      + intros H. apply (H _ eq_refl). discriminate.
    - split; [|reflexivity]. intros _ p H. discriminate. }
  rewrite !andb_true_iff, H1, H2, H3. tauto.
Qed.

(** ** Connecting a payout account *)

(** X24: POST /vendor/create-stripe-connect-account opens a new Stripe
    account on every call, whether or not the vendor already has one,
    and then asks for its onboarding link.  Only when both calls succeed
    is the account recorded on the vendor, in place of any earlier one;
    when the link fails the account just opened is recorded nowhere.
    No ledger entry is written in any case. *)
Theorem X24_connect_account_recorded_after_link env tok user u w v :
  jwt_verify env tok (JWT_SECRET env) = Ok user ->
  vendorNamed u (store w) = Some v ->
  distinctIds (store w) ->
  let o := serve env (mkRequest (Some tok) (POST_vendor_create_stripe_connect_account u)) w in
  let failed e calls :=
    response o
    = Some (mkResponse 500 []
              (Json (message_error "Failed to create Stripe Connect account link." e))) /\
    stripeCalls (history (world o)) = stripeCalls (history w) ++ calls /\
    store (world o) = store w in
  match on_accounts_create (stripe env) u with
  | Throw e => failed e [Stripe.accounts_create u]
  | Ok accountId =>
      let calls := [Stripe.accounts_create u; Stripe.accountLinks_create accountId] in
      match on_accountLinks_create (stripe env) accountId with
      | Throw e => failed e calls
      | Ok url =>
          let v' := withStripeConnectAccountId v (Some accountId) in
          stripeCalls (history (world o)) = stripeCalls (history w) ++ calls /\
          invoices (store (world o)) = invoices (store w) /\
          ledger (world o) = ledger w /\
          response o
          = Some (mkResponse 200 []
                    (Json (VObj [("url", VStr url); ("vendor", Vendor.toJSON v')]))) /\
          exists before after,
            vendors (store w) = before ++ v :: after /\
            vendors (store (world o)) = before ++ v' :: after
      end
  end.
Proof.
  intros Hauth Hfind Hd o failed. subst failed o.
  enter_route. rewrite (authenticateToken_ok _ _ _ _ _ Hauth).
  unfold vendor_create_stripe_connect_account. js_unfold. cbn.
  rewrite Vendor_findOne_username. cbn. rewrite Hfind. cbn.
  destruct (on_accounts_create _ _) as [accountId|e]; cbn;
    [|repeat split; obs; reflexivity].
  destruct (on_accountLinks_create _ _) as [url|e]; cbn;
    [|repeat split; obs; reflexivity].
  match goal with |- context [Vendor.save ?v' ?env ?s] =>
    destruct (Vendor_save_found u v v' env s Hfind Hd eq_refl)
      as (before & after & Hl & Hb & Hsave)
  end.
  rewrite Hsave. cbn.
  repeat (split; [try reflexivity; obs; reflexivity|]).
  exists before, after. split; [exact Hl | reflexivity].
Qed.

(** ** From an open invoice to a paid one *)

(** X25: invoice creation, the webhook and the customer's listing fit
    together.  An invoice created for a customer without a default
    payment method is stored [open]; a verified
    [invoice.payment_succeeded] event for its Stripe id then rewrites
    exactly that record to [paid]; and GET /customer/invoices/:customerId
    shows it, paid, after the customer's earlier invoices.  Of the two
    ledger entries the first names the Stripe invoice id, the second the
    [_id] of the stored record. *)
Theorem X25_open_invoice_is_settled_by_event
    env1 env2 env3 tok1 tok2 tok3 user1 user3 customerId amount description w
    customer draft rawBody sig ev :
  jwt_verify env1 tok1 (JWT_SECRET env1) = Ok user1 ->
  hasDefaultPaymentMethod customer = false ->
  on_invoiceItems_create (stripe env1) customerId (amount * 100)%float "usd" description
  = Ok tt ->
  on_customers_retrieve (stripe env1) customerId = Ok customer ->
  on_invoices_create (stripe env1) customerId "send_invoice" = Ok draft ->
  nonEmpty (Stripe.Invoice.id draft) = true ->
  nonEmpty customerId = true ->
  PrimFloat.is_nan amount = false ->
  invoiceOfId (Stripe.Invoice.id draft) (store w) = None ->
  verification env2 rawBody sig = Ok ev ->
  Stripe.Event.type ev = "invoice.payment_succeeded"%string ->
  Stripe.Object.id (Stripe.Event.data_object ev) = Stripe.Invoice.id draft ->
  jwt_verify env3 tok3 (JWT_SECRET env3) = Ok user3 ->
  let created :=
    serve env1 (mkRequest (Some tok1) (POST_create_invoice customerId amount description)) w in
  let paid := serve env2 (mkRequest tok2 (POST_stripe_webhook rawBody sig)) (world created) in
  let listed :=
    serve env3 (mkRequest (Some tok3) (GET_customer_invoices customerId)) (world paid) in
  exists record entry1 entry2,
    invoices (store (world created)) = invoices (store w) ++ [record] /\
    InvoiceSchema.id record = Stripe.Invoice.id draft /\
    InvoiceSchema.status record = "open"%string /\
    invoices (store (world paid)) = invoices (store w) ++ [asPaid record] /\
    ledger (world paid) = ledger w ++ [entry1; entry2] /\
    ActivityLogSchema.eventType entry1 = "invoice_created"%string /\
    ActivityLogSchema.relatedId entry1 = Some (Stripe.Invoice.id draft) /\
    ActivityLogSchema.eventType entry2 = "invoice_paid"%string /\
    ActivityLogSchema.relatedId entry2 = Some (InvoiceSchema._id record) /\
    response listed
    = Some (mkResponse 200 []
              (Json (VArr (map Invoice.toJSON
                             (List.filter
                                (fun i => String.eqb (InvoiceSchema.customerId i) customerId)
                                (invoices (store w))
                              ++ [asPaid record]))))).
Proof.
  intros Hauth1 Hno Hitem Hcust Hdraft Hid Hc Ha Hfresh Hv Htype Hobj Hauth3
         created paid listed.
  assert (Hcreated :
            exists record entry1 h,
              world created
              = mkWorld (mkDb (vendors (store w)) (invoices (store w) ++ [record])
                           (activityLogs (store w) ++ [entry1])) h /\
              InvoiceSchema.id record = Stripe.Invoice.id draft /\
              InvoiceSchema.customerId record = customerId /\
              InvoiceSchema.status record = "open"%string /\
              ActivityLogSchema.eventType entry1 = "invoice_created"%string /\
              ActivityLogSchema.relatedId entry1 = Some (Stripe.Invoice.id draft)).
  { subst created. enter_route. rewrite (authenticateToken_ok _ _ _ _ _ Hauth1).
    unfold create_invoice. js_unfold. cbn. rewrite Hitem. cbn. rewrite Hcust. cbn.
    rewrite Hno. cbn. rewrite Hdraft. cbn.
    rewrite Invoice_create_eq by assumption. cbn.
    rewrite create_eq by reflexivity. cbn.
    eexists. eexists. eexists. split; [reflexivity|]. cbn. repeat split; reflexivity. }
  destruct Hcreated as (record & entry1 & h & Hw & Hrid & Hrc & Hrs & He1 & Hr1).
  assert (Hhandler : handlerOf (Stripe.Event.type ev) = on_invoice_payment_succeeded)
    by (rewrite Htype; reflexivity).
  assert (Hfound : invoiceOfId (Stripe.Invoice.id draft) (store (world created)) = Some record).
  { rewrite Hw. unfold invoiceOfId. cbn. apply find_last; [exact Hfresh|].
    rewrite Hrid. apply String.eqb_refl. }
  destruct (on_invoice_payment_succeeded_run ev env2
              (mkSt (store (world created)) (history (world created)) (mkRes [] None)))
    as (s' & Hrun & Hres & Hvs & His & _ & _ & Hm).
  cbn [db] in Hvs, His, Hm. rewrite Hobj in His, Hm. rewrite Hfound in Hm.
  destruct Hm as (entry2 & Hl & He2 & _ & Hr2).
  rewrite <- Hhandler in Hrun.
  pose proof (serve_webhook_verified env2 tok2 rawBody sig ev (world created) s' Hv Hrun Hres)
    as Hpaid.
  fold paid in Hpaid.
  assert (His' : invoices (db s') = invoices (store w) ++ [asPaid record]).
  { rewrite His, Hw. cbn. unfold updatedInvoices.
    rewrite updateFirst_last; [reflexivity | exact Hfresh |].
    rewrite Hrid. apply String.eqb_refl. }
  exists record, entry1, entry2.
  split; [rewrite Hw; reflexivity|]. split; [exact Hrid|]. split; [exact Hrs|].
  split; [rewrite Hpaid; exact His'|].
  split; [unfold ledger; rewrite Hpaid; cbn; rewrite Hl, Hw; cbn;
          rewrite <- app_assoc; reflexivity|].
  repeat (split; [assumption|]).
  subst listed. rewrite Hpaid. enter_route. rewrite (authenticateToken_ok _ _ _ _ _ Hauth3).
  unfold customer_invoices, Invoice.find. js_unfold. cbn. rewrite His'.
  rewrite filter_app. cbn. rewrite Hrc, String.eqb_refl. cbn.
  rewrite (filter_ext (Invoice.matches [Invoice.customerId_is customerId])
             (fun i => String.eqb (InvoiceSchema.customerId i) customerId))
    by (intros i; cbn; apply andb_true_r).
  reflexivity.
Qed.

(** ** The session a login opens *)

(** X26: the cookie of a successful vendor login is what the guarded
    routes accept afterwards.  With a token that verifies to the payload
    that was signed, GET /check-auth and GET /vendor/get-current-user
    answer 200 with the data of the vendor who logged in, and the two
    admin-only routes refuse with 403. *)
Theorem X26_vendor_login_opens_vendor_session env1 env2 tok u p w v token :
  nonEmpty u = true -> nonEmpty p = true ->
  vendorNamed u (store w) = Some v ->
  bcrypt_compare env1 (VStr p) (VendorSchema.password v) = Ok true ->
  VendorSchema.approved v = true ->
  jwt_sign env1 (mkUser (VendorSchema.username v) "vendor") (JWT_SECRET env1) = Ok token ->
  jwt_verify env2 token (JWT_SECRET env2) = Ok (mkUser (VendorSchema.username v) "vendor") ->
  let attempt := serve env1 (mkRequest tok (POST_login (Some u) (Some (VStr p)))) w in
  let session r := serve env2 (mkRequest (Some token) r) (world attempt) in
  let denied := mkResponse 403 [] (Json (message_ "Access denied. Admins only.")) in
  option_map setCookies (response attempt)
  = Some [SetCookie "token" token (secureCookies env1)] /\
  response (session GET_check_auth)
  = Some (mkResponse 200 [] (Json (VObj [("user", currentUser v)]))) /\
  response (session GET_vendor_get_current_user)
  = Some (mkResponse 200 [] (Json (VObj [("vendor", currentUser v)]))) /\
  (forall search eventType,
      response (session (GET_admin_activity_log search eventType)) = Some denied) /\
  (forall username, response (session (GET_admin_vendor_details username)) = Some denied).
Proof.
  intros Hu Hp Hfind Hcmp Happroved Hsign Hverify attempt session denied.
  assert (Hname : VendorSchema.username v = u).
  { unfold vendorNamed in Hfind. apply find_some in Hfind. destruct Hfind as [_ E].
    apply String.eqb_eq. exact E. }
  assert (Hattempt :
            option_map setCookies (response attempt)
            = Some [SetCookie "token" token (secureCookies env1)] /\
            store (world attempt) = store w).
  { subst attempt. enter_route. unfold login.
    rewrite truthy_Some, truthyValue_VStr, Hu, Hp. cbn [negb orb showOpt].
    unfold jwt_sign_, res_cookie, addCookie. js_unfold. cbn.
    rewrite Vendor_findOne_username. cbn. rewrite Hfind. cbn. rewrite Hcmp. cbn.
    rewrite Happroved. cbn. rewrite Hsign. cbn. auto. }
  destruct Hattempt as [Hcookie Hstore]. split; [exact Hcookie|].
  subst session. cbv beta.
  repeat split; intros; enter_route; rewrite (authenticateToken_ok _ _ _ _ _ Hverify).
  - unfold check_auth. js_unfold. cbn. rewrite Hname.
    destruct (String.eqb_spec "vendor" "admin") as [E|_]; [discriminate E|].
    cbn. rewrite Vendor_findOne_username. cbn. rewrite Hstore, Hfind. reflexivity.
  - unfold vendor_get_current_user. js_unfold. cbn. rewrite Hname.
    rewrite Vendor_findOne_username. cbn. rewrite Hstore, Hfind. reflexivity.
  - unfold admin_activity_log. cbn. reflexivity.
  - unfold admin_vendor_details. cbn. reflexivity.
Qed.

(** ** Refunds *)

Lemma noRefund_PreOrder : PreOrder noRefund.
Proof.
  split.
  - intros s. reflexivity.
  - intros s1 s2 s3 H1 H2. unfold noRefund in *. congruence.
Qed.

#[local] Existing Instance noRefund_PreOrder.

Lemma follows_noRefund_putDb d : follows noRefund (putDb d).
Proof. intros env s. reflexivity. Qed.

Lemma follows_noRefund_perform e :
  match e with StripeCall (Stripe.refunds_create _) => False | _ => True end ->
  follows noRefund (perform e).
Proof.
  intros He env s. unfold noRefund, perform, refundAttempts. cbn. rewrite flat_map_app. cbn.
  destruct e as [| [] | |]; try contradiction; cbn; apply app_nil_r.
Qed.

Lemma follows_noRefund_send code b : follows noRefund (send code b).
Proof.
  intros env s. unfold noRefund, send, refundAttempts.
  destruct (sent (res s)); cbn; [reflexivity|]. rewrite flat_map_app. cbn. apply app_nil_r.
Qed.

Lemma follows_noRefund_addCookie c : follows noRefund (addCookie c).
Proof. intros env s. unfold noRefund, addCookie. destruct (sent (res s)); reflexivity. Qed.

Lemma follows_noRefund_performAll es :
  Forall (fun e => match e with StripeCall (Stripe.refunds_create _) => False | _ => True end)
    es ->
  follows noRefund (performAll es).
Proof.
  induction 1 as [|e es He _ IH]; cbn [performAll]; [apply follows_ret; typeclasses eauto|].
  apply follows_bind; [typeclasses eauto | apply follows_noRefund_perform; exact He |].
  intros _. exact IH.
Qed.

Lemma follows_noRefund_retrieves cs :
  follows noRefund (performAll (map (fun c => StripeCall (Stripe.customers_retrieve c)) cs)).
Proof. apply follows_noRefund_performAll, Forall_retrieves. intros c. exact I. Qed.

Lemma follows_noRefund_continuations env choose cs :
  follows noRefund (performAll (interleave choose (map (continuation env) cs))).
Proof.
  apply follows_noRefund_performAll, Forall_continuations; intros; exact I.
Qed.

#[local] Hint Resolve follows_noRefund_putDb follows_noRefund_send follows_noRefund_addCookie
  follows_noRefund_retrieves follows_noRefund_continuations : fs.
#[local] Hint Extern 1 (follows noRefund (perform _)) =>
  apply follows_noRefund_perform; exact I : fs.

Lemma follows_noRefund_authenticateToken tok next :
  (forall user, follows noRefund (next user)) -> follows noRefund (authenticateToken tok next).
Proof.
  intros H. unfold authenticateToken. destruct tok; [|fs_by_unfolding].
  apply follows_bind; [typeclasses eauto | apply follows_ask; typeclasses eauto |].
  intros env. destruct (jwt_verify _ _ _); [apply H | fs_by_unfolding].
Qed.

Lemma follows_noRefund_app req :
  (forall rawBody sig, route req <> POST_stripe_webhook rawBody sig) ->
  follows noRefund (app req).
Proof.
  unfold app. destruct (route req); intros Hr; cbv zeta;
    try (apply follows_noRefund_authenticateToken; intros user).
  - unfold root. fs_by_unfolding.
  - unfold register. fs_by_unfolding.
  - unfold login. fs_by_unfolding.
  - unfold admin_login. fs_by_unfolding.
  - unfold admin_vendors_pending. fs_by_unfolding.
  - unfold admin_vendors_approve. fs_by_unfolding.
  - unfold create_customer. fs_by_unfolding.
  - unfold create_setup_intent. fs_by_unfolding.
  - unfold vendor_add_customer. fs_by_unfolding.
  - unfold vendor_customers. fs_by_unfolding.
  - unfold create_payment_intent. fs_by_unfolding.
  - unfold create_invoice. fs_by_unfolding.
  - unfold vendor_create_subscription. fs_by_unfolding.
  - unfold vendor_request_payout. fs_by_unfolding.
  - exfalso. eapply Hr. reflexivity.
  - unfold admin_vendors_all. fs_by_unfolding.
  - unfold admin_analytics. fs_by_unfolding.
  - unfold vendor_invoices. fs_by_unfolding.
  - unfold admin_activity_log. fs_by_unfolding.
  - unfold vendor_create_stripe_connect_account. fs_by_unfolding.
  - unfold customer_invoices. fs_by_unfolding.
  - unfold vendor_get_current_user. fs_by_unfolding.
  - unfold vendor_create_subscription_setup_intent. fs_by_unfolding.
  - unfold admin_vendor_details. fs_by_unfolding.
  - unfold check_auth. fs_by_unfolding.
  - unfold logout. fs_by_unfolding.
  - unfold customer_generate_invite_link. fs_by_unfolding.
  - unfold vendor_payout_history. fs_by_unfolding.
  - unfold vendor_cancel_subscription. fs_by_unfolding.
Qed.

(** X27: the server asks Stripe for a refund only on a verified
    [charge.dispute.created] event, and then for the disputed charge
    alone: no other route and no other event, whatever the request, makes
    a refund. *)
Theorem X27_refunds_only_follow_disputes env req w :
  refundAttempts (history (world (serve env req w)))
  = refundAttempts (history w) ++ refundsOf env req.
Proof.
  unfold refundsOf.
  destruct req as [tok r]. cbn [route].
  destruct r as [| | | | | | | | | | | | | | rawBody sig | | | | | | | | | | | | | |].
  15: {
    destruct (verification env rawBody sig) as [ev|err] eqn:Hv.
    - destruct (delivery_summary env tok rawBody sig ev w Hv)
        as (s' & entries & _ & -> & _ & _ & _ & _ & Hq).
      exact Hq.
    - rewrite (serve_webhook_rejected _ _ _ _ _ _ Hv). cbn.
      unfold refundAttempts. rewrite flat_map_app. reflexivity. }
  all: rewrite app_nil_r; unfold serve.
  all: match goal with |- context [app ?req ?e ?s] =>
         pose proof (follows_noRefund_app req
                       ltac:(intros; cbn; discriminate) e s) as H;
         destruct (app req e s) as [x s']; exact H
       end.
Qed.

(** ** A customer at Stripe *)

(** X28: POST /create-customer needs no token.  It asks Stripe for one
    customer; when Stripe returns one, one [customer_added] entry names
    the customer's Stripe id and the answer is 201 with that id; when
    Stripe fails, the answer is 500 and nothing is written.  Vendors and
    invoices are not touched. *)
Theorem X28_customer_recorded_when_created env tok email name phone w :
  let o := serve env (mkRequest tok (POST_create_customer email name phone)) w in
  vendors (store (world o)) = vendors (store w) /\
  invoices (store (world o)) = invoices (store w) /\
  stripeCalls (history (world o))
  = stripeCalls (history w) ++ [Stripe.customers_create email name None phone] /\
  match on_customers_create (stripe env) email name None phone with
  | Ok customer =>
      response o
      = Some (mkResponse 201 []
                (Json (VObj [("message", VStr "Stripe customer created successfully.");
                             ("customerId", VStr (Stripe.Customer.id customer))]))) /\
      exists entry,
        ledger (world o) = ledger w ++ [entry] /\
        ActivityLogSchema.eventType entry = "customer_added"%string /\
        ActivityLogSchema.description entry
        = ("New customer added: " ++ showOpt name ++ " (" ++ showOpt email ++ ")")%string /\
        ActivityLogSchema.relatedId entry = Some (Stripe.Customer.id customer)
  | Throw e =>
      response o
      = Some (mkResponse 500 [] (Json (message_error "Failed to create Stripe customer." e))) /\
      ledger (world o) = ledger w /\
      dbWrites (history (world o)) = dbWrites (history w)
  end.
Proof.
  intros o. subst o. enter_route. unfold create_customer. js_unfold. cbn.
  destruct (on_customers_create _ _ _ _ _) as [customer|e]; cbn.
  - rewrite create_eq by reflexivity. cbn.
    repeat (split; [try reflexivity; obs; reflexivity|]).
    eexists. unfold ledger. cbn. repeat split; reflexivity.
  - repeat split; obs; reflexivity.
Qed.

(* ------------------------------------------------------------------ *)
(** * The further properties on the bench *)

Lemma distinctIds_benchWorld : distinctIds (store benchWorld).
Proof. unfold distinctIds. cbn. repeat constructor. intros []. Defined.

Lemma distinctIds_connectedWorld : distinctIds (store connectedWorld).
Proof.
  unfold distinctIds. cbn. repeat constructor; cbn; [|tauto].
  intros [H|[]]. discriminate H.
Defined.

(** X1 on the bench: a request for the analytics without a cookie. *)
Lemma X1_witness :
  let o := serve bench (mkRequest None GET_admin_analytics) benchWorld in
  behindAuth GET_admin_analytics = true /\
  refusal bench None = Some 401%Z /\
  option_map statusCode (response o) = Some 401%Z /\
  store (world o) = store benchWorld /\
  stripeCalls (history (world o)) = [] /\
  dbWrites (history (world o)) = [] /\
  rejection o = None.
Proof.
  cbv zeta. split; [reflexivity|]. split; [reflexivity|].
  refine (X1_unauthenticated_request_changes_nothing bench None GET_admin_analytics benchWorld
            eq_refl _).
  cbv. discriminate.
Defined.

(** X2 on the bench: the administrator reads the ledger. *)
Lemma X2_witness :
  let req := mkRequest (Some "admin-token") (GET_admin_activity_log None None) in
  isGET (route req) = true /\
  store (world (serve bench req benchWorld)) = store benchWorld.
Proof.
  cbv zeta. split; [reflexivity|].
  exact (X2_GET_requests_leave_the_store_alone bench
           (mkRequest (Some "admin-token") (GET_admin_activity_log None None)) benchWorld
           eq_refl).
Defined.

(** X4 on the bench: a registration without a password. *)
Lemma X4_witness :
  let o := serve bench (mkRequest None (POST_register (Some "v2") None)) benchWorld in
  let resp := mkResponse 400 [] (Json (message_ "Username and password are required.")) in
  truthy (Some "v2") && truthy None = false /\
  response o = Some resp /\
  world o = mkWorld (store benchWorld) [Sent resp] /\
  rejection o = None.
Proof.
  cbv zeta. split; [reflexivity|].
  exact (X4_register_refuses_before_acting bench None (Some "v2") None benchWorld
           (or_introl eq_refl)).
Defined.

(** X5 on the bench: vendor [v2] registers. *)
Lemma X5_witness :
  let env := bench in
  let o := serve env (mkRequest None (POST_register (Some "v2") (Some "secret"))) benchWorld in
  vendorNamed "v2" (store benchWorld) = None /\
  on_customers_create (stripe env) (Some "v2") (Some "v2") (Some "Vendor: v2") None
  = Ok customerWithCard /\
  Date_now env 1 = 1700000000001%Z /\
  exists entry,
    vendors (store (world o))
    = [vendor1; registered "oid1" "v2" "hash:secret" "cus_9" 1700000000001%Z] /\
    VendorSchema.trialEndsAt (registered "oid1" "v2" "hash:secret" "cus_9" 1700000000001%Z)
    = Some 1702592000001%Z /\
    invoices (store (world o)) = [invoice1] /\
    ledger (world o) = [entry] /\
    ActivityLogSchema.eventType entry = "vendor_registered"%string /\
    ActivityLogSchema.description entry = "New vendor registered: v2"%string /\
    ActivityLogSchema.relatedId entry = Some "oid1"%string /\
    stripeCalls (history (world o))
    = [Stripe.customers_create (Some "v2") (Some "v2") (Some "Vendor: v2") None] /\
    response o
    = Some (mkResponse 201 []
              (Json (message_ "Vendor registered successfully. Awaiting admin approval."))) /\
    rejection o = None.
Proof.
  cbv zeta. do 3 (split; [reflexivity|]).
  exact (X5_register_stores_pending_vendor bench None "v2" "secret" benchWorld customerWithCard
           eq_refl eq_refl eq_refl eq_refl eq_refl eq_refl).
Defined.

(** X6 on the bench: the approved vendor [v1] logs in. *)
Lemma X6_witness :
  let o := serve bench (mkRequest None (POST_login (Some "v1") (Some (VStr "secret"))))
             benchWorld in
  vendorNamed "v1" (store benchWorld) = Some vendor1 /\
  bcrypt_compare bench (VStr "secret") (VendorSchema.password vendor1) = Ok true /\
  jwt_sign bench (mkUser "v1" "vendor") (JWT_SECRET bench) = Ok "token-of-v1" /\
  response o
  = Some (mkResponse 200 [SetCookie "token" "token-of-v1" false]
            (Json (VObj [("message", VStr "Login successful!");
                         ("vendor", loginPayload vendor1)]))) /\
  store (world o) = store benchWorld /\
  rejection o = None.
Proof.
  cbv zeta. do 3 (split; [reflexivity|]).
  exact (X6_login_needs_approval bench None "v1" "secret" benchWorld vendor1 "token-of-v1"
           eq_refl eq_refl eq_refl eq_refl eq_refl).
Defined.

(** X7 on the bench: vendor [v1], with a vendor's token, approves a
    vendor. *)
Lemma X7_witness :
  let o := serve bench (mkRequest (Some "vendor-token") (POST_admin_vendors_approve "v1"))
             benchWorld in
  jwt_verify bench "vendor-token" (JWT_SECRET bench) = Ok (mkUser "v1" "vendor") /\
  exists before after entry,
    vendors (store benchWorld) = before ++ vendor1 :: after /\
    vendors (store (world o)) = before ++ withApproved vendor1 true :: after /\
    invoices (store (world o)) = invoices (store benchWorld) /\
    ledger (world o) = ledger benchWorld ++ [entry] /\
    ActivityLogSchema.eventType entry = "vendor_approved"%string /\
    ActivityLogSchema.relatedId entry = Some "oid-v1"%string /\
    response o
    = Some (mkResponse 200 [] (Json (message_ "Vendor v1 approved successfully."))).
Proof.
  cbv zeta. split; [reflexivity|].
  exact (X7_any_authenticated_user_approves bench "vendor-token" (mkUser "v1" "vendor") "v1"
           benchWorld eq_refl).
Defined.

(** X8 on the bench: [v2] registers, is told to wait, is approved and
    logs in. *)
Lemma X8_witness :
  let attempt := mkRequest None (POST_login (Some "v2") (Some (VStr "secret"))) in
  let w1 := world (serve bench (mkRequest None (POST_register (Some "v2") (Some "secret")))
                     benchWorld) in
  let w2 := world (serve bench (mkRequest (Some "admin-token") (POST_admin_vendors_approve "v2"))
                     w1) in
  vendorNamed "v2" (store benchWorld) = None /\
  bcrypt_compare bench (VStr "secret") (bcrypt_hash bench "secret") = Ok true /\
  response (serve bench attempt w1)
  = Some (mkResponse 403 [] (Json (message_ "Your account is awaiting admin approval."))) /\
  option_map statusCode (response (serve bench attempt w2)) = Some 200%Z /\
  option_map setCookies (response (serve bench attempt w2))
  = Some [SetCookie "token" "token-of-v2" false].
Proof.
  cbv zeta. do 2 (split; [reflexivity|]).
  exact (X8_login_works_once_approved bench bench bench None "admin-token" None
           (mkUser "admin" "admin") "v2" "secret" benchWorld customerWithCard "token-of-v2"
           eq_refl eq_refl eq_refl eq_refl eq_refl eq_refl eq_refl eq_refl eq_refl).
Defined.

(** X9 on the bench: customer [cus_10] is associated with [v1], twice. *)
Lemma X9_witness :
  let add := mkRequest (Some "vendor-token") (POST_vendor_add_customer "v1" "cus_10") in
  let o := serve bench add benchWorld in
  let again := serve bench add (world o) in
  let conflict :=
    mkResponse 409 [] (Json (message_ "Customer already associated with this vendor.")) in
  vendorNamed "v1" (store benchWorld) = Some vendor1 /\
  (response o
   = Some (mkResponse 200 [] (Json (message_ "Customer associated with vendor successfully."))) /\
   exists before after,
     vendors (store benchWorld) = before ++ vendor1 :: after /\
     vendors (store (world o))
     = before ++ withCustomers vendor1 ["cus_9"; "cus_10"] :: after) /\
  response again = Some conflict /\
  store (world again) = store (world o).
Proof.
  cbv zeta. split; [reflexivity|].
  exact (X9_customer_is_associated_once bench bench "vendor-token" "vendor-token"
           (mkUser "v1" "vendor") (mkUser "v1" "vendor") "v1" "cus_10" benchWorld vendor1
           eq_refl eq_refl eq_refl distinctIds_benchWorld).
Defined.


(** X11 on the bench: Stripe returns the id of an invoice that is
    already stored. *)
Lemma X11_witness :
  let env := invoicing customerWithoutCard finalizedOpen in
  let o := serve env createInvoice benchWorld in
  invoiceOfId (Stripe.Invoice.id benchDraft) (store benchWorld) = Some invoice1 /\
  option_map statusCode (response o) = Some 200%Z /\
  rejection o = Some ERR_HTTP_HEADERS_SENT /\
  store (world o) = store benchWorld /\
  dbWrites (history (world o)) = [].
Proof.
  cbv zeta. split; [reflexivity|].
  refine (X11_invoice_answered_before_written (invoicing customerWithoutCard finalizedOpen)
            "vendor-token" (mkUser "v1" "vendor") "cus_9" 50%float "Consulting" benchWorld
            customerWithoutCard benchDraft benchDraft
            eq_refl eq_refl eq_refl eq_refl eq_refl eq_refl eq_refl eq_refl _).
  cbv. discriminate.
Defined.

(** X12 on the bench: a payment for a customer with one card. *)
Lemma X12_witness :
  let o := serve working
             (mkRequest (Some "vendor-token") (POST_create_payment_intent "cus_9" 50%float))
             benchWorld in
  jwt_verify working "vendor-token" (JWT_SECRET working) = Ok (mkUser "v1" "vendor") /\
  store (world o) = store benchWorld /\
  stripeCalls (history (world o))
  = [Stripe.paymentMethods_list "cus_9";
     Stripe.paymentIntents_create "cus_9" (50 * 100)%float "pm_1"] /\
  response o
  = Some (mkResponse 200 []
            (Json (VObj [("message", VStr "Payment successful!");
                         ("paymentIntentId", VStr "pi_1")]))).
Proof.
  cbv zeta. split; [reflexivity|].
  exact (X12_payment_needs_a_card working "vendor-token" (mkUser "v1" "vendor") "cus_9"
           50%float benchWorld eq_refl).
Defined.

(** X13 on the bench: vendor [v2], who has a connected account, asks for
    a payout. *)
Lemma X13_witness :
  let o := serve working
             (mkRequest (Some "vendor-token") (POST_vendor_request_payout "v2" 50%float))
             connectedWorld in
  jwt_verify working "vendor-token" (JWT_SECRET working) = Ok (mkUser "v1" "vendor") /\
  vendors (store (world o)) = [vendor1; vendor2] /\
  invoices (store (world o)) = [invoice1] /\
  stripeCalls (history (world o)) = [Stripe.payouts_create (50 * 100)%float "acct_2"] /\
  option_map statusCode (response o) = Some 200%Z /\
  exists entry,
    ledger (world o) = [entry] /\
    ActivityLogSchema.eventType entry = "payout_requested"%string /\
    ActivityLogSchema.relatedId entry = Some "po_1"%string.
Proof.
  cbv zeta. split; [reflexivity|].
  exact (X13_payout_needs_connected_account working "vendor-token" (mkUser "v1" "vendor") "v2"
           50%float connectedWorld eq_refl).
Defined.

(** X14 on the bench: vendor [v1] subscribes. *)
Lemma X14_witness :
  let o := serve working
             (mkRequest (Some "vendor-token") (POST_vendor_create_subscription "v1" "pm_1"))
             benchWorld in
  let v' := withSubscriptionStatus vendor1 "active" in
  vendorNamed "v1" (store benchWorld) = Some vendor1 /\
  stripeCalls (history (world o))
  = [Stripe.paymentMethods_attach "pm_1" "cus_1";
     Stripe.customers_update "cus_1" "pm_1";
     Stripe.subscriptions_create "cus_1" "price_12345"] /\
  invoices (store (world o)) = [invoice1] /\
  response o
  = Some (mkResponse 200 []
            (Json (VObj [("message", VStr "Subscription successful!");
                         ("subscriptionId", VStr "sub_1");
                         ("vendor", Vendor.toJSON v')]))) /\
  exists before after entry,
    vendors (store benchWorld) = before ++ vendor1 :: after /\
    vendors (store (world o)) = before ++ v' :: after /\
    ledger (world o) = [entry] /\
    ActivityLogSchema.eventType entry = "vendor_subscribed"%string /\
    ActivityLogSchema.relatedId entry = Some "oid-v1"%string.
Proof.
  cbv zeta. split; [reflexivity|].
  exact (X14_subscription_recorded_after_stripe working "vendor-token" (mkUser "v1" "vendor")
           "v1" "pm_1" benchWorld vendor1 eq_refl eq_refl distinctIds_benchWorld).
Defined.

(** X15 on the bench: vendor [v1] cancels. *)
Lemma X15_witness :
  let o := serve working (mkRequest (Some "vendor-token") POST_vendor_cancel_subscription)
             benchWorld in
  let v' := withSubscriptionStatus vendor1 "canceled" in
  jwt_verify working "vendor-token" (JWT_SECRET working) = Ok (mkUser "v1" "vendor") /\
  stripeCalls (history (world o))
  = [Stripe.subscriptions_list "cus_1"; Stripe.subscriptions_cancel "sub_1"] /\
  invoices (store (world o)) = [invoice1] /\
  response o
  = Some (mkResponse 200 []
            (Json (VObj [("message", VStr "Subscription canceled successfully.");
                         ("vendor", Vendor.toJSON v')]))) /\
  exists before after entry,
    vendors (store benchWorld) = before ++ vendor1 :: after /\
    vendors (store (world o)) = before ++ v' :: after /\
    ledger (world o) = [entry] /\
    ActivityLogSchema.eventType entry = "subscription_canceled"%string /\
    ActivityLogSchema.relatedId entry = Some "oid-v1"%string.
Proof.
  cbv zeta. split; [reflexivity|].
  exact (X15_cancel_needs_a_subscription working "vendor-token" (mkUser "v1" "vendor")
           benchWorld vendor1 eq_refl eq_refl distinctIds_benchWorld).
Defined.

(** X16 on the bench: a payout has succeeded. *)
Lemma X16_witness :
  let o := deliver (delivering payoutSucceeded) "{}" signature benchWorld in
  verification (delivering payoutSucceeded) "{}" signature = Ok payoutSucceeded /\
  response o = Some acknowledgement /\
  rejection o = None /\
  vendors (store (world o)) = [vendor1] /\
  invoices (store (world o)) = [invoice1] /\
  stripeCalls (history (world o)) = [] /\
  exists entry,
    ledger (world o) = [entry] /\
    ActivityLogSchema.eventType entry = "payout_succeeded"%string /\
    ActivityLogSchema.relatedId entry = Some "po_1"%string.
Proof.
  cbv zeta. split; [reflexivity|].
  refine (X16_other_events_are_only_recorded (delivering payoutSucceeded) None "{}" signature
            payoutSucceeded benchWorld eq_refl _ _ _);
    cbv; discriminate.
Defined.

(** X17 on the bench: a vendor asks for the ledger. *)
Lemma X17_witness :
  let denied := mkResponse 403 [] (Json (message_ "Access denied. Admins only.")) in
  jwt_verify bench "vendor-token" (JWT_SECRET bench) = Ok (mkUser "v1" "vendor") /\
  serve bench (mkRequest (Some "vendor-token") (GET_admin_activity_log None None)) benchWorld
  = mkOutcome (mkWorld (store benchWorld) [Sent denied]) (Some denied) None.
Proof.
  cbv zeta. split; [reflexivity|].
  refine (X17_admin_only_routes_refuse_others bench "vendor-token" (mkUser "v1" "vendor")
            (GET_admin_activity_log None None) benchWorld eq_refl eq_refl _).
  cbv. discriminate.
Defined.

(** X18 on the bench: the administrator's token and a vendor's approve
    alike. *)
Lemma X18_witness :
  readsUser (POST_admin_vendors_approve "v1") = false /\
  authentication bench (Some "admin-token") = Some (Ok (mkUser "admin" "admin")) /\
  authentication bench (Some "vendor-token") = Some (Ok (mkUser "v1" "vendor")) /\
  serve bench (mkRequest (Some "admin-token") (POST_admin_vendors_approve "v1")) benchWorld
  = serve bench (mkRequest (Some "vendor-token") (POST_admin_vendors_approve "v1")) benchWorld.
Proof.
  do 3 (split; [reflexivity|]).
  exact (X18_caller_identity_is_not_consulted bench (Some "admin-token") (Some "vendor-token")
           (mkUser "admin" "admin") (mkUser "v1" "vendor") (POST_admin_vendors_approve "v1")
           benchWorld eq_refl (fun _ => conj eq_refl eq_refl)).
Defined.

(** On the bench the event loop resumes the callback of [cus_8] before
    that of [cus_7]: the three lookups are issued first, in the vendor's
    order, the failure for [cus_9] is reported next, and the invoices of
    [cus_7] are asked for last. *)
Example vendor_customers_callbacks_interleave :
  let o := serve secondFirst (mkRequest (Some "vendor-token") (GET_vendor_customers "v3"))
             portfolioWorld in
  exists answer,
  response o = Some answer /\
  history (world o)
  = [StripeCall (Stripe.customers_retrieve "cus_7");
     StripeCall (Stripe.customers_retrieve "cus_8");
     StripeCall (Stripe.customers_retrieve "cus_9");
     StripeCall (Stripe.invoices_list "cus_8");
     Console ErrorLevel
       "Error fetching Stripe customer or invoice for cus_9: No such customer: 'cus_9'";
     StripeCall (Stripe.invoices_list "cus_7");
     Sent answer].
Proof. cbv zeta. eexists. split; reflexivity. Qed.

(** X22 on the bench: vendor [v3] has three customers and Stripe does not
    know the third. *)
Lemma X22_witness :
  let env := secondFirst in
  let o := serve env (mkRequest (Some "vendor-token") (GET_vendor_customers "v3"))
             portfolioWorld in
  let returned c :=
    match on_customers_retrieve (stripe env) c with Ok _ => true | Throw _ => false end in
  vendorNamed "v3" (store portfolioWorld) = Some vendor3 /\
  List.filter returned ["cus_7"; "cus_8"; "cus_9"]%string = ["cus_7"; "cus_8"]%string /\
  exists enriched lists,
    response o = Some (mkResponse 200 [] (Json (VArr enriched))) /\
    rejection o = None /\
    Forall2 (fun c e =>
               match on_customers_retrieve (stripe env) c,
                     on_invoices_list (stripe env) c with
               | Ok customer, Ok lastInvoices =>
                   e = VObj [("id", VStr (Stripe.Customer.id customer));
                             ("name", VOptStr (Stripe.Customer.name customer));
                             ("email", VOptStr (Stripe.Customer.email customer));
                             ("phone", VOptStr (Stripe.Customer.phone customer));
                             ("lastInvoice", lastInvoiceJSON env (hd_error lastInvoices))]
               | _, _ =>
                   e = VObj [("id", VStr c);
                             ("name", VStr ("Customer " ++ c ++ " (Error)")%string);
                             ("email", VStr "error@example.com");
                             ("lastInvoice", VNull)]
               end) ["cus_7"; "cus_8"; "cus_9"]%string enriched /\
    stripeCalls (history (world o))
    = [Stripe.customers_retrieve "cus_7"; Stripe.customers_retrieve "cus_8";
       Stripe.customers_retrieve "cus_9"] ++ lists /\
    Permutation lists (map Stripe.invoices_list (List.filter returned
                                                   ["cus_7"; "cus_8"; "cus_9"]%string)).
Proof.
  cbv zeta. do 2 (split; [reflexivity|]).
  exact (X22_customer_list_survives_stripe_failures secondFirst "vendor-token"
           (mkUser "v1" "vendor") "v3" portfolioWorld vendor3 eq_refl eq_refl).
Defined.

(** X23 on the bench: the vendors that are not approved are asked for
    with [approved=false]. *)
Lemma X23_witness :
  let o := serve bench
             (mkRequest (Some "admin-token") (GET_admin_vendors_all None (Some "false") None))
             connectedWorld in
  jwt_verify bench "admin-token" (JWT_SECRET bench) = Ok (mkUser "admin" "admin") /\
  exists listed,
    response o = Some (mkResponse 200 [] (Json (VArr (map vendorSummary listed)))) /\
    (exists selects, listed = List.filter selects (vendors (store connectedWorld))) /\
    forall v,
      In v listed <->
      In v (vendors (store connectedWorld)) /\
      (forall pattern, @None string = Some pattern -> pattern <> ""%string ->
                       regexMatchI bench pattern (VendorSchema.username v) = true) /\
      (forall a, Some "false"%string = Some a ->
                 VendorSchema.approved v = String.eqb a "true") /\
      (forall s, @None string = Some s -> s <> ""%string ->
                 VendorSchema.subscriptionStatus v = s).
Proof.
  cbv zeta. split; [reflexivity|].
  exact (X23_vendor_listing_filters bench "admin-token" (mkUser "admin" "admin") None
           (Some "false") None connectedWorld eq_refl).
Defined.

(** X20 on the bench: a registration among two stored vendors. *)
Lemma X20_witness :
  let after :=
    vendors (store (world (serve bench
                             (mkRequest None (POST_register (Some "v3") (Some "secret")))
                             connectedWorld))) in
  NoDup (map VendorSchema._id [vendor1; vendor2]) /\
  exists kept new,
    after = kept ++ new /\
    Forall2 (fun old now =>
               frozenVendor now = frozenVendor old /\
               (VendorSchema.approved old = true -> VendorSchema.approved now = true) /\
               incl (VendorSchema.customers old) (VendorSchema.customers now))
      [vendor1; vendor2] kept /\
    (NoDup (map VendorSchema.username [vendor1; vendor2]) ->
     NoDup (map VendorSchema.username after)).
Proof.
  cbv zeta. split; [exact distinctIds_connectedWorld|].
  exact (X20_vendors_are_kept bench (mkRequest None (POST_register (Some "v3") (Some "secret")))
           connectedWorld distinctIds_connectedWorld).
Defined.

(** X24 on the bench: vendor [v2], who has an account, connects again. *)
Lemma X24_witness :
  let o := serve working
             (mkRequest (Some "vendor-token") (POST_vendor_create_stripe_connect_account "v2"))
             connectedWorld in
  let v' := withStripeConnectAccountId vendor2 (Some "acct_1") in
  vendorNamed "v2" (store connectedWorld) = Some vendor2 /\
  VendorSchema.stripeConnectAccountId vendor2 = Some "acct_2"%string /\
  stripeCalls (history (world o))
  = [Stripe.accounts_create "v2"; Stripe.accountLinks_create "acct_1"] /\
  invoices (store (world o)) = [invoice1] /\
  ledger (world o) = [] /\
  response o
  = Some (mkResponse 200 []
            (Json (VObj [("url", VStr "https://connect.stripe.com/setup/acct_1");
                         ("vendor", Vendor.toJSON v')]))) /\
  exists before after,
    vendors (store connectedWorld) = before ++ vendor2 :: after /\
    vendors (store (world o)) = before ++ v' :: after.
Proof.
  cbv zeta. do 2 (split; [reflexivity|]).
  exact (X24_connect_account_recorded_after_link working "vendor-token" (mkUser "v1" "vendor")
           "v2" connectedWorld vendor2 eq_refl eq_refl distinctIds_connectedWorld).
Defined.

(** X25 on the bench: an invoice for a customer without a card, then the
    event that reports it paid, then the customer's listing. *)
Lemma X25_witness :
  let env1 := invoicing customerWithoutCard finalizedOpen in
  let created := serve env1 createInvoice emptyWorld in
  let paid := deliver bench "{}" signature (world created) in
  let listed :=
    serve bench (mkRequest (Some "vendor-token") (GET_customer_invoices "cus_9")) (world paid) in
  hasDefaultPaymentMethod customerWithoutCard = false /\
  verification bench "{}" signature = Ok invoicePaid /\
  exists record entry1 entry2,
    invoices (store (world created)) = [record] /\
    InvoiceSchema.id record = "in_1"%string /\
    InvoiceSchema.status record = "open"%string /\
    invoices (store (world paid)) = [asPaid record] /\
    ledger (world paid) = [entry1; entry2] /\
    ActivityLogSchema.eventType entry1 = "invoice_created"%string /\
    ActivityLogSchema.relatedId entry1 = Some "in_1"%string /\
    ActivityLogSchema.eventType entry2 = "invoice_paid"%string /\
    ActivityLogSchema.relatedId entry2 = Some (InvoiceSchema._id record) /\
    response listed
    = Some (mkResponse 200 [] (Json (VArr [Invoice.toJSON (asPaid record)]))).
Proof.
  cbv zeta. do 2 (split; [reflexivity|]).
  exact (X25_open_invoice_is_settled_by_event
           (invoicing customerWithoutCard finalizedOpen) bench bench
           "vendor-token" None "vendor-token" (mkUser "v1" "vendor") (mkUser "v1" "vendor")
           "cus_9" 50%float "Consulting" emptyWorld customerWithoutCard benchDraft
           "{}" signature invoicePaid
           eq_refl eq_refl eq_refl eq_refl eq_refl eq_refl eq_refl eq_refl eq_refl
           eq_refl eq_refl eq_refl eq_refl).
Defined.

(** X26 on the bench: vendor [v1] logs in and uses the cookie. *)
Lemma X26_witness :
  let attempt := serve bench (mkRequest None (POST_login (Some "v1") (Some (VStr "secret"))))
                   benchWorld in
  let session r := serve inSession (mkRequest (Some "token-of-v1") r) (world attempt) in
  let denied := mkResponse 403 [] (Json (message_ "Access denied. Admins only.")) in
  jwt_sign bench (mkUser "v1" "vendor") (JWT_SECRET bench) = Ok "token-of-v1" /\
  jwt_verify inSession "token-of-v1" (JWT_SECRET inSession) = Ok (mkUser "v1" "vendor") /\
  option_map setCookies (response attempt) = Some [SetCookie "token" "token-of-v1" false] /\
  response (session GET_check_auth)
  = Some (mkResponse 200 [] (Json (VObj [("user", currentUser vendor1)]))) /\
  response (session GET_vendor_get_current_user)
  = Some (mkResponse 200 [] (Json (VObj [("vendor", currentUser vendor1)]))) /\
  (forall search eventType,
      response (session (GET_admin_activity_log search eventType)) = Some denied) /\
  (forall username, response (session (GET_admin_vendor_details username)) = Some denied).
Proof.
  cbv zeta. do 2 (split; [reflexivity|]).
  exact (X26_vendor_login_opens_vendor_session bench inSession None "v1" "secret" benchWorld
           vendor1 "token-of-v1" eq_refl eq_refl eq_refl eq_refl eq_refl eq_refl eq_refl).
Defined.
